(** * Ransomware feed ingestion: normalisation and incremental sync

    A shallow embedding of [main_script/initial_load.py] (the Backfill
    Processor) and [main_script/update_data.py] (the Delta Processor),
    followed by the properties of the specification that were checked
    against it.

    Conventions of the embedding:
    - a Python [str] is a Rocq [string]; one [ascii] stands for one code
      point below 256, so the whitespace and case tables below are those
      of Python for U+0000..U+00FF;
    - a value decoded from the feed's JSON is a [pyval]; JSON numbers
      are integers here (the scripts only ever test a number for zero);
    - a Python dict is a [gmap string pyval];
    - an exception is a constructor of [exn]; code that can raise
      returns a [res]; code that also touches the datastore, the
      snapshot directories or the logger runs in the monad [M]. *)

From Stdlib Require Import ZArith Lia Ascii String.
From stdpp Require Import base option strings pretty list sorting gmap.

Local Open Scope string_scope.
Local Open Scope Z_scope.

(** ** Python strings *)

Module PyStr.

Definition code (c : ascii) : Z := Z.of_N (Ascii.N_of_ascii c).

Definition chr (n : Z) : ascii := Ascii.ascii_of_N (Z.to_N n).

(** [str.isspace] on one character, which is also the class [\s] of
    [re] on [str] patterns. *)
Definition isspace (c : ascii) : bool :=
  let n := code c in
  ((9 <=? n) && (n <=? 13)) || ((28 <=? n) && (n <=? 32))
  || (n =? 133) || (n =? 160).

Definition isdigit (c : ascii) : bool :=
  let n := code c in (48 <=? n) && (n <=? 57).

Definition lower_char (c : ascii) : ascii :=
  let n := code c in
  if ((65 <=? n) && (n <=? 90))
     || ((192 <=? n) && (n <=? 222) && negb (n =? 215))
  then chr (n + 32) else c.

(** [s.lower()] *)
Fixpoint lower (s : string) : string :=
  match s with
  | EmptyString => EmptyString
  | String c s' => String (lower_char c) (lower s')
  end.

Fixpoint lstrip (s : string) : string :=
  match s with
  | EmptyString => EmptyString
  | String c s' => if isspace c then lstrip s' else s
  end.

Fixpoint rstrip (s : string) : string :=
  match s with
  | EmptyString => EmptyString
  | String c s' =>
      match rstrip s' with
      | EmptyString => if isspace c then EmptyString else String c EmptyString
      | r => String c r
      end
  end.

(** [s.strip()] *)
Definition strip (s : string) : string := rstrip (lstrip s).

(** [needle in s] *)
Fixpoint contains (needle s : string) : bool :=
  String.prefix needle s
  || match s with
     | EmptyString => false
     | String _ s' => contains needle s'
     end.

(** [s in l] for a list of strings *)
Definition in_list (s : string) (l : list string) : bool :=
  existsb (String.eqb s) l.

End PyStr.

(** ** Python values, exceptions *)

Local Set Warnings "-register-all".

Inductive pyval :=
| PNone
| PBool (b : bool)
| PInt (n : Z)
| PStr (s : string)
| PList (l : list pyval)
| PDict (d : gmap string pyval).

Inductive exn := TypeError | AttributeError | ValueError | DatabaseError.

Inductive res (A : Type) :=
| Ok (a : A)
| Raise (e : exn).
Arguments Ok {A} a.
Arguments Raise {A} e.

Definition res_bind {A B} (r : res A) (k : A -> res B) : res B :=
  match r with
  | Ok a => k a
  | Raise e => Raise e
  end.

Notation "x <-! r ; k" := (res_bind r (fun x => k))
  (at level 100, r at next level, right associativity).

(** [bool(v)] *)
Definition truthy (v : pyval) : bool :=
  match v with
  | PNone => false
  | PBool b => b
  | PInt n => negb (n =? 0)
  | PStr s => negb (String.eqb s "")
  | PList l => match l with [] => false | _ => true end
  | PDict d => negb (Nat.eqb (size d) 0)
  end.

(** [isinstance(v, dict)] *)
Definition is_dict (v : pyval) : option (gmap string pyval) :=
  match v with
  | PDict d => Some d
  | _ => None
  end.

(** [d.get(key, default)]: the default is used only when the key is
    missing, not when it is present with the value [None]. *)
Definition dict_get (d : gmap string pyval) (key : string) (default : pyval) : pyval :=
  match d !! key with
  | Some v => v
  | None => default
  end.

(** [v.strip()] and [v.lower()]: only [str] has these attributes. *)
Definition py_strip (v : pyval) : res string :=
  match v with
  | PStr s => Ok (PyStr.strip s)
  | _ => Raise AttributeError
  end.

Definition py_lower (v : pyval) : res string :=
  match v with
  | PStr s => Ok (PyStr.lower s)
  | _ => Raise AttributeError
  end.

(** ** [datetime] *)

Record datetime := mk_datetime {
  dt_year : Z;
  dt_month : Z;
  dt_day : Z;
  dt_hour : Z;
  dt_minute : Z;
  dt_second : Z;
  dt_microsecond : Z
}.

Module Datetime.

Definition is_leap (y : Z) : bool :=
  (y mod 4 =? 0) && (negb (y mod 100 =? 0) || (y mod 400 =? 0)).

Definition days_in_month (y m : Z) : Z :=
  if m =? 2 then (if is_leap y then 29 else 28)
  else if (m =? 4) || (m =? 6) || (m =? 9) || (m =? 11) then 30
  else 31.

Definition between (lo x hi : Z) : bool := (lo <=? x) && (x <=? hi).

(** The constructor [datetime(y, m, d, H, M, S, us)], which raises
    [ValueError] for a field out of range. *)
Definition new (y m d hh mi ss us : Z) : res datetime :=
  if between 1 y 9999 && between 1 m 12 && between 1 d (days_in_month y m)
     && between 0 hh 23 && between 0 mi 59 && between 0 ss 59
     && between 0 us 999999
  then Ok (mk_datetime y m d hh mi ss us)
  else Raise ValueError.

Definition fields (a : datetime) : list Z :=
  [dt_year a; dt_month a; dt_day a; dt_hour a; dt_minute a; dt_second a;
   dt_microsecond a].

(** Comparison of naive datetimes: field by field, year first. *)
Fixpoint lex_compare (xs ys : list Z) : comparison :=
  match xs, ys with
  | x :: xs', y :: ys' =>
      match x ?= y with
      | Eq => lex_compare xs' ys'
      | c => c
      end
  | [], [] => Eq
  | [], _ :: _ => Lt
  | _ :: _, [] => Gt
  end.

Definition compare (a b : datetime) : comparison :=
  lex_compare (fields a) (fields b).

(** [a > b] *)
Definition gtb (a b : datetime) : bool :=
  match compare a b with Gt => true | _ => false end.

(** [a.strftime("%m")]: the month as two decimal digits. *)
Definition strftime_m (a : datetime) : string :=
  let m := dt_month a in
  String (PyStr.chr (48 + m / 10)) (String (PyStr.chr (48 + m mod 10)) "").

End Datetime.

(** ** [datetime.strptime]

    CPython's [_strptime] turns the format into a regular expression
    (one named group per directive, every run of whitespace into
    [\s+]), takes the first match that the backtracking matcher finds
    at the start of the input, rejects it when input is left over, and
    builds the [datetime] from the groups.  Only the directives of the
    three formats of [parse_date] are tabulated; any other directive is
    rejected here. *)

Module Strptime.

Inductive token :=
| TDir (c : ascii)
| TLit (c : ascii)
| TSpace.

Definition cons_space (ts : list token) : list token :=
  match ts with
  | TSpace :: _ => ts
  | _ => TSpace :: ts
  end.

Fixpoint tokenize (format : string) : option (list token) :=
  match format with
  | EmptyString => Some []
  | String c rest =>
      if Ascii.eqb c "%" then
        match rest with
        | EmptyString => None
        | String d rest' => cons (TDir d) <$> tokenize rest'
        end
      else if PyStr.isspace c then cons_space <$> tokenize rest
      else cons (TLit c) <$> tokenize rest
  end.

(** A character class, and an alternative as a sequence of classes. *)
Definition cclass := ascii -> bool.

Definition one (c : ascii) : cclass := Ascii.eqb c.
Definition range (lo hi : ascii) : cclass :=
  fun c => Datetime.between (PyStr.code lo) (PyStr.code c) (PyStr.code hi).
Definition digit : cclass := PyStr.isdigit.

(** The text matched by the alternative, and the rest of the input. *)
Fixpoint match_alt (a : list cclass) (s : string) : option (string * string) :=
  match a with
  | [] => Some (EmptyString, s)
  | p :: a' =>
      match s with
      | EmptyString => None
      | String c s' =>
          if p c then
            match match_alt a' s' with
            | Some (txt, rest) => Some (String c txt, rest)
            | None => None
            end
          else None
      end
  end.

(** An ordered alternation: the matches in the order in which the
    backtracking matcher tries them. *)
Definition match_alts (alts : list (list cclass)) (s : string)
  : list (string * string) :=
  omap (fun a => match_alt a s) alts.

Definition directive_regex (d : ascii) : option (list (list cclass)) :=
  if Ascii.eqb d "Y" then Some [[digit; digit; digit; digit]]
  else if Ascii.eqb d "m" then
    Some [[one "1"; range "0" "2"]; [one "0"; range "1" "9"]; [range "1" "9"]]
  else if Ascii.eqb d "d" then
    Some [[one "3"; range "0" "1"]; [range "1" "2"; digit];
          [one "0"; range "1" "9"]; [range "1" "9"];
          [one " "; range "1" "9"]]
  else if Ascii.eqb d "H" then
    Some [[one "2"; range "0" "3"]; [range "0" "1"; digit]; [digit]]
  else if Ascii.eqb d "M" then
    Some [[range "0" "5"; digit]; [digit]]
  else if Ascii.eqb d "S" then
    Some [[one "6"; range "0" "1"]; [range "0" "5"; digit]; [digit]]
  else if Ascii.eqb d "f" then
    Some [[digit; digit; digit; digit; digit; digit];
          [digit; digit; digit; digit; digit];
          [digit; digit; digit; digit];
          [digit; digit; digit];
          [digit; digit];
          [digit]]
  else None.

(** [\s*] and [\s+], greedy: the possible rests, longest match first. *)
Fixpoint ws_star (s : string) : list string :=
  match s with
  | EmptyString => [s]
  | String c s' => if PyStr.isspace c then ws_star s' ++ [s] else [s]
  end.

Definition ws_plus (s : string) : list string :=
  match s with
  | EmptyString => []
  | String c s' => if PyStr.isspace c then ws_star s' else []
  end.

(** [int(txt)] for a text of digits with optional blanks around. *)
Fixpoint int_digits (acc : Z) (txt : string) : Z :=
  match txt with
  | EmptyString => acc
  | String c txt' =>
      if PyStr.isdigit c then int_digits (10 * acc + (PyStr.code c - 48)) txt'
      else int_digits acc txt'
  end.

Definition int (txt : string) : Z := int_digits 0 txt.

(** The named groups of a match, with the defaults of [_strptime]. *)
Record found := mk_found {
  g_Y : Z; g_m : Z; g_d : Z; g_H : Z; g_M : Z; g_S : Z; g_f : Z
}.

Definition found0 : found := mk_found 1900 1 1 0 0 0 0.

(** [%f]: the digits padded with zeros on the right to six. *)
Definition fraction (txt : string) : Z :=
  int txt * 10 ^ (6 - Z.of_nat (String.length txt)).

Definition set_group (d : ascii) (txt : string) (g : found) : found :=
  let '(mk_found yr mo dy hh mi ss fr) := g in
  if Ascii.eqb d "Y" then mk_found (int txt) mo dy hh mi ss fr
  else if Ascii.eqb d "m" then mk_found yr (int txt) dy hh mi ss fr
  else if Ascii.eqb d "d" then mk_found yr mo (int txt) hh mi ss fr
  else if Ascii.eqb d "H" then mk_found yr mo dy (int txt) mi ss fr
  else if Ascii.eqb d "M" then mk_found yr mo dy hh (int txt) ss fr
  else if Ascii.eqb d "S" then mk_found yr mo dy hh mi (int txt) fr
  else if Ascii.eqb d "f" then mk_found yr mo dy hh mi ss (fraction txt)
  else g.

(** All matches of the compiled format at the start of [s], in the
    matcher's order; the pattern is compiled with [re.IGNORECASE].  A
    directive outside the table yields no match: [strptime] raises
    [ValueError] for it as for a mismatch. *)
Fixpoint regex_match (ts : list token) (g : found) (s : string)
  : list (found * string) :=
  match ts with
  | [] => [(g, s)]
  | TLit c :: ts' =>
      match s with
      | EmptyString => []
      | String c' s' =>
          if Ascii.eqb (PyStr.lower_char c) (PyStr.lower_char c')
          then regex_match ts' g s' else []
      end
  | TSpace :: ts' =>
      flat_map (regex_match ts' g) (ws_plus s)
  | TDir d :: ts' =>
      match directive_regex d with
      | None => []
      | Some alts =>
          flat_map (fun m => regex_match ts' (set_group d m.1 g) m.2)
                   (match_alts alts s)
      end
  end.

Definition build (g : found) : res datetime :=
  Datetime.new (g_Y g) (g_m g) (g_d g) (g_H g) (g_M g) (g_S g) (g_f g).

Definition strptime (data_string : pyval) (format : string) : res datetime :=
  match data_string with
  | PStr s =>
      match tokenize format with
      | None => Raise ValueError
      | Some ts =>
          match regex_match ts found0 s with
          | [] => Raise ValueError
          | (g, rest) :: _ =>
              if String.eqb rest "" then build g else Raise ValueError
          end
      end
  | _ => Raise TypeError
  end.

End Strptime.

(** ** The persisted record, the datastore, the snapshot directories *)

(** The [month] cell holds what [extract_month] returned: an [int] in
    the backfill script, a [str] in the delta script. *)
Inductive month_val :=
| MonthInt (n : Z)
| MonthStr (s : string).

(** One row of a frame or of a year table (the table's identity column
    is left out).  A missing timestamp (None, NaT) is [None]. *)
Record row := mk_row {
  sector : string;
  country : string;
  post_title : string;
  group_name : string;
  discovered_date : option datetime;
  attack_date : option datetime;
  month : option month_val
}.

Inductive level := INFO | WARNING | ERROR.

Inductive snapshot_kind := NewRecords | CurrentState.

(** The log lines of the two scripts, by call site. *)
Inductive message :=
| MsgTruncated (table : string)
| MsgTruncateError (table : string)
| MsgFetchError (year : Z)
| MsgNoData (year : Z)
| MsgNoProcessed (year : Z)
| MsgSaved (n : nat) (table : string)
| MsgStatsHeader (year : Z)
| MsgIncidents (n : nat)
| MsgGroups (n : nat)
| MsgCountries (n : nat)
| MsgSaveError (table : string)
| MsgScriptError
| MsgConnectError
| MsgLatestDateError
| MsgLatestDate (d : option datetime)
| MsgNoNewData
| MsgCsvSaved (kind : snapshot_kind) (file : string)
| MsgOldFileDeleted (file : string).

(** The statements that reached the datastore and completed. *)
Inductive db_event :=
| EvTruncate (table : string)
| EvInsert (table : string) (rows : list row)
| EvSelectMax (table : string)
| EvSelectStats (table : string)
| EvSelectAll (table : string).

(** A snapshot file: its name, its creation time, the frame written. *)
Record csv_file := mk_csv {
  f_name : string;
  f_ctime : Z;
  f_rows : list row
}.

Record world := mk_world {
  tables : gmap string (list row);
  new_records_dir : list csv_file;
  current_state_dir : list csv_file;
  db_trace : list db_event;
  log : list (level * message)
}.

(** What the collaborators do during one run: whether a datastore
    statement fails (at connect or at execute), what the feed answers
    for a year, the clock at each snapshot, where the script lives. *)
Inductive db_op := OpTruncate | OpSelectMax | OpInsert | OpSelectStats | OpSelectAll.

Inductive db_outcome := DbOk | DbConnectFails | DbExecuteFails.

(** The feed answers with a JSON [body], or the request fails with a
    [requests.RequestException] (no connection, a time-out, an error
    status after the retries), or the answer arrives and is not JSON.
    In the last case [response.json()] of the backfill script raises
    the library's own decoding error, which is a [RequestException]
    from [requests] 2.27 on and a plain [ValueError] before:
    [as_request_error] says which.  The delta script decodes with
    [json.loads], which raises [json.JSONDecodeError], a [ValueError],
    whatever the library. *)
Inductive fetch_outcome :=
| FetchOk (body : pyval)
| FetchFails
| FetchNotJson (as_request_error : bool).

Record env := mk_env {
  db_fault : db_op -> string -> db_outcome;
  remote : Z -> fetch_outcome;
  clock : snapshot_kind -> Z;
  base_dir : string
}.

(** ** State and exceptions *)

Definition M (A : Type) : Type := world -> world * res A.

Definition ret {A} (a : A) : M A := fun w => (w, Ok a).

Definition raise {A} (e : exn) : M A := fun w => (w, Raise e).

Definition bind {A B} (m : M A) (k : A -> M B) : M B :=
  fun w =>
    match m w with
    | (w', Ok a) => k a w'
    | (w', Raise e) => (w', Raise e)
    end.

Notation "x <- m ;; k" := (bind m (fun x => k))
  (at level 100, m at next level, right associativity).
Notation "m ;; k" := (bind m (fun _ => k))
  (at level 100, right associativity).

(** [try: m  except Exception as e: h e] *)
Definition try_except {A} (m : M A) (h : exn -> M A) : M A :=
  fun w =>
    match m w with
    | (w', Ok a) => (w', Ok a)
    | (w', Raise e) => h e w'
    end.

Definition lift {A} (r : res A) : M A := fun w => (w, r).

Definition logger (l : level) (msg : message) : M unit :=
  fun w => (mk_world (tables w) (new_records_dir w) (current_state_dir w)
                     (db_trace w) (log w ++ [(l, msg)]), Ok tt).

Definition set_tables (t : gmap string (list row)) (w : world) : world :=
  mk_world t (new_records_dir w) (current_state_dir w) (db_trace w) (log w).

Definition add_event (ev : db_event) (w : world) : world :=
  mk_world (tables w) (new_records_dir w) (current_state_dir w)
           (db_trace w ++ [ev]) (log w).

Definition set_dir (k : snapshot_kind) (d : list csv_file) (w : world) : world :=
  match k with
  | NewRecords => mk_world (tables w) d (current_state_dir w) (db_trace w) (log w)
  | CurrentState => mk_world (tables w) (new_records_dir w) d (db_trace w) (log w)
  end.

Definition get_dir (k : snapshot_kind) (w : world) : list csv_file :=
  match k with
  | NewRecords => new_records_dir w
  | CurrentState => current_state_dir w
  end.

(** A stable sort into descending order ([sorted(..., reverse=True)],
    [ORDER BY ... DESC]); [geb a b] says that [a] may stay before [b]. *)
Fixpoint insert_desc {A} (geb : A -> A -> bool) (x : A) (sorted : list A) : list A :=
  match sorted with
  | [] => [x]
  | y :: rest => if geb y x then y :: insert_desc geb x rest else x :: sorted
  end.

Definition sort_desc {A} (geb : A -> A -> bool) (xs : list A) : list A :=
  foldl (fun acc x => insert_desc geb x acc) [] xs.

(** ** The datastore *)

Module Db.

(** [psycopg2.connect(...)] for a statement about to be run. *)
Definition connect (E : env) (op : db_op) (table : string) : M unit :=
  match db_fault E op table with
  | DbConnectFails => raise DatabaseError
  | _ => ret tt
  end.

(** The statement itself fails when the environment says so or when
    the table does not exist. *)
Definition execute_on {A} (E : env) (op : db_op) (table : string)
    (run : list row -> world -> world * A) : M A :=
  fun w =>
    match db_fault E op table, tables w !! table with
    | DbOk, Some rows => let '(w', a) := run rows w in (w', Ok a)
    | _, _ => (w, Raise DatabaseError)
    end.

(** [TRUNCATE TABLE t RESTART IDENTITY] *)
Definition truncate (E : env) (table : string) : M unit :=
  execute_on E OpTruncate table
    (fun _ w => (add_event (EvTruncate table)
                   (set_tables (<[table := []]> (tables w)) w), tt)).

Definition max_date (a b : option datetime) : option datetime :=
  match a, b with
  | None, _ => b
  | _, None => a
  | Some x, Some y => if Datetime.gtb y x then b else a
  end.

(** [SELECT MAX(discovered_date) FROM t]; the column is a timestamp
    without time zone, so the driver hands back a naive [datetime]. *)
Definition select_max (E : env) (table : string) : M (option datetime) :=
  execute_on E OpSelectMax table
    (fun rows w => (add_event (EvSelectMax table) w,
                    foldl max_date None (discovered_date <$> rows))).

(** [SELECT COUNT( * ), COUNT(DISTINCT group_name),
    COUNT(DISTINCT NULLIF(country, '')) FROM t] *)
Definition stats_of (rows : list row) : nat * nat * nat :=
  (length rows,
   length (remove_dups (group_name <$> rows)),
   length (remove_dups (filter (fun c => c ≠ "") (country <$> rows)))).

Definition select_stats (E : env) (table : string) : M (nat * nat * nat) :=
  execute_on E OpSelectStats table
    (fun rows w => (add_event (EvSelectStats table) w, stats_of rows)).

(** [ORDER BY discovered_date DESC]: nulls first; rows with equal
    keys are kept in table order. *)
Definition date_geb (a b : option datetime) : bool :=
  match a, b with
  | None, _ => true
  | Some _, None => false
  | Some x, Some y => negb (Datetime.gtb y x)
  end.

Definition order_desc (rows : list row) : list row :=
  sort_desc (fun a b => date_geb (discovered_date a) (discovered_date b)) rows.

Definition select_all_desc (E : env) (table : string) : M (list row) :=
  execute_on E OpSelectAll table
    (fun rows w => (add_event (EvSelectAll table) w, order_desc rows)).

(** [df.to_sql(t, engine, if_exists='append', index=False)]: one
    transaction; a missing table is created. *)
Definition to_sql (E : env) (table : string) (df : list row) : M unit :=
  fun w =>
    match db_fault E OpInsert table with
    | DbOk =>
        let old : list row := default [] (tables w !! table) in
        (add_event (EvInsert table df)
           (set_tables (<[table := (old ++ df)%list]> (tables w)) w), Ok tt)
    | _ => (w, Raise DatabaseError)
    end.

End Db.

(** ** What both scripts do to a frame before writing it *)

Module Frame.

(** [df.dropna(subset=['discovered_date'])] *)
Definition dropna_discovered (df : list row) : list row :=
  filter (fun r => is_Some (discovered_date r)) df.

(** [series.replace(values, new)] on a column of strings *)
Definition replace (values : list string) (new : string) (cell : string) : string :=
  if PyStr.in_list cell values then new else cell.

Definition clean_row (r : row) : row :=
  mk_row (replace [""; "nan"; "Not Found"] "Other" (sector r))
         (replace ["nan"] "" (country r))
         (post_title r)
         (replace [""; "nan"] "Other" (group_name r))
         (discovered_date r) (attack_date r) (month r).

Definition clean (df : list row) : list row :=
  clean_row <$> dropna_discovered df.

End Frame.

(** [for x in v]: the items a [for] loop over [v] visits. *)
Fixpoint chars (s : string) : list pyval :=
  match s with
  | EmptyString => []
  | String c s' => PStr (String c EmptyString) :: chars s'
  end.

Definition iterate (v : pyval) : res (list pyval) :=
  match v with
  | PList l => Ok l
  | PDict d => Ok (PStr <$> (map_to_list d).*1)
  | PStr s => Ok (chars s)
  | _ => Raise TypeError
  end.

(** [for x in xs: body x], stopping at the first exception. *)
Fixpoint for_each {A} (xs : list A) (body : A -> M unit) : M unit :=
  match xs with
  | [] => ret tt
  | x :: xs' => body x;; for_each xs' body
  end.

(** ** [initial_load.py]: the Backfill Processor *)

Module InitialLoad.

Definition clean_sector (sector : pyval) : res string :=
  if negb (truthy sector) then Ok "Other"
  else
    low <-! py_lower sector;
    if PyStr.in_list low ["not found"; "unknown"] then Ok "Other"
    else py_strip sector.

Definition date_formats : list string :=
  ["%Y-%m-%d %H:%M:%S.%f"; "%Y-%m-%d %H:%M:%S"; "%Y-%m-%d"].

(** The [for date_format in date_formats] loop: only [ValueError] is
    caught. *)
Fixpoint try_formats (date_str : pyval) (formats : list string)
  : res (option datetime) :=
  match formats with
  | [] => Ok None
  | date_format :: rest =>
      match Strptime.strptime date_str date_format with
      | Ok d => Ok (Some d)
      | Raise ValueError => try_formats date_str rest
      | Raise e => Raise e
      end
  end.

Definition parse_date (date_str : pyval) : res (option datetime) :=
  if negb (truthy date_str) then Ok None
  else try_formats date_str date_formats.

Definition extract_month (date : option datetime) : option month_val :=
  match date with
  | Some d => Some (MonthInt (dt_month d))
  | None => None
  end.

Definition get_db_connection (E : env) (op : db_op) (table : string) : M unit :=
  Db.connect E op table.

Definition get_table_name (year : Z) : string :=
  "ransomware_data_" +:+ pretty year.

Definition clear_existing_data (E : env) (year : Z) : M unit :=
  let table_name := get_table_name year in
  try_except
    (get_db_connection E OpTruncate table_name;;
     Db.truncate E table_name;;
     logger INFO (MsgTruncated table_name))
    (fun e => logger ERROR (MsgTruncateError table_name);; raise e).

(** Only [requests.RequestException] is caught. *)
Definition fetch_data (E : env) (year : Z) : M pyval :=
  match remote E year with
  | FetchOk body => ret body
  | FetchFails | FetchNotJson true =>
      logger ERROR (MsgFetchError year);; ret (PList [])
  | FetchNotJson false => raise ValueError
  end.

(** The body of the loop over [yearly_data] (lines 125-139): [None]
    when the item is skipped, the [processed_item] otherwise. *)
Definition process_item (year : Z) (item : pyval) : res (option row) :=
  match is_dict item with
  | None => Ok None
  | Some d =>
      discovered_date <-! parse_date (dict_get d "discovered" (PStr ""));
      attack_date <-! parse_date (dict_get d "published" (PStr ""));
      match discovered_date with
      | Some dd =>
          if dt_year dd =? year then
            sector <-! clean_sector (dict_get d "activity" PNone);
            country <-! py_strip (dict_get d "country" (PStr ""));
            post_title <-! py_strip (dict_get d "post_title" (PStr ""));
            group_name <-! py_strip (dict_get d "group_name" (PStr "Other"));
            Ok (Some (mk_row sector country post_title
                        (if String.eqb group_name "" then "Other" else group_name)
                        discovered_date attack_date
                        (extract_month discovered_date)))
          else Ok None
      | None => Ok None
      end
  end.

Fixpoint process_loop (year : Z) (items : list pyval) (processed_data : list row)
  : res (list row) :=
  match items with
  | [] => Ok processed_data
  | item :: rest =>
      r <-! process_item year item;
      match r with
      | Some processed_item =>
          process_loop year rest (processed_data ++ [processed_item])
      | None => process_loop year rest processed_data
      end
  end.

Definition log_stats (year : Z) (stats : nat * nat * nat) : M unit :=
  logger INFO (MsgStatsHeader year);;
  logger INFO (MsgIncidents stats.1.1);;
  logger INFO (MsgGroups stats.1.2);;
  logger INFO (MsgCountries stats.2).

Definition process_and_save_data_by_year (E : env) (year : Z) : M unit :=
  let table_name := get_table_name year in
  clear_existing_data E year;;
  yearly_data <- fetch_data E year;;
  if negb (truthy yearly_data) then logger ERROR (MsgNoData year)
  else
    items <- lift (iterate yearly_data);;
    processed_data <- lift (process_loop year items []);;
    match processed_data with
    | [] => logger WARNING (MsgNoProcessed year)
    | _ =>
        let df := Frame.clean processed_data in
        try_except
          (Db.to_sql E table_name df;;
           logger INFO (MsgSaved (length df) table_name);;
           get_db_connection E OpSelectStats table_name;;
           stats <- Db.select_stats E table_name;;
           log_stats year stats)
          (fun e => logger ERROR (MsgSaveError table_name);; raise e)
    end.

(** [for year in range(2023, 2026)] under the script's [try]. *)
Definition main (E : env) : M unit :=
  try_except
    (for_each [2023; 2024; 2025] (process_and_save_data_by_year E))
    (fun e => logger ERROR MsgScriptError).

End InitialLoad.

(** ** [update_data.py]: the Delta Processor *)

Module UpdateData.

Definition table_2025 : string := "ransomware_data_2025".

Definition dir_path (E : env) (k : snapshot_kind) : string :=
  base_dir E +:+ "/data/" +:+
  match k with
  | NewRecords => "new_records"
  | CurrentState => "current_state"
  end.

Definition unlink (k : snapshot_kind) (name : string) : M unit :=
  fun w => (set_dir k (filter (fun f => f_name f ≠ name) (get_dir k w)) w, Ok tt).

(** [directory.glob('*.*')]: the entries whose name has a dot, in
    listing order. *)
Definition glob_star_dot_star (dir : list csv_file) : list csv_file :=
  filter (fun f => PyStr.contains "." (f_name f) = true) dir.

Definition cleanup_old_files (E : env) (k : snapshot_kind) (keep_last_n : nat)
  : M unit :=
  if negb (PyStr.contains "logs" (dir_path E k)) then
    fun w =>
      let files := sort_desc (fun a b => f_ctime b <=? f_ctime a)
                     (glob_star_dot_star (get_dir k w)) in
      for_each (drop keep_last_n files)
        (fun old_file =>
           unlink k (f_name old_file);;
           logger INFO (MsgOldFileDeleted (f_name old_file))) w
  else ret tt.

Definition get_db_connection (E : env) (op : db_op) (table : string) : M unit :=
  try_except (Db.connect E op table)
    (fun e => logger ERROR MsgConnectError;; raise e).

Definition get_latest_record_date (E : env) : M (option datetime) :=
  try_except
    (get_db_connection E OpSelectMax table_2025;;
     Db.select_max E table_2025)
    (fun e => logger ERROR MsgLatestDateError;; ret None).

(** [json.loads(content)] is inside the [try], but its
    [JSONDecodeError] is no [requests.RequestException]: it leaves the
    function (the [finally] only closes the session). *)
Definition fetch_delta_data (E : env) : M pyval :=
  match remote E 2025 with
  | FetchOk body => ret body
  | FetchFails => logger ERROR (MsgFetchError 2025);; ret (PList [])
  | FetchNotJson _ => raise ValueError
  end.

Definition date_formats : list string :=
  ["%Y-%m-%d %H:%M:%S.%f"; "%Y-%m-%d %H:%M:%S"; "%Y-%m-%d"].

Fixpoint try_formats (date_str : pyval) (formats : list string)
  : res (option datetime) :=
  match formats with
  | [] => Ok None
  | date_format :: rest =>
      match Strptime.strptime date_str date_format with
      | Ok d => Ok (Some d)
      | Raise ValueError => try_formats date_str rest
      | Raise e => Raise e
      end
  end.

Definition parse_date (date_str : pyval) : res (option datetime) :=
  if negb (truthy date_str) then Ok None
  else try_formats date_str date_formats.

Definition extract_month (date_obj : option datetime) : option month_val :=
  match date_obj with
  | Some d => Some (MonthStr (Datetime.strftime_m d))
  | None => None
  end.

Definition clean_sector (sector : pyval) : res string :=
  if negb (truthy sector) then Ok "Other"
  else
    stripped <-! py_strip sector;
    if String.eqb stripped ""
       || String.eqb (PyStr.lower stripped) "not found"
    then Ok "Other"
    else py_strip sector.

(** [df.to_csv(save_path, index=False)]: a file of the same name is
    overwritten. *)
Definition write_file (k : snapshot_kind) (name : string) (time : Z)
    (df : list row) : M unit :=
  fun w =>
    let dir := get_dir k w in
    let file := mk_csv name time df in
    let dir' :=
      if existsb (fun f => String.eqb (f_name f) name) dir
      then (fun f => if String.eqb (f_name f) name then file else f) <$> dir
      else (dir ++ [file])%list in
    (set_dir k dir' w, Ok tt).

Definition save_to_csv (E : env) (df : list row) (data_type : snapshot_kind)
  : M unit :=
  let timestamp := clock E data_type in
  let filename := "ransomware_2025_" +:+ pretty timestamp +:+ ".csv" in
  write_file data_type filename timestamp df;;
  logger INFO (MsgCsvSaved data_type filename);;
  cleanup_old_files E NewRecords 5;;
  cleanup_old_files E CurrentState 5.

(** The test of lines 183-185. *)
Definition is_new (latest_date : option datetime) (discovered_date : option datetime)
  : bool :=
  match discovered_date with
  | Some dd =>
      (dt_year dd =? 2025)
      && match latest_date with
         | None => true
         | Some latest => Datetime.gtb dd latest
         end
  | None => false
  end.

(** The body of the loop over [new_data] (lines 178-195). *)
Definition process_item (latest_date : option datetime) (item : pyval)
  : res (option row) :=
  match is_dict item with
  | None => Ok None
  | Some d =>
      discovered_date <-! parse_date (dict_get d "discovered" (PStr ""));
      attack_date <-! parse_date (dict_get d "published" (PStr ""));
      if is_new latest_date discovered_date then
        sector <-! clean_sector (dict_get d "activity" PNone);
        country <-! py_strip (dict_get d "country" (PStr ""));
        post_title <-! py_strip (dict_get d "post_title" (PStr ""));
        group_name <-! py_strip (dict_get d "group_name" (PStr "Other"));
        Ok (Some (mk_row sector country post_title
                    (if String.eqb group_name "" then "Other" else group_name)
                    discovered_date attack_date
                    (extract_month discovered_date)))
      else Ok None
  end.

Fixpoint process_loop (latest_date : option datetime) (items : list pyval)
    (processed_data : list row) : res (list row) :=
  match items with
  | [] => Ok processed_data
  | item :: rest =>
      r <-! process_item latest_date item;
      match r with
      | Some processed_item =>
          process_loop latest_date rest (processed_data ++ [processed_item])
      | None => process_loop latest_date rest processed_data
      end
  end.

Definition log_stats (stats : nat * nat * nat) : M unit :=
  logger INFO (MsgStatsHeader 2025);;
  logger INFO (MsgIncidents stats.1.1);;
  logger INFO (MsgGroups stats.1.2);;
  logger INFO (MsgCountries stats.2).

Definition process_and_save_delta (E : env) : M unit :=
  latest_date <- get_latest_record_date E;;
  logger INFO (MsgLatestDate latest_date);;
  new_data <- fetch_delta_data E;;
  items <- lift (iterate new_data);;
  processed_data <- lift (process_loop latest_date items []);;
  match processed_data with
  | [] => logger INFO MsgNoNewData
  | _ =>
      let df := Frame.clean processed_data in
      try_except
        (save_to_csv E df NewRecords;;
         Db.to_sql E table_2025 df;;
         logger INFO (MsgSaved (length df) table_2025);;
         get_db_connection E OpSelectStats table_2025;;
         stats <- Db.select_stats E table_2025;;
         log_stats stats;;
         current_state_df <- Db.select_all_desc E table_2025;;
         save_to_csv E current_state_df CurrentState)
        (fun e => logger ERROR (MsgSaveError table_2025);; raise e)
  end.

Definition main (E : env) : M unit :=
  try_except (process_and_save_delta E)
    (fun e => logger ERROR MsgScriptError).

End UpdateData.

(** ** Reference definitions and sample inputs for the properties *)

(** The Date Parser as the specification words it: nothing for an empty
    input, otherwise the first of the three formats that parses. *)
Definition strptime_opt (s format : string) : option datetime :=
  match Strptime.strptime (PStr s) format with
  | Ok d => Some d
  | Raise _ => None
  end.

Definition date_parser_spec (s : string) : option datetime :=
  if String.eqb s "" then None
  else
    match strptime_opt s "%Y-%m-%d %H:%M:%S.%f" with
    | Some d => Some d
    | None =>
        match strptime_opt s "%Y-%m-%d %H:%M:%S" with
        | Some d => Some d
        | None => strptime_opt s "%Y-%m-%d"
        end
    end.

(** A raised exception, whatever it is. *)
Definition raises {A} (r : res A) : bool :=
  match r with
  | Raise _ => true
  | Ok _ => false
  end.

Definition is_truncate (ev : db_event) : bool :=
  match ev with
  | EvTruncate _ => true
  | _ => false
  end.

Definition is_insert (ev : db_event) : bool :=
  match ev with
  | EvInsert _ _ => true
  | _ => false
  end.

(** The year of a row's [discovered_date], when it has one. *)
Definition discovered_year (r : row) : option Z :=
  dt_year <$> discovered_date r.

(** [discovered_date > watermark], or anything when there is no watermark. *)
Definition newer_than (watermark : option datetime) (r : row) : bool :=
  match watermark, discovered_date r with
  | None, _ => true
  | Some l, Some d => Datetime.gtb d l
  | Some _, None => false
  end.

Definition midnight (y m d : Z) : datetime := mk_datetime y m d 0 0 0 0.

(** A raw record with a [discovered] date and one more key. *)
Definition raw2 (discovered key : string) (value : pyval) : pyval :=
  PDict (<[key := value]> {[ "discovered" := PStr discovered ]}).

Definition raw1 (discovered : string) : pyval :=
  PDict {[ "discovered" := PStr discovered ]}.

(** An environment in which every statement succeeds except those for
    which [fault] says otherwise, and the feed answers [body]. *)
Definition env_of (fault : db_op -> db_outcome) (body : fetch_outcome) : env :=
  mk_env (fun op _ => fault op) (fun _ => body) (fun _ => 1700000000) "/srv/app".

Definition no_fault : db_op -> db_outcome := fun _ => DbOk.

Definition fault_on (bad : db_op) (how : db_outcome) : db_op -> db_outcome :=
  fun op =>
    match bad, op with
    | OpTruncate, OpTruncate | OpSelectMax, OpSelectMax | OpInsert, OpInsert
    | OpSelectStats, OpSelectStats | OpSelectAll, OpSelectAll => how
    | _, _ => DbOk
    end.

(** A datastore with the three year tables, the 2025 one holding [rows]. *)
Definition world_with (rows : list row) : world :=
  mk_world (<["ransomware_data_2025" := rows]>
              (<["ransomware_data_2024" := []]>
                 {[ "ransomware_data_2023" := [] ]}))
           [] [] [] [].

Definition old_row : row :=
  mk_row "Retail" "US" "acme" "lockbit" (Some (midnight 2025 3 1)) None
         (Some (MonthInt 3)).

(** The [activity] values that the specification sends to ["Other"]:
    null (or absent, which [item.get('activity')] turns into null), the
    empty string, any casing of "not found" or "unknown". *)
Definition sentinel_activity (v : pyval) : bool :=
  match v with
  | PNone => true
  | PStr s =>
      String.eqb s ""
      || PyStr.in_list (PyStr.lower s) ["not found"; "unknown"]
  | _ => false
  end.

(** The [sector] cells a list of processed items ends up with in the
    frame that is written. *)
Definition stored_sectors (processed : res (list row)) : res (list string) :=
  rows <-! processed; Ok (sector <$> Frame.clean rows).

(** The rows of a year table after a run. *)
Definition table_after (run : world * res unit) (table : string) : option (list row) :=
  tables run.1 !! table.

(** The candidates of the specification's delta-filtering example. *)
Definition three_candidates : list pyval :=
  [raw1 "2025-02-28"; raw1 "2025-03-01"; raw1 "2025-03-02"].

Definition plain_row (d : datetime) (m : month_val) : row :=
  mk_row "Other" "" "" "Other" (Some d) None (Some m).

(** [post R m Q]: from any world, running [m] leads to a world related
    to the first by [R], and a returned value satisfies [Q]. *)
Definition post (R : world -> world -> Prop) {A} (m : M A) (Q : A -> Prop) : Prop :=
  forall w, R w (m w).1 /\ forall a, (m w).2 = Ok a -> Q a.

(** From [w] to [w']: the tables other than [table] are as they were,
    [table] is as it was or holds its old rows followed by new rows
    that satisfy [ok], and the statements that were run since include
    no truncate. *)
Definition grows (table : string) (ok : row -> Prop) (w w' : world) : Prop :=
  (forall t, t <> table -> tables w' !! t = tables w !! t)
  /\ (exists new,
         Forall ok new
         /\ (tables w' !! table = tables w !! table
             \/ tables w' !! table
                = Some (default [] (tables w !! table) ++ new)%list))
  /\ (exists evs,
         db_trace w' = (db_trace w ++ evs)%list
         /\ Forall (fun ev => is_truncate ev = false) evs).

(** The row was discovered in year [y]. *)
Definition year_is (y : Z) (r : row) : Prop := discovered_year r = Some y.

(** Sample environments: the watermark read fails; the truncate fails
    over an empty feed; the statistics connection fails; the feed fails
    for 2024 only; the feed is empty; the feed has two records. *)
Definition env_watermark_down : env :=
  env_of (fault_on OpSelectMax DbExecuteFails)
         (FetchOk (PList [raw1 "2025-03-01"])).

Definition env_truncate_down : env :=
  env_of (fault_on OpTruncate DbConnectFails) (FetchOk (PList [])).

Definition env_stats_down : env :=
  env_of (fault_on OpSelectStats DbConnectFails)
         (FetchOk (PList [raw1 "2025-03-01"; raw1 "2025-03-02"])).

Definition env_2024_feed_down : env :=
  mk_env (fun _ _ => DbOk)
         (fun year =>
            if year =? 2024 then FetchFails
            else FetchOk (PList [raw1 "2025-03-01"]))
         (fun _ => 1700000000) "/srv/app".

Definition env_empty_feed : env := env_of no_fault (FetchOk (PList [])).

Definition env_two_records : env :=
  env_of no_fault (FetchOk (PList [raw1 "2025-03-01"; raw1 "2025-03-02"])).

(** ** Further reference definitions *)

(** A text without blanks at either end. *)
Definition trimmed (s : string) : Prop := PyStr.strip s = s.

(** A text made of blanks only (the empty text included). *)
Fixpoint blank (s : string) : bool :=
  match s with
  | EmptyString => true
  | String c s' => PyStr.isspace c && blank s'
  end.

Definition res_map {A B} (f : A -> B) (r : res A) : res B :=
  match r with
  | Ok a => Ok (f a)
  | Raise e => Raise e
  end.

Definition set_attack_date (a : option datetime) (r : row) : row :=
  mk_row (sector r) (country r) (post_title r) (group_name r)
         (discovered_date r) a (month r).

(** Two worlds that hold the same rows in [table]. *)
Definition agree (table : string) (w1 w2 : world) : Prop :=
  tables w1 !! table = tables w2 !! table.

(** [m] looks at nothing but [table]: from two worlds that agree on it,
    it ends alike and leaves worlds that agree on it. *)
Definition reads_only (table : string) {A} (m : M A) : Prop :=
  forall w1 w2,
    agree table w1 w2 -> (m w1).2 = (m w2).2 /\ agree table (m w1).1 (m w2).1.

(** The second world has the tables of the first. *)
Definition same_tables (w w' : world) : Prop := tables w' = tables w.

(** The items a run iterates over: those of the feed's answer, none
    after a failed request; an answer that is not JSON has none to
    give. *)
Definition feed_items (E : env) (year : Z) : res (list pyval) :=
  match remote E year with
  | FetchOk body => iterate body
  | FetchFails => Ok []
  | FetchNotJson _ => Raise ValueError
  end.

(** The greatest [discovered_date] among rows, as [SELECT MAX] gives it. *)
Definition watermark (rows : list row) : option datetime :=
  foldl Db.max_date None (discovered_date <$> rows).

(** [a] is absent or not later than [b]. *)
Definition not_after (a b : option datetime) : Prop :=
  match a, b with
  | None, _ => True
  | Some _, None => False
  | Some x, Some y => Datetime.gtb x y = false
  end.

(** The file names of a directory listing. *)
Definition names (dir : list csv_file) : list string := f_name <$> dir.

(** The order of [cleanup_old_files]: [a] may stay before [b] when it
    is not older. *)
Definition newer_first (a b : csv_file) : bool := f_ctime b <=? f_ctime a.

(** The name [save_to_csv] gives a snapshot and the file it writes. *)
Definition snapshot_name (E : env) (k : snapshot_kind) : string :=
  "ransomware_2025_" +:+ pretty (clock E k) +:+ ".csv".

Definition snapshot_file (E : env) (k : snapshot_kind) (df : list row) : csv_file :=
  mk_csv (snapshot_name E k) (clock E k) df.

(** A world with two snapshots in the new-records directory. *)
Definition world_two_snapshots : world :=
  mk_world ∅ [mk_csv "a.csv" 10 []; mk_csv "b.csv" 20 []] [] [] [].

(** The entries of a directory that [glob('*.*')] does not list. *)
Definition without_dot (dir : list csv_file) : list csv_file :=
  filter (fun f => PyStr.contains "." (f_name f) = false) dir.

(** A world whose new-records directory holds six snapshots, the
    oldest first, and among them an older file without a dot. *)
Definition world_seven_files : world :=
  mk_world ∅
    [mk_csv "f1.csv" 10 []; mk_csv "f2.csv" 20 []; mk_csv "f3.csv" 30 [];
     mk_csv "NODOT" 5 []; mk_csv "f4.csv" 40 []; mk_csv "f5.csv" 50 [];
     mk_csv "f6.csv" 60 []]
    [] [] [].

(** An environment whose insert fails, over a feed of two records. *)
Definition env_insert_down : env :=
  env_of (fault_on OpInsert DbExecuteFails)
         (FetchOk (PList [raw1 "2025-03-01"; raw1 "2025-03-02"])).

(** A timestamp of the calendar: the ranges of Python's [datetime]. *)
Definition valid_datetime (d : datetime) : Prop :=
  1 <= dt_year d <= 9999
  /\ 1 <= dt_month d <= 12
  /\ 1 <= dt_day d <= Datetime.days_in_month (dt_year d) (dt_month d)
  /\ 0 <= dt_hour d <= 23
  /\ 0 <= dt_minute d <= 59
  /\ 0 <= dt_second d <= 59
  /\ 0 <= dt_microsecond d <= 999999.

(** The second world has the snapshot directories of the first. *)
Definition same_dirs (w w' : world) : Prop :=
  forall k, get_dir k w' = get_dir k w.

(** The order of the current-state export: by [discovered_date],
    latest first, rows without a date before all others. *)
Definition latest_first (a b : row) : bool :=
  Db.date_geb (discovered_date a) (discovered_date b).

(** ** The delta filter as the specification words it *)







(** A feed with a stale record whose [country] is null, a record dated
    at the watermark and a newer one; a feed with a newer record whose
    [country] is null before a newer record without flaw. *)
Definition feed_stale_null : list pyval :=
  [raw2 "2025-02-28" "country" PNone; raw1 "2025-03-01"; raw1 "2025-03-02"].


(** ** Properties of the Date Parser *)

Section DateParser.

(** On a [str], [strptime] either returns or raises [ValueError]:
    nothing escapes the [except ValueError] of [parse_date]. *)
Lemma strptime_str_value_error (s format : string) (e : exn) :
  Strptime.strptime (PStr s) format = Raise e -> e = ValueError.
Proof.
  unfold Strptime.strptime, Strptime.build, Datetime.new.
  destruct (Strptime.tokenize format) as [ts|]; [|congruence].
  destruct (Strptime.regex_match ts Strptime.found0 s) as [|[g rest] ?];
    [congruence|].
  destruct (String.eqb rest ""); [|congruence].
  match goal with |- context [if ?c then _ else _] => destruct c end;
    congruence.
Qed.

Lemma strptime_opt_none (s format : string) :
  strptime_opt s format = None ->
  Strptime.strptime (PStr s) format = Raise ValueError.
Proof.
  unfold strptime_opt.
  destruct (Strptime.strptime (PStr s) format) eqn:H; [discriminate|].
  intros _. f_equal. eauto using strptime_str_value_error.
Qed.

Lemma strptime_opt_some (s format : string) (d : datetime) :
  strptime_opt s format = Some d ->
  Strptime.strptime (PStr s) format = Ok d.
Proof.
  unfold strptime_opt.
  destruct (Strptime.strptime (PStr s) format); congruence.
Qed.

Lemma initial_parse_date_spec (s : string) :
  InitialLoad.parse_date (PStr s) = Ok (date_parser_spec s).
Proof.
  unfold InitialLoad.parse_date, InitialLoad.date_formats, date_parser_spec.
  cbn [truthy].
  destruct (String.eqb s ""); cbn [negb InitialLoad.try_formats];
    [reflexivity|].
  repeat match goal with
  | |- context [strptime_opt s ?f] =>
      let H := fresh "H" in
      destruct (strptime_opt s f) eqn:H;
      [ apply strptime_opt_some in H | apply strptime_opt_none in H ];
      rewrite H; try reflexivity
  end.
Qed.

(** The two scripts carry the same parser. *)
Lemma parse_date_same (v : pyval) :
  UpdateData.parse_date v = InitialLoad.parse_date v.
Proof. reflexivity. Qed.

(** A parsed timestamp went through the [datetime] constructor. *)
Lemma new_ok_fields y m d hh mi ss us dt :
  Datetime.new y m d hh mi ss us = Ok dt ->
  dt = mk_datetime y m d hh mi ss us /\ 1 <= m <= 12.
Proof.
  unfold Datetime.new, Datetime.between.
  match goal with |- context [if ?c then _ else _] => destruct c eqn:Hc end;
    [|discriminate].
  intros [= <-]. split; [reflexivity|].
  repeat (apply andb_prop in Hc as [Hc ?]). lia.
Qed.

Lemma strptime_month_range (v : pyval) (format : string) (d : datetime) :
  Strptime.strptime v format = Ok d -> 1 <= dt_month d <= 12.
Proof.
  unfold Strptime.strptime, Strptime.build.
  destruct v; try discriminate.
  destruct (Strptime.tokenize format) as [ts|]; [|discriminate].
  destruct (Strptime.regex_match ts Strptime.found0 s) as [|[g rest] ?];
    [discriminate|].
  destruct (String.eqb rest ""); [|discriminate].
  intros H. apply new_ok_fields in H as [-> ?]. assumption.
Qed.

Lemma try_formats_month_range (v : pyval) (formats : list string) (d : datetime) :
  InitialLoad.try_formats v formats = Ok (Some d) -> 1 <= dt_month d <= 12.
Proof.
  induction formats as [|f fs IH]; simpl; [discriminate|].
  destruct (Strptime.strptime v f) as [d'|e] eqn:H.
  - intros [= <-]. eauto using strptime_month_range.
  - destruct e; try discriminate. exact IH.
Qed.

Lemma parse_date_month_range (v : pyval) (d : datetime) :
  InitialLoad.parse_date v = Ok (Some d) -> 1 <= dt_month d <= 12.
Proof.
  unfold InitialLoad.parse_date.
  destruct (negb (truthy v)); [discriminate|].
  apply try_formats_month_range.
Qed.

End DateParser.

(** C7. The Date Parser tries ["%Y-%m-%d %H:%M:%S.%f"], then
    ["%Y-%m-%d %H:%M:%S"], then ["%Y-%m-%d"] and returns the first
    successful parse; on every string it returns (it never raises), with
    no value for the empty string and for a string that none of the
    three formats parses, such as ["03/14/2024"]; an absent or null
    input gives no value too.  Both scripts behave alike. *)
Theorem date_parser_contract :
  (forall s : string,
      InitialLoad.parse_date (PStr s) = Ok (date_parser_spec s)
      /\ UpdateData.parse_date (PStr s) = Ok (date_parser_spec s))
  /\ date_parser_spec "" = None
  /\ InitialLoad.parse_date PNone = Ok None
  /\ InitialLoad.parse_date (dict_get ∅ "discovered" (PStr "")) = Ok None
  /\ InitialLoad.parse_date (PStr "03/14/2024") = Ok None
  /\ InitialLoad.parse_date (PStr "2024-03-14 10:20:30.123456")
     = Ok (Some (mk_datetime 2024 3 14 10 20 30 123456))
  /\ InitialLoad.parse_date (PStr "2024-03-14 10:20:30")
     = Ok (Some (mk_datetime 2024 3 14 10 20 30 0))
  /\ InitialLoad.parse_date (PStr "2024-03-14") = Ok (Some (midnight 2024 3 14)).
Proof.
  split.
  { intros s. split; [|change (UpdateData.parse_date (PStr s))
                               with (InitialLoad.parse_date (PStr s))];
      apply initial_parse_date_spec. }
  repeat split; vm_compute; reflexivity.
Qed.

(** ** Properties of the Record Normalizer *)

Section Normalizer.

Lemma isspace_lower_char (c : ascii) :
  PyStr.isspace (PyStr.lower_char c) = PyStr.isspace c.
Proof. destruct c as [[] [] [] [] [] [] [] []]; reflexivity. Qed.

(** In the backfill script every sentinel value becomes ["Other"]. *)
Lemma initial_clean_sector_sentinel (v : pyval) :
  sentinel_activity v = true -> InitialLoad.clean_sector v = Ok "Other".
Proof.
  destruct v; try discriminate; [reflexivity|].
  unfold sentinel_activity, InitialLoad.clean_sector.
  cbn [truthy py_lower res_bind].
  destruct (String.eqb s "") eqn:Hs; cbn [negb orb]; [reflexivity|].
  intros ->. reflexivity.
Qed.

Lemma frame_keeps_other (r : row) :
  sector r = "Other" -> sector (Frame.clean_row r) = "Other".
Proof. intros H. unfold Frame.clean_row. cbn. rewrite H. reflexivity. Qed.

(** A string that lowers to "not found" has no blank at either end. *)
Lemma strip_not_found (s : string) :
  PyStr.lower s = "not found" -> PyStr.strip s = s.
Proof.
  intros H.
  do 9 (destruct s as [|? s]; [discriminate|]).
  destruct s; [|discriminate].
  cbn [PyStr.lower] in H. injection H as H1 _ _ _ _ _ _ _ H9.
  assert (PyStr.isspace a = false) as Ha
    by (rewrite <- isspace_lower_char, H1; reflexivity).
  assert (PyStr.isspace a7 = false) as Hz
    by (rewrite <- isspace_lower_char, H9; reflexivity).
  unfold PyStr.strip. cbn [PyStr.lstrip]. rewrite Ha.
  cbn [PyStr.rstrip]. rewrite Hz. reflexivity.
Qed.

(** The delta script sends null, blank and any casing of "not found"
    to ["Other"]. *)
Lemma delta_clean_sector_not_found (v : pyval) :
  v = PNone \/ v = PStr "" \/ (exists s, v = PStr s /\ PyStr.lower s = "not found") ->
  UpdateData.clean_sector v = Ok "Other".
Proof.
  intros [->|[->|(s & -> & Hs)]]; try reflexivity.
  unfold UpdateData.clean_sector. cbn [truthy py_strip res_bind].
  rewrite (strip_not_found s Hs), Hs.
  destruct (negb (String.eqb s "")); [|reflexivity].
  destruct (String.eqb s ""); reflexivity.
Qed.

(** What a kept item of the backfill loop looks like. *)
Lemma initial_process_item_some (year : Z) (item : pyval) (r : row) :
  InitialLoad.process_item year item = Ok (Some r) ->
  exists d dd,
    item = PDict d
    /\ InitialLoad.parse_date (dict_get d "discovered" (PStr "")) = Ok (Some dd)
    /\ dt_year dd = year
    /\ InitialLoad.clean_sector (dict_get d "activity" PNone) = Ok (sector r)
    /\ py_strip (dict_get d "country" (PStr "")) = Ok (country r)
    /\ py_strip (dict_get d "post_title" (PStr "")) = Ok (post_title r)
    /\ raises (py_strip (dict_get d "group_name" (PStr "Other"))) = false
    /\ discovered_date r = Some dd
    /\ month r = Some (MonthInt (dt_month dd)).
Proof.
  unfold InitialLoad.process_item.
  destruct item as [| | | | |d]; cbn [is_dict]; try discriminate.
  destruct (InitialLoad.parse_date (dict_get d "discovered" _)) as [[dd|]|] eqn:Hd;
    cbn [res_bind]; try discriminate;
    destruct (InitialLoad.parse_date (dict_get d "published" _)) as [ad|];
    cbn [res_bind]; try discriminate.
  destruct (dt_year dd =? year) eqn:Hy; [|discriminate].
  destruct (InitialLoad.clean_sector _) as [sec|] eqn:Hs; cbn [res_bind]; [|discriminate].
  destruct (py_strip (dict_get d "country" _)) as [c|] eqn:Hc; cbn [res_bind]; [|discriminate].
  destruct (py_strip (dict_get d "post_title" _)) as [pt|] eqn:Ht; cbn [res_bind]; [|discriminate].
  destruct (py_strip (dict_get d "group_name" _)) as [g|] eqn:Hg; cbn [res_bind]; [|discriminate].
  intros [= <-]. exists d, dd.
  cbn [sector country post_title discovered_date month].
  repeat split; try assumption; try reflexivity; try lia.
  rewrite Hg. reflexivity.
Qed.

(** What a kept item of the delta loop looks like. *)
Lemma delta_process_item_some (latest : option datetime) (item : pyval) (r : row) :
  UpdateData.process_item latest item = Ok (Some r) ->
  exists d dd,
    item = PDict d
    /\ UpdateData.parse_date (dict_get d "discovered" (PStr "")) = Ok (Some dd)
    /\ dt_year dd = 2025
    /\ newer_than latest r = true
    /\ py_strip (dict_get d "country" (PStr "")) = Ok (country r)
    /\ py_strip (dict_get d "post_title" (PStr "")) = Ok (post_title r)
    /\ raises (py_strip (dict_get d "group_name" (PStr "Other"))) = false
    /\ discovered_date r = Some dd
    /\ month r = Some (MonthStr (Datetime.strftime_m dd)).
Proof.
  unfold UpdateData.process_item.
  destruct item as [| | | | |d]; cbn [is_dict]; try discriminate.
  destruct (UpdateData.parse_date (dict_get d "discovered" _)) as [[dd|]|] eqn:Hd;
    cbn [res_bind]; try discriminate;
    destruct (UpdateData.parse_date (dict_get d "published" _)) as [ad|];
    cbn [res_bind UpdateData.is_new]; try discriminate.
  destruct (dt_year dd =? 2025) eqn:Hy; cbn [andb]; [|discriminate].
  destruct (match latest with Some l => Datetime.gtb dd l | None => true end)
    eqn:Hnew; [|discriminate].
  destruct (UpdateData.clean_sector _) as [sec|] eqn:Hs; cbn [res_bind]; [|discriminate].
  destruct (py_strip (dict_get d "country" _)) as [c|] eqn:Hc; cbn [res_bind]; [|discriminate].
  destruct (py_strip (dict_get d "post_title" _)) as [pt|] eqn:Ht; cbn [res_bind]; [|discriminate].
  destruct (py_strip (dict_get d "group_name" _)) as [g|] eqn:Hg; cbn [res_bind]; [|discriminate].
  intros [= <-]. exists d, dd. unfold newer_than.
  cbn [sector country post_title discovered_date month].
  repeat split; try assumption; try reflexivity; try lia;
    try (rewrite Hg; reflexivity).
Qed.

(** In the backfill script the month cell is the integer month of
    [discovered_date], between 1 and 12. *)
Lemma initial_month_component (year : Z) (item : pyval) (r : row) :
  InitialLoad.process_item year item = Ok (Some r) ->
  exists dd, discovered_date r = Some dd
             /\ month r = Some (MonthInt (dt_month dd))
             /\ 1 <= dt_month dd <= 12.
Proof.
  intros H. apply initial_process_item_some in H
    as (d & dd & _ & Hp & _ & _ & _ & _ & _ & Hd & Hm).
  exists dd. eauto using parse_date_month_range.
Qed.

(** A record that was normalised has no null under the three text
    keys: [None] has no [strip]. *)
Lemma py_strip_ok_not_none (v : pyval) :
  raises (py_strip v) = false -> v <> PNone.
Proof. intros H ->. discriminate. Qed.

(** Normalisation succeeds only on records without a null under
    [country], [post_title] and [group_name]. *)
Lemma strip_get_not_null (d : gmap string pyval) (key : string) (default : pyval) :
  raises (py_strip (dict_get d key default)) = false -> d !! key <> Some PNone.
Proof. unfold dict_get. intros H Hk. rewrite Hk in H. discriminate. Qed.

Lemma initial_normalised_no_null (year : Z) (d : gmap string pyval) (r : row) :
  InitialLoad.process_item year (PDict d) = Ok (Some r) ->
  d !! "country" <> Some PNone
  /\ d !! "post_title" <> Some PNone
  /\ d !! "group_name" <> Some PNone.
Proof.
  intros H. apply initial_process_item_some in H
    as (d' & dd & [= <-] & _ & _ & _ & Hc & Hp & Hg & _).
  repeat split; eapply strip_get_not_null; try eassumption.
  - rewrite Hc. reflexivity.
  - rewrite Hp. reflexivity.
Qed.

Lemma delta_normalised_no_null (latest : option datetime) (d : gmap string pyval)
    (r : row) :
  UpdateData.process_item latest (PDict d) = Ok (Some r) ->
  d !! "country" <> Some PNone
  /\ d !! "post_title" <> Some PNone
  /\ d !! "group_name" <> Some PNone.
Proof.
  intros H. apply delta_process_item_some in H
    as (d' & dd & [= <-] & _ & _ & _ & Hc & Hp & Hg & _).
  repeat split; eapply strip_get_not_null; try eassumption.
  - rewrite Hc. reflexivity.
  - rewrite Hp. reflexivity.
Qed.

End Normalizer.

(** C1. The delta script's [clean_sector] has no case for "unknown":
    with [activity = "unknown"] the Delta Processor stores the sector
    ["unknown"], where the Backfill Processor stores ["Other"] for the
    same record (and for every sentinel value). *)
Theorem delta_sector_unknown_is_kept :
  sentinel_activity (PStr "unknown") = true
  /\ UpdateData.clean_sector (PStr "unknown") = Ok "unknown"
  /\ stored_sectors
       (UpdateData.process_loop None
          [raw2 "2025-01-02" "activity" (PStr "unknown")] [])
     = Ok ["unknown"]
  /\ stored_sectors
       (InitialLoad.process_loop 2025
          [raw2 "2025-01-02" "activity" (PStr "unknown")] [])
     = Ok ["Other"].
Proof. repeat split; vm_compute; reflexivity. Qed.

(** C2. The delta script's [extract_month] formats the month as text:
    a record discovered on 2025-06-15 gets the month cell ["06"], not
    the integer 6 that the backfill script stores; the delta script
    drops a record discovered on 2024-06-15 altogether. *)
Theorem delta_month_is_text :
  UpdateData.process_item None (raw1 "2025-06-15")
  = Ok (Some (mk_row "Other" "" "" "Other" (Some (midnight 2025 6 15)) None
                (Some (MonthStr "06"))))
  /\ UpdateData.process_item None (raw1 "2024-06-15") = Ok None
  /\ InitialLoad.process_item 2024 (raw1 "2024-06-15")
     = Ok (Some (mk_row "Other" "" "" "Other" (Some (midnight 2024 6 15)) None
                   (Some (MonthInt 6)))).
Proof. repeat split; vm_compute; reflexivity. Qed.

(** C5. A key that is present with a null value is not replaced by the
    default of [item.get]: for [country], [post_title] or [group_name]
    the call of [strip] on [None] raises [AttributeError], in both
    scripts, and the run ends with that exception (the backfill run
    after it has emptied the table). *)
Theorem null_text_key_raises :
  InitialLoad.process_item 2025 (raw2 "2025-06-15" "country" PNone)
  = Raise AttributeError
  /\ InitialLoad.process_item 2025 (raw2 "2025-06-15" "post_title" PNone)
     = Raise AttributeError
  /\ InitialLoad.process_item 2025 (raw2 "2025-06-15" "group_name" PNone)
     = Raise AttributeError
  /\ UpdateData.process_item None (raw2 "2025-06-15" "country" PNone)
     = Raise AttributeError
  /\ UpdateData.process_item None (raw2 "2025-06-15" "post_title" PNone)
     = Raise AttributeError
  /\ UpdateData.process_item None (raw2 "2025-06-15" "group_name" PNone)
     = Raise AttributeError
  /\ (let run := InitialLoad.process_and_save_data_by_year
                   (env_of no_fault
                      (FetchOk (PList [raw2 "2025-06-15" "country" PNone])))
                   2025 (world_with [old_row]) in
      run.2 = Raise AttributeError
      /\ table_after run "ransomware_data_2025" = Some [])
  /\ (UpdateData.process_and_save_delta
        (env_of no_fault (FetchOk (PList [raw2 "2025-06-15" "country" PNone])))
        (world_with [old_row])).2
     = Raise AttributeError.
Proof. repeat split; vm_compute; reflexivity. Qed.

(** C10. The backfill script compares the lowered, untrimmed input with
    the sentinels and trims afterwards: [activity = " Unknown "] is
    stored as the sector ["Unknown"], while ["Unknown"] without the
    blanks is stored as ["Other"]. *)
Theorem backfill_sector_compared_untrimmed :
  InitialLoad.clean_sector (PStr " Unknown ") = Ok "Unknown"
  /\ InitialLoad.clean_sector (PStr "Unknown") = Ok "Other"
  /\ stored_sectors
       (InitialLoad.process_loop 2024
          [raw2 "2024-06-15" "activity" (PStr " Unknown ")] [])
     = Ok ["Unknown"]
  /\ sector <$> default []
       (table_after
          (InitialLoad.process_and_save_data_by_year
             (env_of no_fault
                (FetchOk (PList [raw2 "2024-06-15" "activity" (PStr " Unknown ")])))
             2024 (world_with []))
          "ransomware_data_2024")
     = ["Unknown"].
Proof. repeat split; vm_compute; reflexivity. Qed.

(** ** The watermark filter of the Delta Processor *)

Section Watermark.

Lemma lex_compare_refl (xs : list Z) : Datetime.lex_compare xs xs = Eq.
Proof.
  induction xs as [|x xs IH]; [reflexivity|].
  cbn. rewrite Z.compare_refl. exact IH.
Qed.

(** A timestamp is not greater than itself. *)
Lemma gtb_irrefl (d : datetime) : Datetime.gtb d d = false.
Proof. unfold Datetime.gtb, Datetime.compare. rewrite lex_compare_refl. reflexivity. Qed.

Lemma lex_compare_antisym (xs ys : list Z) :
  Datetime.lex_compare ys xs = CompOpp (Datetime.lex_compare xs ys).
Proof.
  revert ys. induction xs as [|x xs IH]; intros [|y ys]; try reflexivity.
  cbn. rewrite (Z.compare_antisym x y).
  destruct (x ?= y); cbn; auto.
Qed.

(** [>] is asymmetric. *)
Lemma gtb_asym (a b : datetime) :
  Datetime.gtb a b = true -> Datetime.gtb b a = false.
Proof.
  unfold Datetime.gtb, Datetime.compare.
  rewrite (lex_compare_antisym (Datetime.fields a) (Datetime.fields b)).
  destruct (Datetime.lex_compare (Datetime.fields a) (Datetime.fields b));
    cbn; congruence.
Qed.

Lemma delta_process_loop_acc (latest : option datetime) (items : list pyval)
    (acc : list row) :
  UpdateData.process_loop latest items acc
  = (rows <-! UpdateData.process_loop latest items []; Ok (acc ++ rows)%list).
Proof.
  revert acc. induction items as [|item items IH]; intros acc; cbn.
  - rewrite app_nil_r. reflexivity.
  - destruct (UpdateData.process_item latest item) as [[r|]|e]; cbn;
      [|apply IH|reflexivity].
    rewrite (IH (acc ++ [r])%list), (IH [r]).
    destruct (UpdateData.process_loop latest items []); cbn;
      [rewrite <- app_assoc|]; reflexivity.
Qed.

(** Whatever the feed holds, a record the delta loop keeps is dated in
    2025 and is newer than the watermark. *)
Lemma delta_kept_are_newer (latest : option datetime) (items : list pyval)
    (acc rows : list row) :
  UpdateData.process_loop latest items acc = Ok rows ->
  Forall (fun r => newer_than latest r = true) acc ->
  Forall (fun r => newer_than latest r = true) rows.
Proof.
  revert acc. induction items as [|item items IH]; intros acc; cbn.
  - intros [= <-]. trivial.
  - destruct (UpdateData.process_item latest item) as [[r|]|e] eqn:Hitem; cbn;
      [| apply IH | discriminate].
    intros Hloop Hacc. apply (IH _ Hloop). apply Forall_app. split; [assumption|].
    apply delta_process_item_some in Hitem as (d & dd & _ & _ & _ & Hnew & _).
    repeat constructor. exact Hnew.
Qed.

End Watermark.

Section Filter.











End Filter.




(** The same watermark on a feed whose stale record has a null
    [country]: the record is skipped before its text is looked at, and
    the filter keeps the one newer record. *)
Example delta_filter_stale_null :
  UpdateData.process_loop (Some (midnight 2025 3 1)) feed_stale_null []
  = Ok [plain_row (midnight 2025 3 2) (MonthStr "03")].
Proof. vm_compute. reflexivity. Qed.

(** The example of the specification: of the candidates 2025-02-28,
    2025-03-01 and 2025-03-02 only the last survives the watermark
    2025-03-01T00:00:00. *)
Example delta_filter_example :
  UpdateData.process_loop (Some (midnight 2025 3 1)) three_candidates []
  = Ok [plain_row (midnight 2025 3 2) (MonthStr "03")].
Proof. vm_compute. reflexivity. Qed.

(** ** A small logic for runs

    The rules of [post] for a preorder [R]. *)

Section RunLogic.

Variable R : world -> world -> Prop.
Hypothesis R_refl : forall w, R w w.
Hypothesis R_trans : forall a b c, R a b -> R b c -> R a c.

Lemma post_ret {A} (a : A) (Q : A -> Prop) : Q a -> post R (ret a) Q.
Proof. intros Ha w. split; [apply R_refl|]. cbn. intros ? [= <-]. exact Ha. Qed.

Lemma post_raise {A} (e : exn) (Q : A -> Prop) : post R (raise e) Q.
Proof. intros w. split; [apply R_refl|]. cbn. discriminate. Qed.

Lemma post_lift {A} (r : res A) (Q : A -> Prop) :
  (forall a, r = Ok a -> Q a) -> post R (lift r) Q.
Proof. intros Hr w. split; [apply R_refl|]. cbn. exact Hr. Qed.

Lemma post_bind {A B} (m : M A) (k : A -> M B) (P : A -> Prop) (Q : B -> Prop) :
  post R m P -> (forall a, P a -> post R (k a) Q) -> post R (bind m k) Q.
Proof.
  intros Hm Hk w. unfold bind. destruct (Hm w) as [Hw Ha].
  destruct (m w) as [w' [a|e]]; cbn in *.
  - destruct (Hk a (Ha a eq_refl) w') as [Hw' Hb]. eauto.
  - split; [assumption|discriminate].
Qed.

Lemma post_try_except {A} (m : M A) (h : exn -> M A) (Q : A -> Prop) :
  post R m Q -> (forall e, post R (h e) Q) -> post R (try_except m h) Q.
Proof.
  intros Hm Hh w. unfold try_except. destruct (Hm w) as [Hw Ha].
  destruct (m w) as [w' [a|e]]; cbn in *.
  - split; assumption.
  - destruct (Hh e w') as [Hw' Hb]. eauto.
Qed.

Lemma post_weaken {A} (m : M A) (P Q : A -> Prop) :
  post R m P -> (forall a, P a -> Q a) -> post R m Q.
Proof. intros Hm HPQ w. destruct (Hm w). eauto. Qed.

Lemma post_for_each {A} (xs : list A) (body : A -> M unit) :
  (forall x, post R (body x) (fun _ => True)) ->
  post R (for_each xs body) (fun _ => True).
Proof.
  intros Hbody. induction xs as [|x xs IH]; cbn [for_each].
  - apply post_ret. exact I.
  - eapply post_bind; [apply Hbody|]. intros _ _. exact IH.
Qed.

(** A step that only rearranges the world within [R]. *)
Lemma post_step {A} (m : M A) :
  (forall w, R w (m w).1) -> post R m (fun _ => True).
Proof. intros H w. split; [apply H|]. trivial. Qed.

End RunLogic.

(** ** Runs that only append to one table *)

Section Grows.

Variable table : string.
Variable ok : row -> Prop.

Local Abbreviation grows := (grows table ok).

Lemma grows_same (w w' : world) :
  tables w' = tables w -> db_trace w' = db_trace w -> grows w w'.
Proof.
  intros Ht Hd. unfold grows. rewrite Ht, Hd. split; [reflexivity|]. split.
  - exists []. auto.
  - exists []. rewrite app_nil_r. auto.
Qed.

Lemma grows_refl (w : world) : grows w w.
Proof. apply grows_same; reflexivity. Qed.

Lemma grows_trans (a b c : world) : grows a b -> grows b c -> grows a c.
Proof.
  intros (Ho1 & (n1 & Hn1 & Ht1) & (e1 & He1 & Hf1))
         (Ho2 & (n2 & Hn2 & Ht2) & (e2 & He2 & Hf2)).
  split; [|split].
  - intros t Ht. rewrite (Ho2 t Ht). apply Ho1, Ht.
  - destruct Ht2 as [Ht2|Ht2]; rewrite Ht2.
    + exists n1. auto.
    + destruct Ht1 as [Ht1|Ht1]; rewrite Ht1.
      * exists n2. auto.
      * exists (n1 ++ n2)%list. split; [apply Forall_app; auto|].
        right. cbn. rewrite <- app_assoc. reflexivity.
  - exists (e1 ++ e2)%list. split; [|apply Forall_app; auto].
    rewrite He2, He1, <- app_assoc. reflexivity.
Qed.

Lemma grows_add_event (ev : db_event) (w : world) :
  is_truncate ev = false -> grows w (add_event ev w).
Proof.
  intros Hev. split; [reflexivity|]. split.
  - exists []. auto.
  - exists [ev]. auto.
Qed.

Local Abbreviation step m := (post grows m (fun _ => True)).

Lemma logger_grows (l : level) (msg : message) : step (logger l msg).
Proof. apply post_step. intros w. apply grows_same; reflexivity. Qed.

Lemma connect_grows (E : env) (op : db_op) (t : string) : step (Db.connect E op t).
Proof.
  unfold Db.connect. destruct (db_fault E op t);
    (apply post_ret; [apply grows_refl|exact I]) || (apply post_raise; apply grows_refl).
Qed.

Lemma execute_on_grows {A} (E : env) (op : db_op) (t : string)
    (run : list row -> world -> world * A) :
  (forall rows w, grows w (run rows w).1) ->
  step (Db.execute_on E op t run).
Proof.
  intros Hrun. apply post_step. intros w. unfold Db.execute_on.
  destruct (db_fault E op t); try apply grows_refl.
  destruct (tables w !! t) as [rows|]; [|apply grows_refl].
  specialize (Hrun rows w). destruct (run rows w). exact Hrun.
Qed.

Lemma select_max_grows (E : env) (t : string) : step (Db.select_max E t).
Proof. apply execute_on_grows. intros. apply grows_add_event. reflexivity. Qed.

Lemma select_stats_grows (E : env) (t : string) : step (Db.select_stats E t).
Proof. apply execute_on_grows. intros. apply grows_add_event. reflexivity. Qed.

Lemma select_all_desc_grows (E : env) (t : string) : step (Db.select_all_desc E t).
Proof. apply execute_on_grows. intros. apply grows_add_event. reflexivity. Qed.

(** The one step that writes: [to_sql] on [table] with rows that
    satisfy [ok]. *)
Lemma to_sql_grows (E : env) (df : list row) :
  Forall ok df -> step (Db.to_sql E table df).
Proof.
  intros Hdf. apply post_step. intros w. unfold Db.to_sql.
  destruct (db_fault E OpInsert table); try apply grows_refl.
  cbn. split; [|split].
  - intros t Ht. apply lookup_insert_ne. congruence.
  - exists df. split; [assumption|]. right. apply lookup_insert_eq.
  - exists [EvInsert table df]. auto.
Qed.

Local Ltac seq := eapply (post_bind grows grows_trans); [|intros ? _].

Lemma initial_get_db_connection_grows (E : env) (op : db_op) (t : string) :
  step (InitialLoad.get_db_connection E op t).
Proof. apply connect_grows. Qed.

Lemma initial_fetch_data_grows (E : env) (year : Z) :
  step (InitialLoad.fetch_data E year).
Proof.
  unfold InitialLoad.fetch_data. destruct (remote E year) as [body| |[]].
  - apply post_ret; [apply grows_refl|exact I].
  - seq; [apply logger_grows|]. apply post_ret; [apply grows_refl|exact I].
  - seq; [apply logger_grows|]. apply post_ret; [apply grows_refl|exact I].
  - apply post_raise, grows_refl.
Qed.

Lemma initial_log_stats_grows (year : Z) (stats : nat * nat * nat) :
  step (InitialLoad.log_stats year stats).
Proof. unfold InitialLoad.log_stats. repeat (seq; [apply logger_grows|]). apply logger_grows. Qed.

Lemma unlink_grows (k : snapshot_kind) (name : string) : step (UpdateData.unlink k name).
Proof. apply post_step. intros w. apply grows_same; destruct k; reflexivity. Qed.

Lemma write_file_grows (k : snapshot_kind) (name : string) (time : Z) (df : list row) :
  step (UpdateData.write_file k name time df).
Proof. apply post_step. intros w. apply grows_same; destruct k; reflexivity. Qed.

Lemma cleanup_old_files_grows (E : env) (k : snapshot_kind) (n : nat) :
  step (UpdateData.cleanup_old_files E k n).
Proof.
  unfold UpdateData.cleanup_old_files.
  destruct (negb _); [|apply post_ret; [apply grows_refl|exact I]].
  intros w. revert w.
  match goal with |- forall w, _ /\ (forall a, (for_each (@?xs w) ?body w).2 = _ -> _) =>
    intros w; apply (post_for_each grows grows_refl grows_trans (xs w) body)
  end.
  intros f. seq; [apply unlink_grows|apply logger_grows].
Qed.

Lemma save_to_csv_grows (E : env) (df : list row) (k : snapshot_kind) :
  step (UpdateData.save_to_csv E df k).
Proof.
  unfold UpdateData.save_to_csv.
  seq; [apply write_file_grows|].
  seq; [apply logger_grows|].
  seq; apply cleanup_old_files_grows.
Qed.

Lemma delta_get_db_connection_grows (E : env) (op : db_op) (t : string) :
  step (UpdateData.get_db_connection E op t).
Proof.
  unfold UpdateData.get_db_connection.
  apply (post_try_except grows grows_trans); [apply connect_grows|].
  intros e. seq; [apply logger_grows|]. apply post_raise, grows_refl.
Qed.

Lemma get_latest_record_date_grows (E : env) :
  step (UpdateData.get_latest_record_date E).
Proof.
  unfold UpdateData.get_latest_record_date.
  apply (post_try_except grows grows_trans).
  - seq; [apply delta_get_db_connection_grows|apply select_max_grows].
  - intros e. seq; [apply logger_grows|].
    apply post_ret; [apply grows_refl|exact I].
Qed.

Lemma fetch_delta_data_grows (E : env) : step (UpdateData.fetch_delta_data E).
Proof.
  unfold UpdateData.fetch_delta_data. destruct (remote E 2025).
  - apply post_ret; [apply grows_refl|exact I].
  - seq; [apply logger_grows|]. apply post_ret; [apply grows_refl|exact I].
  - apply post_raise, grows_refl.
Qed.

Lemma delta_log_stats_grows (stats : nat * nat * nat) :
  step (UpdateData.log_stats stats).
Proof. unfold UpdateData.log_stats. repeat (seq; [apply logger_grows|]). apply logger_grows. Qed.

End Grows.

(** ** The two runs *)

Section Runs.

Lemma frame_clean_years (y : Z) (rows : list row) :
  Forall (year_is y) rows -> Forall (year_is y) (Frame.clean rows).
Proof.
  intros H. unfold Frame.clean. apply Forall_fmap, Forall_forall.
  intros r Hr. apply list_elem_of_filter in Hr as [_ Hr].
  rewrite Forall_forall in H. exact (H r Hr).
Qed.

(** [dropna] has nothing to drop: the loops keep dated records only. *)
Lemma dropna_years (y : Z) (rows : list row) :
  Forall (year_is y) rows -> Frame.dropna_discovered rows = rows.
Proof.
  induction 1 as [|r rows Hr _ IH]; [reflexivity|].
  unfold Frame.dropna_discovered in *. rewrite filter_cons, IH.
  unfold year_is, discovered_year in Hr.
  destruct (discovered_date r); [|discriminate].
  destruct (decide _) as [|Hn]; [reflexivity|]. destruct Hn. eauto.
Qed.

Lemma delta_process_loop_years (latest : option datetime) (items : list pyval)
    (acc rows : list row) :
  UpdateData.process_loop latest items acc = Ok rows ->
  Forall (year_is 2025) acc -> Forall (year_is 2025) rows.
Proof.
  revert acc. induction items as [|item items IH]; intros acc; cbn.
  - intros [= <-]. trivial.
  - destruct (UpdateData.process_item latest item) as [[r|]|e] eqn:Hitem; cbn;
      [| apply IH | discriminate].
    intros Hloop Hacc. apply (IH _ Hloop). apply Forall_app. split; [assumption|].
    apply delta_process_item_some in Hitem
      as (d & dd & _ & _ & Hy & _ & _ & _ & _ & Hd & _).
    repeat constructor. unfold year_is, discovered_year. rewrite Hd, <- Hy.
    reflexivity.
Qed.

Lemma initial_process_loop_years (year : Z) (items : list pyval)
    (acc rows : list row) :
  InitialLoad.process_loop year items acc = Ok rows ->
  Forall (year_is year) acc -> Forall (year_is year) rows.
Proof.
  revert acc. induction items as [|item items IH]; intros acc; cbn.
  - intros [= <-]. trivial.
  - destruct (InitialLoad.process_item year item) as [[r|]|e] eqn:Hitem; cbn;
      [| apply IH | discriminate].
    intros Hloop Hacc. apply (IH _ Hloop). apply Forall_app. split; [assumption|].
    apply initial_process_item_some in Hitem
      as (d & dd & _ & _ & Hy & _ & _ & _ & _ & Hd & _).
    repeat constructor. unfold year_is, discovered_year. rewrite Hd, <- Hy.
    reflexivity.
Qed.

Local Ltac seq t ok :=
  eapply (post_bind (grows t ok) (grows_trans t ok)); [|intros ? _].

Local Ltac done_ret t ok :=
  apply post_ret; [apply grows_refl|exact I].

(** A delta run only appends rows of 2025 to the 2025 table. *)
Lemma delta_run_grows (E : env) :
  post (grows UpdateData.table_2025 (year_is 2025))
       (UpdateData.process_and_save_delta E) (fun _ => True).
Proof.
  set (t := UpdateData.table_2025). set (ok := year_is 2025).
  unfold UpdateData.process_and_save_delta.
  eapply (post_bind (grows t ok) (grows_trans t ok));
    [apply get_latest_record_date_grows|intros latest _].
  seq t ok; [apply logger_grows|].
  seq t ok; [apply fetch_delta_data_grows|].
  eapply (post_bind (grows t ok) (grows_trans t ok));
    [apply post_lift; [apply grows_refl|intros items _; exact I]|intros items _].
  eapply (post_bind (grows t ok) (grows_trans t ok) _ _
            (fun rows => UpdateData.process_loop latest items [] = Ok rows));
    [apply post_lift; [apply grows_refl|auto]|intros processed Hloop].
  destruct processed as [|r processed]; [apply logger_grows|].
  apply (post_try_except (grows t ok) (grows_trans t ok)).
  - seq t ok; [apply save_to_csv_grows|].
    seq t ok; [apply to_sql_grows|].
    { apply frame_clean_years. eapply delta_process_loop_years; eauto. }
    seq t ok; [apply logger_grows|].
    seq t ok; [apply delta_get_db_connection_grows|].
    seq t ok; [apply select_stats_grows|].
    seq t ok; [apply delta_log_stats_grows|].
    seq t ok; [apply select_all_desc_grows|].
    apply save_to_csv_grows.
  - intros e. seq t ok; [apply logger_grows|]. apply post_raise, grows_refl.
Qed.

(** What [clear_existing_data] does: it empties the table, or it logs
    and re-raises and leaves the datastore as it was. *)
Lemma clear_existing_data_effect (E : env) (year : Z) (w : world) :
  let t := InitialLoad.get_table_name year in
  let run := InitialLoad.clear_existing_data E year w in
  (run.2 = Ok tt
   /\ db_fault E OpTruncate t = DbOk
   /\ is_Some (tables w !! t)
   /\ tables run.1 = <[t := []]> (tables w)
   /\ db_trace run.1 = (db_trace w ++ [EvTruncate t])%list
   /\ new_records_dir run.1 = new_records_dir w
   /\ current_state_dir run.1 = current_state_dir w)
  \/ (run = ((logger ERROR (MsgTruncateError t) w).1, Raise DatabaseError)
      /\ (db_fault E OpTruncate t <> DbOk \/ tables w !! t = None)).
Proof.
  cbv zeta.
  unfold InitialLoad.clear_existing_data, InitialLoad.get_db_connection,
    try_except, bind, Db.connect, Db.truncate, Db.execute_on, raise, ret.
  destruct (db_fault E OpTruncate (InitialLoad.get_table_name year)) eqn:Hf;
    cbn; try (right; split; [reflexivity|left; congruence]).
  destruct (tables w !! InitialLoad.get_table_name year) eqn:Ht; cbn.
  - left. repeat split; eauto.
  - right. split; [reflexivity|right; reflexivity].
Qed.

(** After the truncate, a backfill run only appends rows of its year
    to its table. *)
Lemma backfill_run_tables (E : env) (year : Z) (w : world) :
  let t := InitialLoad.get_table_name year in
  let run := InitialLoad.process_and_save_data_by_year E year w in
  (run = ((logger ERROR (MsgTruncateError t) w).1, Raise DatabaseError)
   /\ (db_fault E OpTruncate t <> DbOk \/ tables w !! t = None))
  \/ (exists new,
        Forall (year_is year) new
        /\ tables run.1 = <[t := new]> (tables w)
        /\ exists evs, db_trace run.1 = (db_trace w ++ EvTruncate t :: evs)%list
                       /\ Forall (fun ev => is_truncate ev = false) evs).
Proof.
  cbv zeta. set (t := InitialLoad.get_table_name year). set (ok := year_is year).
  unfold InitialLoad.process_and_save_data_by_year. fold t.
  match goal with
  | |- context [bind (InitialLoad.clear_existing_data E year) ?k] => set (rest := k)
  end.
  assert (post (grows t ok) (rest tt) (fun _ => True)) as Hrest.
  { subst rest. cbv beta.
    seq t ok; [apply initial_fetch_data_grows|].
    match goal with |- context [truthy ?v] => destruct (negb (truthy v)) end;
      [apply logger_grows|].
    eapply (post_bind (grows t ok) (grows_trans t ok));
      [apply post_lift; [apply grows_refl|intros items _; exact I]|intros items _].
    eapply (post_bind (grows t ok) (grows_trans t ok) _ _
              (fun rows => InitialLoad.process_loop year items [] = Ok rows));
      [apply post_lift; [apply grows_refl|auto]|intros processed Hloop].
    destruct processed as [|r processed]; [apply logger_grows|].
    apply (post_try_except (grows t ok) (grows_trans t ok)).
    - seq t ok; [apply to_sql_grows|].
      { apply frame_clean_years. eapply initial_process_loop_years; eauto. }
      seq t ok; [apply logger_grows|].
      seq t ok; [apply initial_get_db_connection_grows|].
      seq t ok; [apply select_stats_grows|].
      apply initial_log_stats_grows.
    - intros e. seq t ok; [apply logger_grows|]. apply post_raise, grows_refl. }
  unfold bind.
  pose proof (clear_existing_data_effect E year w) as Heff.
  cbv zeta in Heff. change (InitialLoad.get_table_name year) with t in Heff.
  destruct Heff as [(Hok & _ & _ & Ht & Hev & _)|[Hfail Hwhy]].
  - right.
    destruct (InitialLoad.clear_existing_data E year w) as [w1 [[]|e]];
      cbn in Hok, Ht, Hev; [|discriminate].
    destruct (Hrest w1) as [(Hother & (new & Hnew & Htab) & (evs & Hevs & Hno)) _].
    rewrite Ht, lookup_insert_eq in Htab. cbn in Htab.
    assert (exists new', Forall ok new' /\ tables (rest tt w1).1 !! t = Some new')
      as (new' & Hnew' & Htab').
    { destruct Htab as [Htab|Htab]; [exists []|exists new]; auto. }
    exists new'. split; [assumption|]. split.
    + apply map_eq. intros k. destruct (decide (k = t)) as [->|Hk].
      * rewrite lookup_insert_eq. exact Htab'.
      * rewrite lookup_insert_ne by congruence.
        rewrite (Hother k Hk), Ht. apply lookup_insert_ne. congruence.
    + exists evs. split; [|assumption].
      rewrite Hevs, Hev, <- app_assoc. reflexivity.
  - left. rewrite Hfail. cbn. split; [reflexivity|assumption].
Qed.

End Runs.

(** The watermark read never raises: on a failure it logs and returns
    no value, and it changes nothing but the log and the trace. *)
Lemma get_latest_record_date_effect (E : env) (w : world) :
  let t := UpdateData.table_2025 in
  let run := UpdateData.get_latest_record_date E w in
  raises run.2 = false
  /\ tables run.1 = tables w
  /\ new_records_dir run.1 = new_records_dir w
  /\ current_state_dir run.1 = current_state_dir w
  /\ (db_trace run.1 = db_trace w
      \/ db_trace run.1 = (db_trace w ++ [EvSelectMax t])%list)
  /\ (db_fault E OpSelectMax t <> DbOk ->
      run.2 = Ok None
      /\ db_trace run.1 = db_trace w
      /\ last (log run.1) = Some (ERROR, MsgLatestDateError)).
Proof.
  cbv zeta.
  unfold UpdateData.get_latest_record_date, UpdateData.get_db_connection,
    try_except, bind, Db.connect, Db.select_max, Db.execute_on, raise, ret.
  destruct (db_fault E OpSelectMax UpdateData.table_2025) eqn:Hf; cbn.
  - destruct (tables w !! UpdateData.table_2025); cbn;
      repeat split; auto; congruence.
  - repeat split; auto. cbn. apply last_snoc.
  - repeat split; auto. cbn. apply last_snoc.
Qed.

(** A truncate that fails stops the whole backfill script: the later
    years are not processed. *)
Lemma backfill_main_stops (E : env) (w : world) :
  db_fault E OpTruncate (InitialLoad.get_table_name 2023) <> DbOk ->
  let run := InitialLoad.main E w in
  run.2 = Ok tt
  /\ tables run.1 = tables w
  /\ db_trace run.1 = db_trace w
  /\ log run.1
     = (log w ++ [(ERROR, MsgTruncateError (InitialLoad.get_table_name 2023));
                  (ERROR, MsgScriptError)])%list.
Proof.
  intros Hf. cbv zeta.
  destruct (backfill_run_tables E 2023 w) as [[Hrun _]|(new & _ & _ & evs & Hev & _)].
  - assert (InitialLoad.main E w
            = ((logger ERROR MsgScriptError
                  (logger ERROR (MsgTruncateError (InitialLoad.get_table_name 2023)) w).1).1,
               Ok tt)) as ->.
    { unfold InitialLoad.main, try_except. cbn [for_each]. unfold bind at 1.
      rewrite Hrun. reflexivity. }
    cbn. rewrite <- app_assoc. auto.
  - exfalso.
    destruct (clear_existing_data_effect E 2023 w) as [(_ & Hok & _)|[Hfail _]];
      [contradiction|].
    revert Hev. unfold InitialLoad.process_and_save_data_by_year, bind.
    rewrite Hfail. cbn. intros Hev.
    apply (f_equal length) in Hev. rewrite length_app in Hev. cbn in Hev. lia.
Qed.

(** C9. A delta run leaves every row of every table in place: a table
    holds afterwards its former rows, in order, followed by the rows
    the run added (none outside the 2025 table), and no truncate is
    among the statements of the run. *)
Theorem delta_only_appends (E : env) (w : world) (t : string) (rows : list row) :
  tables w !! t = Some rows ->
  (exists new,
      tables (UpdateData.process_and_save_delta E w).1 !! t = Some (rows ++ new)%list
      /\ (t <> UpdateData.table_2025 -> new = []))
  /\ (exists evs,
         db_trace (UpdateData.process_and_save_delta E w).1 = (db_trace w ++ evs)%list
         /\ Forall (fun ev => is_truncate ev = false) evs).
Proof.
  intros Hrows.
  destruct (delta_run_grows E w) as [(Hother & (new & _ & Htab) & Hevs) _].
  split; [|exact Hevs].
  destruct (decide (t = UpdateData.table_2025)) as [->|Hne].
  - rewrite Hrows in Htab. destruct Htab as [Htab|Htab].
    + exists []. rewrite app_nil_r. split; [exact Htab|reflexivity].
    + exists new. split; [exact Htab|contradiction].
  - exists []. rewrite app_nil_r, (Hother t Hne). auto.
Qed.

Lemma delta_only_appends_witness :
  tables (world_with [old_row]) !! "ransomware_data_2025" = Some [old_row]
  /\ exists new,
       tables (UpdateData.process_and_save_delta env_two_records
                 (world_with [old_row])).1 !! "ransomware_data_2025"
       = Some ([old_row] ++ new)%list.
Proof.
  assert (tables (world_with [old_row]) !! "ransomware_data_2025" = Some [old_row])
    as H by (vm_compute; reflexivity).
  split; [exact H|].
  destruct (delta_only_appends env_two_records (world_with [old_row])
              "ransomware_data_2025" [old_row] H) as [(new & Hnew & _) _].
  exists new. exact Hnew.
Defined.


(** The statement at work: the backfill of 2025 on a feed of two
    records of 2025 returns and stores both. *)
Example backfill_2025_stores_both :
  (InitialLoad.process_and_save_data_by_year env_two_records 2025
     (world_with [old_row])).2 = Ok tt
  /\ table_after (InitialLoad.process_and_save_data_by_year env_two_records 2025
                    (world_with [old_row]))
       (InitialLoad.get_table_name 2025)
     = Some [plain_row (midnight 2025 3 1) (MonthInt 3);
             plain_row (midnight 2025 3 2) (MonthInt 3)].
Proof. split; vm_compute; reflexivity. Qed.

(** C8. When the feed of its year yields an empty list (as it does
    after a failed fetch), a backfill run whose truncate went through
    logs that there is no data and returns with its table empty,
    having run the truncate and nothing else.  When the feed of 2025
    yields an empty list, a delta run logs that there is nothing new
    and returns without touching any table or snapshot directory: the
    only statement it may have run is the watermark read.  Neither
    half depends on the feed of another year or, for the delta run, on
    the state of any table. *)
Theorem empty_fetch_writes_nothing (E : env) (year : Z) (w : world) :
  ((remote E year = FetchOk (PList []) \/ remote E year = FetchFails) ->
   db_fault E OpTruncate (InitialLoad.get_table_name year) = DbOk ->
   is_Some (tables w !! InitialLoad.get_table_name year) ->
   (InitialLoad.process_and_save_data_by_year E year w).2 = Ok tt
   /\ tables (InitialLoad.process_and_save_data_by_year E year w).1
      = <[InitialLoad.get_table_name year := []]> (tables w)
   /\ db_trace (InitialLoad.process_and_save_data_by_year E year w).1
      = (db_trace w ++ [EvTruncate (InitialLoad.get_table_name year)])%list
   /\ new_records_dir (InitialLoad.process_and_save_data_by_year E year w).1
      = new_records_dir w
   /\ current_state_dir (InitialLoad.process_and_save_data_by_year E year w).1
      = current_state_dir w
   /\ last (log (InitialLoad.process_and_save_data_by_year E year w).1)
      = Some (ERROR, MsgNoData year))
  /\ ((remote E 2025 = FetchOk (PList []) \/ remote E 2025 = FetchFails) ->
      (UpdateData.process_and_save_delta E w).2 = Ok tt
      /\ tables (UpdateData.process_and_save_delta E w).1 = tables w
      /\ new_records_dir (UpdateData.process_and_save_delta E w).1
         = new_records_dir w
      /\ current_state_dir (UpdateData.process_and_save_delta E w).1
         = current_state_dir w
      /\ (db_trace (UpdateData.process_and_save_delta E w).1 = db_trace w
          \/ db_trace (UpdateData.process_and_save_delta E w).1
             = (db_trace w ++ [EvSelectMax UpdateData.table_2025])%list)
      /\ last (log (UpdateData.process_and_save_delta E w).1)
         = Some (INFO, MsgNoNewData)).
Proof.
  split.
  - intros Hyear Hfault Htable.
    pose proof (clear_existing_data_effect E year w) as Heff. cbv zeta in Heff.
    destruct Heff as [(Hok & _ & _ & Ht & Hev & Hn & Hc)|[_ [Hbad|Hbad]]];
      [|contradiction|rewrite Hbad in Htable; destruct Htable; discriminate].
    unfold InitialLoad.process_and_save_data_by_year, bind.
    destruct (InitialLoad.clear_existing_data E year w) as [w1 [[]|e]];
      cbn in Hok, Ht, Hev, Hn, Hc; [|discriminate].
    unfold InitialLoad.fetch_data.
    destruct Hyear as [-> | ->]; cbn; rewrite ?last_snoc; auto 10.
  - intros H2025.
    pose proof (get_latest_record_date_effect E w) as Heff. cbv zeta in Heff.
    destruct Heff as (Hok & Ht & Hn & Hc & Hev & _).
    unfold UpdateData.process_and_save_delta, bind.
    destruct (UpdateData.get_latest_record_date E w) as [w1 [latest|e]];
      cbn in Hok, Ht, Hn, Hc, Hev; [|discriminate].
    unfold UpdateData.fetch_delta_data.
    destruct H2025 as [-> | ->]; cbn; rewrite ?last_snoc; auto 10.
Qed.

Lemma empty_fetch_writes_nothing_witness :
  (remote env_2024_feed_down 2024 = FetchFails
   /\ remote env_2024_feed_down 2025 = FetchOk (PList [raw1 "2025-03-01"])
   /\ (InitialLoad.process_and_save_data_by_year env_2024_feed_down 2024
         (world_with [old_row])).2 = Ok tt
   /\ tables (InitialLoad.process_and_save_data_by_year env_2024_feed_down 2024
                (world_with [old_row])).1
      = <[InitialLoad.get_table_name 2024 := []]> (tables (world_with [old_row])))
  /\ (remote env_truncate_down 2025 = FetchOk (PList [])
      /\ db_fault env_truncate_down OpTruncate (InitialLoad.get_table_name 2024)
         = DbConnectFails
      /\ (UpdateData.process_and_save_delta env_truncate_down
            (world_with [old_row])).2 = Ok tt
      /\ tables (UpdateData.process_and_save_delta env_truncate_down
                   (world_with [old_row])).1
         = tables (world_with [old_row])).
Proof.
  assert (remote env_2024_feed_down 2024 = FetchOk (PList [])
          \/ remote env_2024_feed_down 2024 = FetchFails) as H1
    by (right; reflexivity).
  assert (db_fault env_2024_feed_down OpTruncate (InitialLoad.get_table_name 2024)
          = DbOk) as H2 by reflexivity.
  assert (is_Some (tables (world_with [old_row]) !! InitialLoad.get_table_name 2024))
    as H3 by (vm_compute; eauto).
  assert (remote env_truncate_down 2025 = FetchOk (PList [])
          \/ remote env_truncate_down 2025 = FetchFails) as H4
    by (left; reflexivity).
  destruct (proj1 (empty_fetch_writes_nothing env_2024_feed_down 2024
                     (world_with [old_row])) H1 H2 H3) as (Hb1 & Hb2 & _).
  destruct (proj2 (empty_fetch_writes_nothing env_truncate_down 2024
                     (world_with [old_row])) H4) as (Hd1 & Hd2 & _).
  repeat split; assumption.
Defined.

(** ** Text fields of the stored rows *)

Section Text.

Lemma lstrip_head (s : string) :
  PyStr.lstrip s = EmptyString
  \/ exists c r, PyStr.lstrip s = String c r /\ PyStr.isspace c = false.
Proof.
  induction s as [|c s IH]; [left; reflexivity|].
  cbn. destruct (PyStr.isspace c) eqn:Hc; [exact IH|]. right. eauto.
Qed.

Lemma rstrip_head (c : ascii) (s : string) :
  PyStr.isspace c = false -> exists r, PyStr.rstrip (String c s) = String c r.
Proof.
  intros Hc. cbn. destruct (PyStr.rstrip s); [rewrite Hc|]; eauto.
Qed.

Lemma rstrip_idem (s : string) : PyStr.rstrip (PyStr.rstrip s) = PyStr.rstrip s.
Proof.
  induction s as [|c s IH]; [reflexivity|].
  cbn. destruct (PyStr.rstrip s) as [|c' r] eqn:Hr.
  - destruct (PyStr.isspace c) eqn:Hc; [reflexivity|]. cbn. rewrite Hc. reflexivity.
  - cbn [PyStr.rstrip]. cbn [PyStr.rstrip] in IH. rewrite IH. reflexivity.
Qed.

(** [strip] of a stripped text changes nothing. *)
Lemma strip_idem (s : string) : trimmed (PyStr.strip s).
Proof.
  unfold trimmed, PyStr.strip.
  destruct (lstrip_head s) as [->|(c & r & -> & Hc)]; [reflexivity|].
  destruct (rstrip_head c r Hc) as [r' Hr]. rewrite Hr.
  cbn [PyStr.lstrip]. rewrite Hc, <- Hr. apply rstrip_idem.
Qed.

Lemma lstrip_blank (s : string) :
  PyStr.lstrip s = EmptyString <-> blank s = true.
Proof.
  induction s as [|c s IH]; [split; reflexivity|].
  cbn. destruct (PyStr.isspace c); cbn; [exact IH|]. split; discriminate.
Qed.

(** [strip] gives the empty text exactly on blank texts. *)
Lemma strip_empty_iff (s : string) :
  PyStr.strip s = EmptyString <-> blank s = true.
Proof.
  unfold PyStr.strip. rewrite <- lstrip_blank.
  destruct (lstrip_head s) as [->|(c & r & -> & Hc)]; [split; reflexivity|].
  destruct (rstrip_head c r Hc) as [r' ->]. split; discriminate.
Qed.

Lemma replace_trimmed (values : list string) (new cell : string) :
  trimmed new -> trimmed cell -> trimmed (Frame.replace values new cell).
Proof. intros Hn Hc. unfold Frame.replace. destruct (PyStr.in_list _ _); assumption. Qed.

(** A replaced cell holds none of the replaced values, unless the new
    value is one of them. *)
Lemma replace_not_in (values : list string) (new cell : string) :
  PyStr.in_list new values = false ->
  PyStr.in_list (Frame.replace values new cell) values = false.
Proof.
  intros Hn. unfold Frame.replace.
  destruct (PyStr.in_list cell values) eqn:Hc; assumption.
Qed.

Lemma initial_clean_sector_trimmed (v : pyval) (s : string) :
  InitialLoad.clean_sector v = Ok s -> trimmed s.
Proof.
  unfold InitialLoad.clean_sector.
  destruct (negb (truthy v)); [intros [= <-]; reflexivity|].
  destruct (py_lower v) as [low|]; cbn [res_bind]; [|discriminate].
  destruct (PyStr.in_list low _); [intros [= <-]; reflexivity|].
  destruct v; cbn; try discriminate. intros [= <-]. apply strip_idem.
Qed.

Lemma delta_clean_sector_trimmed (v : pyval) (s : string) :
  UpdateData.clean_sector v = Ok s -> trimmed s.
Proof.
  unfold UpdateData.clean_sector.
  destruct (negb (truthy v)); [intros [= <-]; reflexivity|].
  destruct (py_strip v) as [st|] eqn:Hst; cbn [res_bind]; [|discriminate].
  destruct (_ || _); [intros [= <-]; reflexivity|].
  intros [= <-]. destruct v; try discriminate. injection Hst as <-. apply strip_idem.
Qed.

Lemma py_strip_trimmed (v : pyval) (s : string) : py_strip v = Ok s -> trimmed s.
Proof. destruct v; try discriminate. intros [= <-]. apply strip_idem. Qed.

(** The complete shape of a kept record, in either script. *)
Lemma initial_process_item_fields (year : Z) (item : pyval) (r : row) :
  InitialLoad.process_item year item = Ok (Some r) ->
  exists d g,
    item = PDict d
    /\ InitialLoad.clean_sector (dict_get d "activity" PNone) = Ok (sector r)
    /\ py_strip (dict_get d "country" (PStr "")) = Ok (country r)
    /\ py_strip (dict_get d "post_title" (PStr "")) = Ok (post_title r)
    /\ py_strip (dict_get d "group_name" (PStr "Other")) = Ok g
    /\ group_name r = (if String.eqb g "" then "Other" else g)
    /\ InitialLoad.parse_date (dict_get d "published" (PStr "")) = Ok (attack_date r).
Proof.
  unfold InitialLoad.process_item.
  destruct item as [| | | | |d]; cbn [is_dict]; try discriminate.
  destruct (InitialLoad.parse_date (dict_get d "discovered" _)) as [[dd|]|];
    cbn [res_bind]; try discriminate;
    destruct (InitialLoad.parse_date (dict_get d "published" _)) as [ad|] eqn:Ha;
    cbn [res_bind]; try discriminate.
  destruct (dt_year dd =? year); [|discriminate].
  destruct (InitialLoad.clean_sector _) as [sec|] eqn:Hs; cbn [res_bind]; [|discriminate].
  destruct (py_strip (dict_get d "country" _)) as [c|] eqn:Hc; cbn [res_bind]; [|discriminate].
  destruct (py_strip (dict_get d "post_title" _)) as [pt|] eqn:Ht; cbn [res_bind]; [|discriminate].
  destruct (py_strip (dict_get d "group_name" _)) as [g|] eqn:Hg; cbn [res_bind]; [|discriminate].
  intros [= <-]. exists d, g. cbn [sector country post_title group_name attack_date].
  repeat split; assumption || reflexivity.
Qed.

Lemma delta_process_item_fields (latest : option datetime) (item : pyval) (r : row) :
  UpdateData.process_item latest item = Ok (Some r) ->
  exists d g,
    item = PDict d
    /\ UpdateData.clean_sector (dict_get d "activity" PNone) = Ok (sector r)
    /\ py_strip (dict_get d "country" (PStr "")) = Ok (country r)
    /\ py_strip (dict_get d "post_title" (PStr "")) = Ok (post_title r)
    /\ py_strip (dict_get d "group_name" (PStr "Other")) = Ok g
    /\ group_name r = (if String.eqb g "" then "Other" else g)
    /\ UpdateData.parse_date (dict_get d "published" (PStr "")) = Ok (attack_date r).
Proof.
  unfold UpdateData.process_item.
  destruct item as [| | | | |d]; cbn [is_dict]; try discriminate.
  destruct (UpdateData.parse_date (dict_get d "discovered" _)) as [dd|];
    cbn [res_bind]; try discriminate;
    destruct (UpdateData.parse_date (dict_get d "published" _)) as [ad|] eqn:Ha;
    cbn [res_bind]; try discriminate.
  destruct (UpdateData.is_new latest dd); [|discriminate].
  destruct (UpdateData.clean_sector _) as [sec|] eqn:Hs; cbn [res_bind]; [|discriminate].
  destruct (py_strip (dict_get d "country" _)) as [c|] eqn:Hc; cbn [res_bind]; [|discriminate].
  destruct (py_strip (dict_get d "post_title" _)) as [pt|] eqn:Ht; cbn [res_bind]; [|discriminate].
  destruct (py_strip (dict_get d "group_name" _)) as [g|] eqn:Hg; cbn [res_bind]; [|discriminate].
  intros [= <-]. exists d, g. cbn [sector country post_title group_name attack_date].
  repeat split; assumption || reflexivity.
Qed.

Lemma group_or_other_trimmed (g : string) :
  trimmed g -> trimmed (if String.eqb g "" then "Other" else g).
Proof. intros Hg. destruct (String.eqb g ""); [reflexivity|assumption]. Qed.

End Text.

(** X1. Every row that either script writes has clean text cells: the
    sector, country, title and group name carry no blank at either end,
    the sector is never empty, "nan" or "Not Found", the group name is
    never empty or "nan", and the country is never "nan". *)
Theorem stored_text_is_clean (year : Z) (latest : option datetime) (item : pyval)
    (r : row) :
  InitialLoad.process_item year item = Ok (Some r)
  \/ UpdateData.process_item latest item = Ok (Some r) ->
  trimmed (sector (Frame.clean_row r))
  /\ trimmed (country (Frame.clean_row r))
  /\ trimmed (post_title (Frame.clean_row r))
  /\ trimmed (group_name (Frame.clean_row r))
  /\ PyStr.in_list (sector (Frame.clean_row r)) [""; "nan"; "Not Found"] = false
  /\ PyStr.in_list (group_name (Frame.clean_row r)) [""; "nan"] = false
  /\ country (Frame.clean_row r) <> "nan".
Proof.
  intros H.
  assert (trimmed (sector r) /\ trimmed (country r) /\ trimmed (post_title r)
          /\ trimmed (group_name r)) as (Hs & Hc & Hp & Hg).
  { destruct H as [H|H].
    - apply initial_process_item_fields in H
        as (d & g & _ & Hs & Hc & Hp & Hg & -> & _).
      repeat split;
        eauto using initial_clean_sector_trimmed, py_strip_trimmed,
          group_or_other_trimmed.
    - apply delta_process_item_fields in H
        as (d & g & _ & Hs & Hc & Hp & Hg & -> & _).
      repeat split;
        eauto using delta_clean_sector_trimmed, py_strip_trimmed,
          group_or_other_trimmed. }
  unfold Frame.clean_row. cbn [sector country post_title group_name].
  repeat split.
  - apply replace_trimmed; [reflexivity|assumption].
  - apply replace_trimmed; [reflexivity|assumption].
  - assumption.
  - apply replace_trimmed; [reflexivity|assumption].
  - apply replace_not_in. reflexivity.
  - apply replace_not_in. reflexivity.
  - unfold Frame.replace. cbn [PyStr.in_list existsb orb].
    destruct (String.eqb (country r) "nan") eqn:He; [discriminate|].
    apply String.eqb_neq. exact He.
Qed.

Lemma stored_text_is_clean_witness :
  InitialLoad.process_item 2024 (raw2 "2024-06-15" "activity" (PStr " nan "))
  = Ok (Some (mk_row "nan" "" "" "Other" (Some (midnight 2024 6 15)) None
                (Some (MonthInt 6))))
  /\ PyStr.in_list
       (sector (Frame.clean_row
                  (mk_row "nan" "" "" "Other" (Some (midnight 2024 6 15)) None
                     (Some (MonthInt 6)))))
       [""; "nan"; "Not Found"] = false.
Proof.
  assert (InitialLoad.process_item 2024 (raw2 "2024-06-15" "activity" (PStr " nan "))
          = Ok (Some (mk_row "nan" "" "" "Other" (Some (midnight 2024 6 15)) None
                        (Some (MonthInt 6))))) as H by (vm_compute; reflexivity).
  split; [exact H|].
  destruct (stored_text_is_clean 2024 None _ _ (or_introl H))
    as (_ & _ & _ & _ & Hs & _).
  exact Hs.
Defined.

(** X2. The group name of a kept record is the trimmed [group_name] of
    the raw record, and "Other" when that key is missing or its text is
    blank; this holds in both scripts. *)
Theorem group_name_defaults_to_other (year : Z) (latest : option datetime)
    (d : gmap string pyval) (r : row) :
  InitialLoad.process_item year (PDict d) = Ok (Some r)
  \/ UpdateData.process_item latest (PDict d) = Ok (Some r) ->
  match d !! "group_name" with
  | None => group_name r = "Other"
  | Some (PStr s) =>
      group_name r = (if blank s then "Other" else PyStr.strip s)
  | Some _ => False
  end.
Proof.
  intros H.
  assert (exists g, py_strip (dict_get d "group_name" (PStr "Other")) = Ok g
                    /\ group_name r = (if String.eqb g "" then "Other" else g))
    as (g & Hg & ->).
  { destruct H as [H|H];
      [apply initial_process_item_fields in H|apply delta_process_item_fields in H];
      destruct H as (d' & g & [= <-] & _ & _ & _ & Hg & Hr & _); eauto. }
  unfold dict_get in Hg. destruct (d !! "group_name") as [v|].
  - destruct v; try discriminate. injection Hg as <-.
    destruct (blank s) eqn:Hb.
    + apply strip_empty_iff in Hb. rewrite Hb. reflexivity.
    + destruct (String.eqb (PyStr.strip s) "") eqn:He; [|reflexivity].
      apply String.eqb_eq, strip_empty_iff in He. congruence.
  - injection Hg as <-. reflexivity.
Qed.

Lemma group_name_defaults_to_other_witness :
  UpdateData.process_item None (raw2 "2025-06-15" "group_name" (PStr "  "))
  = Ok (Some (plain_row (midnight 2025 6 15) (MonthStr "06")))
  /\ group_name (plain_row (midnight 2025 6 15) (MonthStr "06")) = "Other".
Proof.
  assert (UpdateData.process_item None (raw2 "2025-06-15" "group_name" (PStr "  "))
          = Ok (Some (plain_row (midnight 2025 6 15) (MonthStr "06")))) as H
    by (vm_compute; reflexivity).
  split; [exact H|].
  exact (group_name_defaults_to_other 2025 None _ _ (or_intror H)).
Defined.

Section Published.

Lemma dict_get_insert_ne (d : gmap string pyval) (k k' : string) (v default : pyval) :
  k <> k' -> dict_get (<[k := v]> d) k' default = dict_get d k' default.
Proof. intros H. unfold dict_get. rewrite lookup_insert_ne by exact H. reflexivity. Qed.

Lemma dict_get_delete_ne (d : gmap string pyval) (k k' : string) (default : pyval) :
  k <> k' -> dict_get (delete k d) k' default = dict_get d k' default.
Proof. intros H. unfold dict_get. rewrite lookup_delete_ne by exact H. reflexivity. Qed.

Lemma dict_get_insert_eq (d : gmap string pyval) (k : string) (v default : pyval) :
  dict_get (<[k := v]> d) k default = v.
Proof. unfold dict_get. rewrite lookup_insert_eq. reflexivity. Qed.

Lemma dict_get_delete_eq (d : gmap string pyval) (k : string) (default : pyval) :
  dict_get (delete k d) k default = default.
Proof. unfold dict_get. rewrite lookup_delete_eq. reflexivity. Qed.

End Published.

Local Ltac other_keys :=
  repeat match goal with
  | |- context [dict_get (<[?k := ?v]> ?d) ?k' ?def] =>
      rewrite (dict_get_insert_ne d k k' v def) by discriminate
  | |- context [dict_get (delete ?k ?d) ?k' ?def] =>
      rewrite (dict_get_delete_ne d k k' def) by discriminate
  end.

(** X3. The [published] text of a raw record decides nothing but the
    [attack_date]: a record with any text there is kept, dropped or
    rejected exactly as the record without the key, and a kept row
    differs only in [attack_date], which is the parsed text or null when
    the text does not parse.  This holds in both scripts. *)
Theorem published_only_sets_attack_date (year : Z) (latest : option datetime)
    (d : gmap string pyval) (s : string) :
  InitialLoad.process_item year (PDict (<["published" := PStr s]> d))
  = res_map (fmap (set_attack_date (date_parser_spec s)))
      (InitialLoad.process_item year (PDict (delete "published" d)))
  /\ UpdateData.process_item latest (PDict (<["published" := PStr s]> d))
     = res_map (fmap (set_attack_date (date_parser_spec s)))
         (UpdateData.process_item latest (PDict (delete "published" d))).
Proof.
  split.
  - unfold InitialLoad.process_item. cbn [is_dict].
    other_keys.
    rewrite dict_get_insert_eq, dict_get_delete_eq, initial_parse_date_spec.
    change (InitialLoad.parse_date (PStr "")) with (@Ok (option datetime) None).
    destruct (InitialLoad.parse_date (dict_get d "discovered" _)) as [[dd|]|];
      cbn [res_bind res_map fmap option_fmap option_map]; try reflexivity.
    destruct (dt_year dd =? year); [|reflexivity].
    destruct (InitialLoad.clean_sector _); cbn [res_bind res_map]; [|reflexivity].
    destruct (py_strip (dict_get d "country" _)); cbn [res_bind res_map]; [|reflexivity].
    destruct (py_strip (dict_get d "post_title" _)); cbn [res_bind res_map]; [|reflexivity].
    destruct (py_strip (dict_get d "group_name" _)); cbn [res_bind res_map]; reflexivity.
  - unfold UpdateData.process_item. cbn [is_dict].
    other_keys.
    rewrite dict_get_insert_eq, dict_get_delete_eq.
    change (UpdateData.parse_date (PStr s)) with (InitialLoad.parse_date (PStr s)).
    rewrite initial_parse_date_spec.
    change (UpdateData.parse_date (PStr "")) with (@Ok (option datetime) None).
    destruct (UpdateData.parse_date (dict_get d "discovered" _)) as [dd|];
      cbn [res_bind res_map]; try reflexivity.
    destruct (UpdateData.is_new latest dd); [|reflexivity].
    destruct (UpdateData.clean_sector _); cbn [res_bind res_map]; [|reflexivity].
    destruct (py_strip (dict_get d "country" _)); cbn [res_bind res_map]; [|reflexivity].
    destruct (py_strip (dict_get d "post_title" _)); cbn [res_bind res_map]; [|reflexivity].
    destruct (py_strip (dict_get d "group_name" _)); cbn [res_bind res_map]; reflexivity.
Qed.

(** ** Partitions *)

(** Two years never share a table. *)
Lemma get_table_name_inj (y1 y2 : Z) :
  InitialLoad.get_table_name y1 = InitialLoad.get_table_name y2 -> y1 = y2.
Proof.
  unfold InitialLoad.get_table_name. cbn. intros [= H].
  exact (pretty_Z_inj _ _ H).
Qed.

(** X4. A backfill run for one year leaves the table of every other
    year as it was, whatever the feed returns and whatever fails. *)
Theorem backfill_leaves_other_years (E : env) (year other : Z) (w : world) :
  other <> year ->
  tables (InitialLoad.process_and_save_data_by_year E year w).1
    !! InitialLoad.get_table_name other
  = tables w !! InitialLoad.get_table_name other.
Proof.
  intros Hne.
  destruct (backfill_run_tables E year w) as [[Hrun _]|(new & _ & Htab & _)].
  - rewrite Hrun. reflexivity.
  - rewrite Htab. apply lookup_insert_ne.
    intros Heq. apply get_table_name_inj in Heq. congruence.
Qed.

Lemma backfill_leaves_other_years_witness :
  2025 <> 2024
  /\ tables (InitialLoad.process_and_save_data_by_year env_two_records 2024
               (world_with [old_row])).1 !! InitialLoad.get_table_name 2025
     = tables (world_with [old_row]) !! InitialLoad.get_table_name 2025.
Proof.
  assert (2025 <> 2024) as H by lia.
  split; [exact H|].
  exact (backfill_leaves_other_years env_two_records 2024 2025
           (world_with [old_row]) H).
Defined.

(** ** What a run depends on *)

Section ReadsOnly.

Variable table : string.

Lemma reads_only_ret {A} (a : A) : reads_only table (ret a).
Proof. intros w1 w2 H. split; [reflexivity|exact H]. Qed.

Lemma reads_only_raise {A} (e : exn) : reads_only table (@raise A e).
Proof. intros w1 w2 H. split; [reflexivity|exact H]. Qed.

Lemma reads_only_lift {A} (r : res A) : reads_only table (lift r).
Proof. intros w1 w2 H. split; [reflexivity|exact H]. Qed.

Lemma reads_only_bind {A B} (m : M A) (k : A -> M B) :
  reads_only table m -> (forall a, reads_only table (k a)) ->
  reads_only table (bind m k).
Proof.
  intros Hm Hk w1 w2 H. unfold bind. destruct (Hm w1 w2 H) as [Hr Hw].
  destruct (m w1) as [w1' [a|e]], (m w2) as [w2' [a'|e']]; cbn in Hr, Hw;
    try discriminate.
  - injection Hr as <-. apply Hk, Hw.
  - injection Hr as <-. split; [reflexivity|exact Hw].
Qed.

Lemma reads_only_try_except {A} (m : M A) (h : exn -> M A) :
  reads_only table m -> (forall e, reads_only table (h e)) ->
  reads_only table (try_except m h).
Proof.
  intros Hm Hh w1 w2 H. unfold try_except. destruct (Hm w1 w2 H) as [Hr Hw].
  destruct (m w1) as [w1' [a|e]], (m w2) as [w2' [a'|e']]; cbn in Hr, Hw;
    try discriminate.
  - split; [exact Hr|exact Hw].
  - injection Hr as <-. apply Hh, Hw.
Qed.

Lemma reads_only_logger (l : level) (msg : message) : reads_only table (logger l msg).
Proof. intros w1 w2 H. split; [reflexivity|exact H]. Qed.

Lemma reads_only_connect (E : env) (op : db_op) (t : string) :
  reads_only table (Db.connect E op t).
Proof.
  unfold Db.connect. destruct (db_fault E op t);
    auto using reads_only_ret, reads_only_raise.
Qed.

Lemma reads_only_to_sql (E : env) (df : list row) :
  reads_only table (Db.to_sql E table df).
Proof.
  intros w1 w2 H. unfold Db.to_sql.
  destruct (db_fault E OpInsert table); try (split; [reflexivity|exact H]).
  split; [reflexivity|]. unfold agree in *. cbn.
  rewrite !lookup_insert_eq, H. reflexivity.
Qed.

Lemma reads_only_select_stats (E : env) :
  reads_only table (Db.select_stats E table).
Proof.
  intros w1 w2 H. unfold Db.select_stats, Db.execute_on.
  pose proof H as H'. unfold agree in H'.
  destruct (db_fault E OpSelectStats table);
    try (split; [reflexivity|exact H]).
  rewrite H'. destruct (tables w2 !! table); (split; [reflexivity|exact H]).
Qed.

Lemma reads_only_fetch_data (E : env) (year : Z) :
  reads_only table (InitialLoad.fetch_data E year).
Proof.
  unfold InitialLoad.fetch_data. destruct (remote E year) as [body| |[]].
  - apply reads_only_ret.
  - apply reads_only_bind; [apply reads_only_logger|intros; apply reads_only_ret].
  - apply reads_only_bind; [apply reads_only_logger|intros; apply reads_only_ret].
  - apply reads_only_raise.
Qed.

Lemma reads_only_initial_log_stats (year : Z) (stats : nat * nat * nat) :
  reads_only table (InitialLoad.log_stats year stats).
Proof.
  unfold InitialLoad.log_stats.
  repeat (apply reads_only_bind; [apply reads_only_logger|intros _]).
  apply reads_only_logger.
Qed.

End ReadsOnly.

(** X5. Once its truncate has gone through, a backfill run ends the same
    way and leaves the same rows in its table whatever the table held
    before; so a second run against the same feed reproduces the table
    of the first. *)
Theorem backfill_replaces_partition (E : env) (year : Z) (w w' : world) :
  db_fault E OpTruncate (InitialLoad.get_table_name year) = DbOk ->
  is_Some (tables w !! InitialLoad.get_table_name year) ->
  is_Some (tables w' !! InitialLoad.get_table_name year) ->
  ((InitialLoad.process_and_save_data_by_year E year w).2
   = (InitialLoad.process_and_save_data_by_year E year w').2
   /\ table_after (InitialLoad.process_and_save_data_by_year E year w)
        (InitialLoad.get_table_name year)
      = table_after (InitialLoad.process_and_save_data_by_year E year w')
          (InitialLoad.get_table_name year))
  /\ table_after
       (InitialLoad.process_and_save_data_by_year E year
          (InitialLoad.process_and_save_data_by_year E year w).1)
       (InitialLoad.get_table_name year)
     = table_after (InitialLoad.process_and_save_data_by_year E year w)
         (InitialLoad.get_table_name year).
Proof.
  set (t := InitialLoad.get_table_name year).
  assert (forall w1 w2, is_Some (tables w1 !! t) -> is_Some (tables w2 !! t) ->
            db_fault E OpTruncate t = DbOk ->
            (InitialLoad.process_and_save_data_by_year E year w1).2
            = (InitialLoad.process_and_save_data_by_year E year w2).2
            /\ table_after (InitialLoad.process_and_save_data_by_year E year w1) t
               = table_after (InitialLoad.process_and_save_data_by_year E year w2) t)
    as Hindep.
  { intros w1 w2 H1 H2 Hf. unfold table_after.
    unfold InitialLoad.process_and_save_data_by_year. fold t.
    match goal with
    | |- context [bind (InitialLoad.clear_existing_data E year) ?k] => set (rest := k)
    end.
    assert (reads_only t (rest tt)) as Hrest.
    { subst rest. cbv beta.
      apply reads_only_bind; [apply reads_only_fetch_data|intros yearly_data].
      destruct (negb (truthy yearly_data)); [apply reads_only_logger|].
      apply reads_only_bind; [apply reads_only_lift|intros items].
      apply reads_only_bind; [apply reads_only_lift|intros processed].
      destruct processed; [apply reads_only_logger|].
      apply reads_only_try_except.
      - apply reads_only_bind; [apply reads_only_to_sql|intros _].
        apply reads_only_bind; [apply reads_only_logger|intros _].
        apply reads_only_bind; [apply reads_only_connect|intros _].
        apply reads_only_bind; [apply reads_only_select_stats|intros stats].
        apply reads_only_initial_log_stats.
      - intros e. apply reads_only_bind; [apply reads_only_logger|intros _].
        apply reads_only_raise. }
    unfold bind.
    pose proof (clear_existing_data_effect E year w1) as Ha.
    pose proof (clear_existing_data_effect E year w2) as Hb.
    cbv zeta in Ha, Hb.
    change (InitialLoad.get_table_name year) with t in Ha, Hb.
    destruct Ha as [(Hok1 & _ & _ & Ht1 & _)|[_ [Hbad|Hbad]]];
      [|congruence|rewrite Hbad in H1; destruct H1; discriminate].
    destruct Hb as [(Hok2 & _ & _ & Ht2 & _)|[_ [Hbad|Hbad]]];
      [|congruence|rewrite Hbad in H2; destruct H2; discriminate].
    destruct (InitialLoad.clear_existing_data E year w1) as [u1 [[]|?]];
      [|discriminate].
    destruct (InitialLoad.clear_existing_data E year w2) as [u2 [[]|?]];
      [|discriminate].
    cbn in Ht1, Ht2. apply Hrest. unfold agree.
    rewrite Ht1, Ht2, !lookup_insert_eq. reflexivity. }
  intros Hf Hw Hw'. split; [apply Hindep; assumption|].
  apply Hindep; [|assumption|assumption].
  destruct (backfill_run_tables E year w) as [[_ [Hbad|Hbad]]|(new & _ & Htab & _)];
    fold t in Hbad || idtac.
  - contradiction.
  - rewrite Hbad in Hw. destruct Hw. discriminate.
  - rewrite Htab. fold t. rewrite lookup_insert_eq. eauto.
Qed.

Lemma backfill_replaces_partition_witness :
  db_fault env_two_records OpTruncate (InitialLoad.get_table_name 2025) = DbOk
  /\ is_Some (tables (world_with [old_row]) !! InitialLoad.get_table_name 2025)
  /\ is_Some (tables (world_with []) !! InitialLoad.get_table_name 2025)
  /\ table_after (InitialLoad.process_and_save_data_by_year env_two_records 2025
                    (world_with [old_row])) (InitialLoad.get_table_name 2025)
     = table_after (InitialLoad.process_and_save_data_by_year env_two_records 2025
                      (world_with [])) (InitialLoad.get_table_name 2025).
Proof.
  assert (db_fault env_two_records OpTruncate (InitialLoad.get_table_name 2025)
          = DbOk) as H1 by reflexivity.
  assert (is_Some (tables (world_with [old_row]) !! InitialLoad.get_table_name 2025))
    as H2 by (vm_compute; eauto).
  assert (is_Some (tables (world_with []) !! InitialLoad.get_table_name 2025))
    as H3 by (vm_compute; eauto).
  repeat (split; [assumption|]).
  exact (proj2 (proj1 (backfill_replaces_partition env_two_records 2025
                         (world_with [old_row]) (world_with []) H1 H2 H3))).
Defined.

(** ** Steps that leave the tables alone *)

Section SameTables.

Lemma same_tables_refl (w : world) : same_tables w w.
Proof. reflexivity. Qed.

Lemma same_tables_trans (a b c : world) :
  same_tables a b -> same_tables b c -> same_tables a c.
Proof. unfold same_tables. congruence. Qed.

Local Abbreviation quiet m := (post same_tables m (fun _ => True)).

Local Ltac seq :=
  eapply (post_bind same_tables same_tables_trans); [|intros ? _].

Lemma logger_quiet (l : level) (msg : message) : quiet (logger l msg).
Proof. apply post_step. reflexivity. Qed.

Lemma connect_quiet (E : env) (op : db_op) (t : string) : quiet (Db.connect E op t).
Proof.
  unfold Db.connect. destruct (db_fault E op t);
    (apply post_ret; [apply same_tables_refl|exact I])
    || (apply post_raise; apply same_tables_refl).
Qed.

Lemma select_quiet {A} (E : env) (op : db_op) (t : string) (ev : db_event)
    (f : list row -> A) :
  quiet (Db.execute_on E op t (fun rows w => (add_event ev w, f rows))).
Proof.
  apply post_step. intros w. unfold Db.execute_on.
  destruct (db_fault E op t); try reflexivity.
  destruct (tables w !! t); reflexivity.
Qed.

Lemma unlink_quiet (k : snapshot_kind) (name : string) : quiet (UpdateData.unlink k name).
Proof. apply post_step. intros w. destruct k; reflexivity. Qed.

Lemma write_file_quiet (k : snapshot_kind) (name : string) (time : Z) (df : list row) :
  quiet (UpdateData.write_file k name time df).
Proof. apply post_step. intros w. destruct k; reflexivity. Qed.

Lemma cleanup_old_files_quiet (E : env) (k : snapshot_kind) (n : nat) :
  quiet (UpdateData.cleanup_old_files E k n).
Proof.
  unfold UpdateData.cleanup_old_files.
  destruct (negb _); [|apply post_ret; [apply same_tables_refl|exact I]].
  intros w. revert w.
  match goal with |- forall w, _ /\ (forall a, (for_each (@?xs w) ?body w).2 = _ -> _) =>
    intros w;
    apply (post_for_each same_tables same_tables_refl same_tables_trans (xs w) body)
  end.
  intros f. seq; [apply unlink_quiet|apply logger_quiet].
Qed.

Lemma save_to_csv_quiet (E : env) (df : list row) (k : snapshot_kind) :
  quiet (UpdateData.save_to_csv E df k).
Proof.
  unfold UpdateData.save_to_csv.
  seq; [apply write_file_quiet|].
  seq; [apply logger_quiet|].
  seq; apply cleanup_old_files_quiet.
Qed.

Lemma delta_get_db_connection_quiet (E : env) (op : db_op) (t : string) :
  quiet (UpdateData.get_db_connection E op t).
Proof.
  unfold UpdateData.get_db_connection.
  apply (post_try_except same_tables same_tables_trans); [apply connect_quiet|].
  intros e. seq; [apply logger_quiet|]. apply post_raise, same_tables_refl.
Qed.

Lemma delta_log_stats_quiet (stats : nat * nat * nat) :
  quiet (UpdateData.log_stats stats).
Proof.
  unfold UpdateData.log_stats. repeat (seq; [apply logger_quiet|]).
  apply logger_quiet.
Qed.

(** A loop whose body always returns, returns. *)
Lemma for_each_returns {A} (xs : list A) (body : A -> M unit) (w : world) :
  (forall x w', (body x w').2 = Ok tt) -> (for_each xs body w).2 = Ok tt.
Proof.
  intros Hbody. revert w. induction xs as [|x xs IH]; intros w; [reflexivity|].
  cbn [for_each]. unfold bind. specialize (Hbody x w).
  destruct (body x w) as [w' [[]|e]]; [apply IH|discriminate].
Qed.

Lemma cleanup_old_files_returns (E : env) (k : snapshot_kind) (n : nat) (w : world) :
  (UpdateData.cleanup_old_files E k n w).2 = Ok tt.
Proof.
  unfold UpdateData.cleanup_old_files. destruct (negb _); [|reflexivity].
  apply for_each_returns. reflexivity.
Qed.

(** Writing a snapshot never fails and never touches a table. *)
Lemma save_to_csv_returns (E : env) (df : list row) (k : snapshot_kind) (w : world) :
  (UpdateData.save_to_csv E df k w).2 = Ok tt.
Proof.
  unfold UpdateData.save_to_csv, bind. cbn.
  match goal with
  | |- context [UpdateData.cleanup_old_files E NewRecords 5 ?w0] =>
      pose proof (cleanup_old_files_returns E NewRecords 5 w0) as H;
      destruct (UpdateData.cleanup_old_files E NewRecords 5 w0) as [w1 [[]|e]];
      [|discriminate]
  end.
  apply cleanup_old_files_returns.
Qed.

End SameTables.

(** ** The order of timestamps and the watermark *)

Section Order.

Lemma lex_compare_eq (xs ys : list Z) :
  Datetime.lex_compare xs ys = Eq -> xs = ys.
Proof.
  revert ys. induction xs as [|x xs IH]; intros [|y ys]; cbn; try discriminate;
    [reflexivity|].
  destruct (Z.compare_spec x y) as [Hxy|Hxy|Hxy]; try discriminate.
  intros Hrec. subst. f_equal. apply IH, Hrec.
Qed.

Lemma lex_compare_gt_trans (xs ys zs : list Z) :
  Datetime.lex_compare xs ys = Gt -> Datetime.lex_compare ys zs = Gt ->
  Datetime.lex_compare xs zs = Gt.
Proof.
  revert ys zs. induction xs as [|x xs IH]; intros [|y ys] [|z zs]; cbn;
    try discriminate; try reflexivity.
  destruct (Z.compare_spec x y) as [Hxy|Hxy|Hxy],
           (Z.compare_spec y z) as [Hyz|Hyz|Hyz]; try discriminate;
    destruct (Z.compare_spec x z) as [Hxz|Hxz|Hxz]; try lia;
    try (intros _ _; reflexivity).
  apply IH.
Qed.

Lemma gtb_gt (a b : datetime) :
  Datetime.gtb a b = true <-> Datetime.compare a b = Gt.
Proof. unfold Datetime.gtb. destruct (Datetime.compare a b); split; congruence. Qed.

(** [>] is transitive. *)
Lemma gtb_trans (a b c : datetime) :
  Datetime.gtb a b = true -> Datetime.gtb b c = true -> Datetime.gtb a c = true.
Proof. rewrite !gtb_gt. apply lex_compare_gt_trans. Qed.

(** Later than something that is not earlier than a third: later than
    the third. *)
Lemma gtb_ge_trans (a b c : datetime) :
  Datetime.gtb a b = true -> Datetime.gtb c b = false -> Datetime.gtb a c = true.
Proof.
  intros Hab Hcb. destruct (Datetime.gtb a c) eqn:Hac; [reflexivity|].
  exfalso. unfold Datetime.gtb, Datetime.compare in *.
  destruct (Datetime.lex_compare (Datetime.fields a) (Datetime.fields c)) eqn:Hc;
    [| |discriminate].
  - apply lex_compare_eq in Hc. rewrite Hc in Hab.
    destruct (Datetime.lex_compare (Datetime.fields c) (Datetime.fields b));
      discriminate.
  - rewrite lex_compare_antisym in Hc.
    destruct (Datetime.lex_compare (Datetime.fields c) (Datetime.fields a)) eqn:Hca;
      try discriminate.
    destruct (Datetime.lex_compare (Datetime.fields a) (Datetime.fields b)) eqn:Hab';
      try discriminate.
    rewrite (lex_compare_gt_trans _ _ _ Hca Hab') in Hcb. discriminate.
Qed.

Lemma not_after_trans (a b c : option datetime) :
  not_after a b -> not_after b c -> not_after a c.
Proof.
  destruct a as [x|], b as [y|], c as [z|]; cbn; try tauto.
  intros Hxy Hyz. destruct (Datetime.gtb x z) eqn:Hxz; [|reflexivity].
  rewrite (gtb_ge_trans x z y Hxz Hyz) in Hxy. discriminate.
Qed.

Lemma not_after_max_l (a b : option datetime) : not_after a (Db.max_date a b).
Proof.
  destruct a as [x|], b as [y|]; cbn; trivial; try apply gtb_irrefl.
  destruct (Datetime.gtb y x) eqn:H; cbn; [apply gtb_asym, H|apply gtb_irrefl].
Qed.

Lemma not_after_max_r (a b : option datetime) : not_after b (Db.max_date a b).
Proof.
  destruct a as [x|], b as [y|]; cbn; trivial; try apply gtb_irrefl.
  destruct (Datetime.gtb y x) eqn:H; cbn; [apply gtb_irrefl|exact H].
Qed.

Lemma foldl_max_grows (ds : list (option datetime)) (acc : option datetime) :
  not_after acc (foldl Db.max_date acc ds).
Proof.
  revert acc. induction ds as [|d ds IH]; intros acc; cbn.
  - destruct acc; cbn; [apply gtb_irrefl|trivial].
  - eapply not_after_trans; [apply not_after_max_l|apply IH].
Qed.

Lemma foldl_max_bounds (ds : list (option datetime)) (acc : option datetime)
    (d : option datetime) :
  d ∈ ds -> not_after d (foldl Db.max_date acc ds).
Proof.
  revert acc. induction ds as [|d' ds IH]; intros acc Hd; [inversion Hd|].
  cbn. apply elem_of_cons in Hd as [->|Hd]; [|apply IH, Hd].
  eapply not_after_trans; [apply not_after_max_r|apply foldl_max_grows].
Qed.

(** The watermark is not earlier than any stored date, and it only
    moves forward when rows are appended. *)
Lemma watermark_bounds (rows : list row) (r : row) :
  r ∈ rows -> not_after (discovered_date r) (watermark rows).
Proof.
  intros Hr. apply foldl_max_bounds. apply list_elem_of_fmap. eauto.
Qed.

Lemma watermark_app (old new : list row) :
  not_after (watermark old) (watermark (old ++ new)).
Proof.
  unfold watermark. rewrite fmap_app, foldl_app. apply foldl_max_grows.
Qed.

End Order.

(** ** What a delta run appends *)

Section DeltaExact.

(** The watermark read returns, changes no table and no snapshot, and
    gives the greatest stored date when nothing fails. *)
Lemma get_latest_record_date_result (E : env) (w : world) :
  exists w0 latest,
    UpdateData.get_latest_record_date E w = (w0, Ok latest)
    /\ tables w0 = tables w
    /\ new_records_dir w0 = new_records_dir w
    /\ current_state_dir w0 = current_state_dir w
    /\ (db_fault E OpSelectMax UpdateData.table_2025 = DbOk ->
        latest = watermark (default [] (tables w !! UpdateData.table_2025))).
Proof.
  unfold UpdateData.get_latest_record_date, UpdateData.get_db_connection,
    try_except, bind, Db.connect, Db.select_max, Db.execute_on, raise, ret.
  destruct (db_fault E OpSelectMax UpdateData.table_2025) eqn:Hf; cbn.
  - destruct (tables w !! UpdateData.table_2025) eqn:Ht; cbn;
      eexists _, _; repeat split; reflexivity.
  - eexists _, _. repeat split; try reflexivity. discriminate.
  - eexists _, _. repeat split; try reflexivity. discriminate.
Qed.

Lemma bind_ok_inv {A B} (m : M A) (k : A -> M B) (w wf : world) (b : B) :
  bind m k w = (wf, Ok b) ->
  exists w' a, m w = (w', Ok a) /\ k a w' = (wf, Ok b).
Proof.
  unfold bind. destruct (m w) as [w' [a|e]]; [eauto|discriminate].
Qed.

Lemma try_except_ok_inv {A} (m : M A) (h : exn -> M A) (w wf : world) (a : A) :
  try_except m h w = (wf, Ok a) ->
  m w = (wf, Ok a) \/ exists w' e, m w = (w', Raise e) /\ h e w' = (wf, Ok a).
Proof.
  unfold try_except. destruct (m w) as [w' [a'|e]]; [left|right]; eauto.
Qed.

Lemma quiet_eq {A} (m : M A) (Q : A -> Prop) (w w' : world) (r : res A) :
  post same_tables m Q -> m w = (w', r) -> tables w' = tables w.
Proof. intros Hm Hr. destruct (Hm w) as [Hq _]. rewrite Hr in Hq. exact Hq. Qed.

Lemma fetch_delta_data_result (E : env) (w w' : world) (body : pyval) :
  UpdateData.fetch_delta_data E w = (w', Ok body) ->
  tables w' = tables w /\ feed_items E 2025 = iterate body.
Proof.
  unfold UpdateData.fetch_delta_data, feed_items.
  destruct (remote E 2025); cbn; try discriminate;
    intros [= <- <-]; split; reflexivity.
Qed.

(** With nothing new in the feed the run returns and writes nothing. *)
Lemma delta_run_no_new (E : env) (w : world) (latest : option datetime)
    (items : list pyval) :
  (UpdateData.get_latest_record_date E w).2 = Ok latest ->
  feed_items E 2025 = Ok items ->
  UpdateData.process_loop latest items [] = Ok [] ->
  (UpdateData.process_and_save_delta E w).2 = Ok tt
  /\ tables (UpdateData.process_and_save_delta E w).1 = tables w
  /\ new_records_dir (UpdateData.process_and_save_delta E w).1 = new_records_dir w
  /\ current_state_dir (UpdateData.process_and_save_delta E w).1
     = current_state_dir w.
Proof.
  intros Hl Hitems Hloop.
  destruct (get_latest_record_date_result E w) as (w0 & l & Hget & Ht & Hn & Hc & _).
  rewrite Hget in Hl. injection Hl as ->.
  unfold UpdateData.process_and_save_delta, bind. rewrite Hget.
  unfold UpdateData.fetch_delta_data, feed_items in *.
  destruct (remote E 2025); cbn [logger ret lift bind fst snd];
    [rewrite Hitems|injection Hitems as <-; cbn [iterate]|discriminate];
    rewrite Hloop; cbn; auto.
Qed.

(** The tables after a delta run that returns. *)
Lemma delta_appends_the_kept_rows_aux (E : env) (w : world) (latest : option datetime) :
  (UpdateData.get_latest_record_date E w).2 = Ok latest ->
  (UpdateData.process_and_save_delta E w).2 = Ok tt ->
  exists items processed,
    feed_items E 2025 = Ok items
    /\ UpdateData.process_loop latest items [] = Ok processed
    /\ Frame.clean processed = Frame.clean_row <$> processed
    /\ tables (UpdateData.process_and_save_delta E w).1
       = match processed with
         | [] => tables w
         | _ =>
             <[UpdateData.table_2025 :=
                 (default [] (tables w !! UpdateData.table_2025)
                  ++ Frame.clean processed)%list]> (tables w)
         end.
Proof.
  intros Hl Hok.
  destruct (UpdateData.process_and_save_delta E w) as [wf rf] eqn:Hrun.
  cbn [fst snd] in *. subst rf.
  unfold UpdateData.process_and_save_delta in Hrun.
  apply bind_ok_inv in Hrun as (w0 & l & H0 & Hrun).
  rewrite H0 in Hl. injection Hl as ->.
  assert (tables w0 = tables w) as T0.
  { destruct (get_latest_record_date_result E w) as (w0' & l & Hget & Ht & _).
    congruence. }
  apply bind_ok_inv in Hrun as (w1 & [] & H1 & Hrun).
  pose proof (quiet_eq _ _ _ _ _ (logger_quiet _ _) H1) as T1.
  apply bind_ok_inv in Hrun as (w2 & body & H2 & Hrun).
  apply fetch_delta_data_result in H2 as [T2 Hfeed].
  apply bind_ok_inv in Hrun as (w3 & items & H3 & Hrun).
  injection H3 as <- H3.
  apply bind_ok_inv in Hrun as (w4 & processed & H4 & Hrun).
  injection H4 as <- H4.
  exists items, processed. split; [congruence|]. split; [exact H4|].
  assert (Frame.clean processed = Frame.clean_row <$> processed) as Hclean.
  { unfold Frame.clean. f_equal. apply (dropna_years 2025).
    eapply delta_process_loop_years; eauto. }
  split; [exact Hclean|].
  assert (tables w2 = tables w) as T by congruence.
  destruct processed as [|r processed].
  { rewrite (quiet_eq _ _ _ _ _ (logger_quiet _ _) Hrun). exact T. }
  apply try_except_ok_inv in Hrun as [Hrun|(w' & e & _ & Hh)].
  2:{ apply bind_ok_inv in Hh as (? & ? & _ & Hh). discriminate. }
  apply bind_ok_inv in Hrun as (w5 & [] & H5 & Hrun).
  pose proof (quiet_eq _ _ _ _ _ (save_to_csv_quiet _ _ _) H5) as T5.
  apply bind_ok_inv in Hrun as (w6 & [] & H6 & Hrun).
  assert (tables w6
          = <[UpdateData.table_2025 :=
                (default [] (tables w !! UpdateData.table_2025)
                 ++ Frame.clean (r :: processed))%list]> (tables w)) as T6.
  { revert H6. unfold Db.to_sql.
    destruct (db_fault E OpInsert UpdateData.table_2025); try discriminate.
    intros [= <-]. cbn. rewrite T5, T. reflexivity. }
  apply bind_ok_inv in Hrun as (w7 & [] & H7 & Hrun).
  pose proof (quiet_eq _ _ _ _ _ (logger_quiet _ _) H7) as T7.
  apply bind_ok_inv in Hrun as (w8 & [] & H8 & Hrun).
  pose proof (quiet_eq _ _ _ _ _ (delta_get_db_connection_quiet _ _ _) H8) as T8.
  apply bind_ok_inv in Hrun as (w9 & stats & H9 & Hrun).
  pose proof (quiet_eq _ _ _ _ _ (select_quiet _ _ _ _ _) H9) as T9.
  apply bind_ok_inv in Hrun as (w10 & [] & H10 & Hrun).
  pose proof (quiet_eq _ _ _ _ _ (delta_log_stats_quiet _) H10) as T10.
  apply bind_ok_inv in Hrun as (w11 & current & H11 & Hrun).
  pose proof (quiet_eq _ _ _ _ _ (select_quiet _ _ _ _ _) H11) as T11.
  pose proof (quiet_eq _ _ _ _ _ (save_to_csv_quiet _ _ _) Hrun) as T12.
  congruence.
Qed.

End DeltaExact.

(** X6. A delta run that returns has appended to the 2025 table the
    cleaned rows of exactly the records its loop kept, in feed order,
    and has changed no table when the loop kept none. *)
Theorem delta_appends_the_kept_rows (E : env) (w : world) (latest : option datetime) :
  (UpdateData.get_latest_record_date E w).2 = Ok latest ->
  (UpdateData.process_and_save_delta E w).2 = Ok tt ->
  exists items processed,
    feed_items E 2025 = Ok items
    /\ UpdateData.process_loop latest items [] = Ok processed
    /\ Frame.clean processed = Frame.clean_row <$> processed
    /\ tables (UpdateData.process_and_save_delta E w).1
       = match processed with
         | [] => tables w
         | _ =>
             <[UpdateData.table_2025 :=
                 (default [] (tables w !! UpdateData.table_2025)
                  ++ Frame.clean processed)%list]> (tables w)
         end.
Proof. exact (delta_appends_the_kept_rows_aux E w latest). Qed.

Lemma delta_appends_the_kept_rows_witness :
  (UpdateData.get_latest_record_date env_two_records (world_with [old_row])).2
  = Ok (Some (midnight 2025 3 1))
  /\ (UpdateData.process_and_save_delta env_two_records (world_with [old_row])).2
     = Ok tt
  /\ exists items processed,
       feed_items env_two_records 2025 = Ok items
       /\ UpdateData.process_loop (Some (midnight 2025 3 1)) items [] = Ok processed.
Proof.
  assert ((UpdateData.get_latest_record_date env_two_records
             (world_with [old_row])).2 = Ok (Some (midnight 2025 3 1))) as H1
    by (vm_compute; reflexivity).
  assert ((UpdateData.process_and_save_delta env_two_records
             (world_with [old_row])).2 = Ok tt) as H2 by (vm_compute; reflexivity).
  split; [exact H1|]. split; [exact H2|].
  destruct (delta_appends_the_kept_rows env_two_records (world_with [old_row])
              (Some (midnight 2025 3 1)) H1 H2)
    as (items & processed & Hi & Hp & _).
  exists items, processed. split; assumption.
Defined.

(** ** Running the delta again *)

Section Rerun.

(** A record the loop kept or skipped under a watermark is skipped
    under a later one, unless its row is newer than that one too. *)
Lemma delta_item_after (latest : option datetime) (m : datetime) (item : pyval)
    (ro : option row) :
  UpdateData.process_item latest item = Ok ro ->
  not_after latest (Some m) ->
  (forall r, ro = Some r -> newer_than (Some m) r = false) ->
  UpdateData.process_item (Some m) item = Ok None.
Proof.
  unfold UpdateData.process_item.
  destruct item as [| | | | |d]; cbn [is_dict]; try reflexivity.
  destruct (UpdateData.parse_date (dict_get d "discovered" _)) as [[dd|]|];
    cbn [res_bind]; try discriminate;
    destruct (UpdateData.parse_date (dict_get d "published" _)) as [ad|];
    cbn [res_bind UpdateData.is_new]; try discriminate; try reflexivity.
  destruct (dt_year dd =? 2025); cbn [andb]; [|reflexivity].
  intros H Hle Hold.
  destruct (Datetime.gtb dd m) eqn:Hm; [exfalso|reflexivity].
  assert (match latest with
          | Some l => Datetime.gtb dd l
          | None => true
          end = true) as Hnew.
  { destruct latest as [l|]; [|reflexivity]. cbn in Hle.
    eapply gtb_ge_trans; eauto. }
  rewrite Hnew in H.
  destruct (UpdateData.clean_sector _); cbn [res_bind] in H; [|discriminate].
  destruct (py_strip (dict_get d "country" _)); cbn [res_bind] in H; [|discriminate].
  destruct (py_strip (dict_get d "post_title" _)); cbn [res_bind] in H; [|discriminate].
  destruct (py_strip (dict_get d "group_name" _)); cbn [res_bind] in H; [|discriminate].
  injection H as <-. specialize (Hold _ eq_refl).
  unfold newer_than in Hold. cbn in Hold. congruence.
Qed.

Lemma delta_loop_after (latest : option datetime) (m : datetime)
    (items : list pyval) (acc processed : list row) :
  UpdateData.process_loop latest items acc = Ok processed ->
  not_after latest (Some m) ->
  Forall (fun r => newer_than (Some m) r = false) processed ->
  UpdateData.process_loop (Some m) items [] = Ok [].
Proof.
  revert acc. induction items as [|item items IH]; intros acc; [reflexivity|].
  cbn [UpdateData.process_loop].
  destruct (UpdateData.process_item latest item) as [ro|e] eqn:Hitem;
    cbn [res_bind]; [|discriminate].
  intros Hloop Hle Hold.
  assert (forall r, ro = Some r -> r ∈ processed) as Hin.
  { intros r ->. rewrite delta_process_loop_acc in Hloop.
    destruct (UpdateData.process_loop latest items []); cbn in Hloop; [|discriminate].
    injection Hloop as <-. rewrite !elem_of_app, list_elem_of_singleton. auto. }
  rewrite (delta_item_after latest m item ro Hitem Hle).
  - cbn [res_bind]. destruct ro; eauto.
  - intros r Hr. rewrite Forall_forall in Hold. apply Hold, Hin, Hr.
Qed.

End Rerun.

(** X7. When the watermark read works, a delta run that returned has
    left nothing for the next one: run again against the same feed, the
    Delta Processor returns without changing any table or snapshot
    directory. *)
Theorem delta_rerun_adds_nothing (E : env) (w : world) :
  db_fault E OpSelectMax UpdateData.table_2025 = DbOk ->
  (UpdateData.process_and_save_delta E w).2 = Ok tt ->
  (UpdateData.process_and_save_delta E (UpdateData.process_and_save_delta E w).1).2
  = Ok tt
  /\ tables (UpdateData.process_and_save_delta E
               (UpdateData.process_and_save_delta E w).1).1
     = tables (UpdateData.process_and_save_delta E w).1
  /\ new_records_dir (UpdateData.process_and_save_delta E
                        (UpdateData.process_and_save_delta E w).1).1
     = new_records_dir (UpdateData.process_and_save_delta E w).1
  /\ current_state_dir (UpdateData.process_and_save_delta E
                          (UpdateData.process_and_save_delta E w).1).1
     = current_state_dir (UpdateData.process_and_save_delta E w).1.
Proof.
  intros Hf Hok. set (t := UpdateData.table_2025) in *.
  destruct (get_latest_record_date_result E w) as (w0 & latest & Hget & _ & _ & _ & Hl).
  specialize (Hl Hf). fold t in Hl.
  assert ((UpdateData.get_latest_record_date E w).2 = Ok latest) as Hget'
    by (rewrite Hget; reflexivity).
  destruct (delta_appends_the_kept_rows_aux E w latest Hget' Hok)
    as (items & processed & Hitems & Hloop & Hclean & Htab).
  set (w1 := (UpdateData.process_and_save_delta E w).1) in *.
  destruct (get_latest_record_date_result E w1)
    as (w0' & latest1 & Hget1 & _ & _ & _ & Hl1).
  specialize (Hl1 Hf). fold t in Hl1.
  assert ((UpdateData.get_latest_record_date E w1).2 = Ok latest1) as Hget1'
    by (rewrite Hget1; reflexivity).
  apply (delta_run_no_new E w1 latest1 items Hget1' Hitems).
  destruct processed as [|r processed].
  - rewrite Hl1, Htab, <- Hl. exact Hloop.
  - set (old := default [] (tables w !! t)) in *.
    set (new := Frame.clean (r :: processed)) in *.
    assert (latest1 = watermark (old ++ new)) as Hl1'
      by (rewrite Hl1, Htab, lookup_insert_eq; reflexivity).
    clear Hl1.
    assert (Forall (year_is 2025) (r :: processed)) as Hyears
      by (eapply delta_process_loop_years; eauto).
    assert (not_after latest latest1) as Hmono
      by (rewrite Hl, Hl1'; apply watermark_app).
    assert (forall x, x ∈ r :: processed ->
                      not_after (discovered_date x) latest1) as Hbound.
    { intros x Hx. rewrite Hl1'.
      apply (watermark_bounds (old ++ new) (Frame.clean_row x)).
      apply elem_of_app. right. subst new. rewrite Hclean.
      apply list_elem_of_fmap. exists x. split; [reflexivity|exact Hx]. }
    clear Hl1'.
    assert (exists m, latest1 = Some m) as [m ->].
    { specialize (Hbound r (list_elem_of_here _ _)).
      apply Forall_cons in Hyears as [Hyr _].
      unfold year_is, discovered_year in Hyr.
      destruct (discovered_date r); [|discriminate].
      destruct latest1; [eauto|contradiction]. }
    apply (delta_loop_after latest m items [] (r :: processed) Hloop Hmono).
    apply Forall_forall. intros x Hx. specialize (Hbound x Hx).
    unfold newer_than. destruct (discovered_date x); [exact Hbound|reflexivity].
Qed.

Lemma delta_rerun_adds_nothing_witness :
  db_fault env_two_records OpSelectMax UpdateData.table_2025 = DbOk
  /\ (UpdateData.process_and_save_delta env_two_records (world_with [old_row])).2
     = Ok tt
  /\ tables (UpdateData.process_and_save_delta env_two_records
               (UpdateData.process_and_save_delta env_two_records
                  (world_with [old_row])).1).1
     = tables (UpdateData.process_and_save_delta env_two_records
                 (world_with [old_row])).1.
Proof.
  assert (db_fault env_two_records OpSelectMax UpdateData.table_2025 = DbOk) as H1
    by reflexivity.
  assert ((UpdateData.process_and_save_delta env_two_records
             (world_with [old_row])).2 = Ok tt) as H2 by (vm_compute; reflexivity).
  split; [exact H1|]. split; [exact H2|].
  exact (proj1 (proj2 (delta_rerun_adds_nothing env_two_records
                         (world_with [old_row]) H1 H2))).
Defined.

(** ** Pruning of the snapshot directories *)

Section SortDesc.

Context {A : Type} (geb : A -> A -> bool).
Hypothesis geb_total : forall a b, geb a b = false -> geb b a = true.
Hypothesis geb_trans : forall a b c, geb a b = true -> geb b c = true -> geb a c = true.

Lemma insert_desc_perm (x : A) (l : list A) : insert_desc geb x l ≡ₚ x :: l.
Proof.
  induction l as [|y l IH]; cbn; [reflexivity|].
  destruct (geb y x); [|reflexivity].
  rewrite IH. apply Permutation_swap.
Qed.

Lemma sort_desc_perm (l : list A) : sort_desc geb l ≡ₚ l.
Proof.
  unfold sort_desc.
  assert (forall acc, foldl (fun acc x => insert_desc geb x acc) acc l ≡ₚ acc ++ l)
    as H; [|apply (H [])].
  induction l as [|x l IH]; intros acc; cbn.
  - rewrite app_nil_r. reflexivity.
  - rewrite IH, insert_desc_perm. apply Permutation_middle.
Qed.

Lemma insert_desc_sorted (x : A) (l : list A) :
  StronglySorted (fun a b => geb a b = true) l ->
  StronglySorted (fun a b => geb a b = true) (insert_desc geb x l).
Proof.
  induction 1 as [|y l Hl IH Hy]; cbn.
  - repeat constructor.
  - destruct (geb y x) eqn:Hyx.
    + constructor; [exact IH|].
      rewrite insert_desc_perm. constructor; assumption.
    + apply geb_total in Hyx. constructor; [constructor; assumption|].
      constructor; [exact Hyx|].
      eapply Forall_impl; [exact Hy|]. intros z Hz. eauto.
Qed.

Lemma sort_desc_sorted (l : list A) :
  StronglySorted (fun a b => geb a b = true) (sort_desc geb l).
Proof.
  unfold sort_desc.
  assert (forall acc, StronglySorted (fun a b => geb a b = true) acc ->
            StronglySorted (fun a b => geb a b = true)
              (foldl (fun acc x => insert_desc geb x acc) acc l))
    as H; [|apply H; constructor].
  induction l as [|x l IH]; intros acc Hacc; cbn; [exact Hacc|].
  apply IH, insert_desc_sorted, Hacc.
Qed.

End SortDesc.

Section Cleanup.

Lemma newer_first_total (a b : csv_file) :
  newer_first a b = false -> newer_first b a = true.
Proof. unfold newer_first. lia. Qed.

Lemma newer_first_trans (a b c : csv_file) :
  newer_first a b = true -> newer_first b c = true -> newer_first a c = true.
Proof. unfold newer_first. lia. Qed.

Lemma filter_all {A} (P : A -> Prop) `{forall x, Decision (P x)} (l : list A) :
  (forall x, x ∈ l -> P x) -> filter P l = l.
Proof.
  induction l as [|x l IH]; intros Hl; [reflexivity|].
  rewrite filter_cons. destruct (decide (P x)) as [|Hn].
  - f_equal. apply IH. intros y Hy. apply Hl. right. exact Hy.
  - destruct Hn. apply Hl. left.
Qed.

Lemma filter_none {A} (P : A -> Prop) `{forall x, Decision (P x)} (l : list A) :
  (forall x, x ∈ l -> ~ P x) -> filter P l = [].
Proof.
  induction l as [|x l IH]; intros Hl; [reflexivity|].
  rewrite filter_cons. destruct (decide (P x)) as [Hp|].
  - destruct (Hl x (list_elem_of_here _ _) Hp).
  - apply IH. intros y Hy. apply Hl. right. exact Hy.
Qed.

Lemma get_set_dir (k : snapshot_kind) (d : list csv_file) (w : world) :
  get_dir k (set_dir k d w) = d.
Proof. destruct k; reflexivity. Qed.

Lemma get_set_dir_ne (k k' : snapshot_kind) (d : list csv_file) (w : world) :
  k' <> k -> get_dir k' (set_dir k d w) = get_dir k' w.
Proof. destruct k, k'; try reflexivity; congruence. Qed.

Lemma for_each_cons_ok {A} (x : A) (xs : list A) (body : A -> M unit)
    (w w1 : world) :
  body x w = (w1, Ok tt) -> for_each (x :: xs) body w = for_each xs body w1.
Proof. intros H. cbn [for_each]. unfold bind. rewrite H. reflexivity. Qed.

(** The loop of [cleanup_old_files]: the files whose names are among
    those to delete go, nothing else changes but the log. *)
Lemma unlink_all (k : snapshot_kind) (old : list csv_file) (w : world) :
  let run := for_each old
               (fun old_file =>
                  UpdateData.unlink k (f_name old_file);;
                  logger INFO (MsgOldFileDeleted (f_name old_file))) w in
  run.2 = Ok tt
  /\ get_dir k run.1 = filter (fun f => f_name f ∉ names old) (get_dir k w)
  /\ (forall k', k' <> k -> get_dir k' run.1 = get_dir k' w)
  /\ tables run.1 = tables w
  /\ db_trace run.1 = db_trace w.
Proof.
  cbv zeta. revert w. induction old as [|o old IH]; intros w.
  - cbn. repeat split; try reflexivity.
    symmetry. apply filter_all. intros f _. apply not_elem_of_nil.
  - set (w1 := (logger INFO (MsgOldFileDeleted (f_name o))
                  (UpdateData.unlink k (f_name o) w).1).1).
    rewrite (for_each_cons_ok o old _ w w1) by reflexivity.
    destruct (IH w1) as (Hr & Hd & Ho & Ht & He).
    repeat split.
    + exact Hr.
    + rewrite Hd. subst w1. unfold UpdateData.unlink. cbn [fst snd logger].
      assert (forall d l, get_dir k
                (mk_world (tables (set_dir k d w)) (new_records_dir (set_dir k d w))
                   (current_state_dir (set_dir k d w)) (db_trace (set_dir k d w)) l)
              = d) as -> by (intros; destruct k; reflexivity).
      rewrite list_filter_filter. apply list_filter_iff. intros f.
      unfold names. rewrite fmap_cons, not_elem_of_cons. tauto.
    + intros k' Hk. rewrite (Ho k' Hk). subst w1. destruct k, k'; try reflexivity;
        congruence.
    + rewrite Ht. subst w1. destruct k; reflexivity.
    + rewrite He. subst w1. destruct k; reflexivity.
Qed.

Lemma contains_append (needle p s : string) :
  PyStr.contains needle s = true -> PyStr.contains needle (p +:+ s) = true.
Proof.
  intros H. induction p as [|c p IH]; [exact H|].
  change (PyStr.contains needle (String c (p +:+ s)) = true).
  cbn [PyStr.contains]. rewrite IH. apply orb_true_r.
Qed.

(** The name of a snapshot has a dot: [glob('*.*')] sees it. *)
Lemma snapshot_name_dotted (E : env) (k : snapshot_kind) :
  PyStr.contains "." (snapshot_name E k) = true.
Proof. unfold snapshot_name. do 2 apply contains_append. reflexivity. Qed.

Lemma glob_elem (f : csv_file) (dir : list csv_file) :
  f ∈ UpdateData.glob_star_dot_star dir
  <-> PyStr.contains "." (f_name f) = true /\ f ∈ dir.
Proof.
  unfold UpdateData.glob_star_dot_star.
  apply (list_elem_of_filter (fun f => PyStr.contains "." (f_name f) = true)).
Qed.

Lemma glob_filter (P : csv_file -> Prop) `{forall f, Decision (P f)}
    (dir : list csv_file) :
  UpdateData.glob_star_dot_star (filter P dir)
  = filter P (UpdateData.glob_star_dot_star dir).
Proof.
  unfold UpdateData.glob_star_dot_star. rewrite !list_filter_filter.
  apply list_filter_iff. intros f. tauto.
Qed.

Lemma names_filter_NoDup (P : csv_file -> Prop) `{forall f, Decision (P f)}
    (dir : list csv_file) :
  NoDup (names dir) -> NoDup (names (filter P dir)).
Proof.
  intros Hnd. eapply sublist_NoDup; [exact Hnd|].
  unfold names. apply fmap_sublist, sublist_filter.
Qed.

(** What [cleanup_old_files] leaves of a directory whose path does not
    contain "logs" and whose file names are distinct. *)
Lemma cleanup_old_files_effect (E : env) (k : snapshot_kind) (n : nat) (w : world) :
  PyStr.contains "logs" (UpdateData.dir_path E k) = false ->
  NoDup (names (get_dir k w)) ->
  let run := UpdateData.cleanup_old_files E k n w in
  let files :=
    sort_desc newer_first (UpdateData.glob_star_dot_star (get_dir k w)) in
  run.2 = Ok tt
  /\ get_dir k run.1
     = filter (fun f => f_name f ∉ names (drop n files)) (get_dir k w)
  /\ UpdateData.glob_star_dot_star (get_dir k run.1) ≡ₚ take n files
  /\ without_dot (get_dir k run.1) = without_dot (get_dir k w)
  /\ (forall f, f ∈ get_dir k run.1 -> f ∈ get_dir k w)
  /\ (forall f g,
         f ∈ UpdateData.glob_star_dot_star (get_dir k run.1) ->
         g ∈ UpdateData.glob_star_dot_star (get_dir k w) ->
         g ∉ get_dir k run.1 ->
         f_ctime g <= f_ctime f)
  /\ NoDup (names (get_dir k run.1))
  /\ (forall k', k' <> k -> get_dir k' run.1 = get_dir k' w)
  /\ tables run.1 = tables w
  /\ db_trace run.1 = db_trace w.
Proof.
  intros Hlogs Hnd. cbv zeta. unfold UpdateData.cleanup_old_files.
  rewrite Hlogs. cbn [negb].
  change (fun a b : csv_file => f_ctime b <=? f_ctime a) with newer_first.
  set (dir := get_dir k w) in *.
  set (files := sort_desc newer_first (UpdateData.glob_star_dot_star dir)).
  destruct (unlink_all k (drop n files) w) as (Hr & Hd & Ho & Ht & He).
  fold dir in Hd.
  set (run := for_each (drop n files) _ w) in *.
  assert (files ≡ₚ UpdateData.glob_star_dot_star dir) as Hperm
    by apply sort_desc_perm.
  assert (NoDup (names (take n files) ++ names (drop n files))) as Hnd'.
  { unfold names. rewrite <- fmap_app, take_drop. fold (names files).
    unfold names. rewrite Hperm. apply names_filter_NoDup, Hnd. }
  apply NoDup_app in Hnd' as (Hndk & Hdisj & _).
  assert (UpdateData.glob_star_dot_star (get_dir k run.1) ≡ₚ take n files)
    as Hkept.
  { rewrite Hd, glob_filter, <- Hperm, <- (take_drop n files) at 1.
    rewrite filter_app, filter_all, filter_none, app_nil_r; [reflexivity| |].
    - intros f Hf Hn. apply Hn. apply list_elem_of_fmap. eauto.
    - intros f Hf. apply Hdisj. apply list_elem_of_fmap. eauto. }
  split; [exact Hr|]. split; [exact Hd|]. split; [exact Hkept|].
  split; [|split; [|split; [|split; [|split; [|split]]]]]; try assumption.
  - rewrite Hd. unfold without_dot. rewrite list_filter_filter.
    apply list_filter_iff. intros f. split; [tauto|]. intros Hf.
    split; [exact Hf|]. intros Hin.
    apply list_elem_of_fmap in Hin as (g & Hn & Hg).
    assert (g ∈ files) as Hg'.
    { rewrite <- (take_drop n files). apply elem_of_app. right. exact Hg. }
    rewrite Hperm in Hg'. apply glob_elem in Hg' as [Hdot _].
    rewrite <- Hn in Hdot. congruence.
  - intros f Hf. rewrite Hd in Hf. apply list_elem_of_filter in Hf as [_ Hf]. exact Hf.
  - intros f g Hf Hg Hng. rewrite Hkept in Hf.
    assert (g ∈ drop n files) as Hg'.
    { rewrite <- Hperm, <- (take_drop n files) in Hg.
      apply elem_of_app in Hg as [Hg|Hg]; [|exact Hg].
      destruct Hng. rewrite <- Hkept in Hg. apply glob_elem in Hg as [_ Hg].
      exact Hg. }
    pose proof (sort_desc_sorted newer_first newer_first_total newer_first_trans
                  (UpdateData.glob_star_dot_star dir)) as Hs.
    fold files in Hs. rewrite <- (take_drop n files) in Hs.
    pose proof (StronglySorted_app_1_elem_of _ _ _ _ _ Hs Hf Hg') as Hfg.
    unfold newer_first in Hfg. lia.
  - rewrite Hd. apply names_filter_NoDup, Hnd.
Qed.

End Cleanup.

(** X8. Where the directory path does not contain "logs" and file names
    are distinct, [cleanup_old_files] prunes among the files whose name
    has a dot, the only ones [glob('*.*')] lists: of these it leaves
    the [keep_last_n] that come first when they are sorted by creation
    time, newest first, so that no kept one is older than a deleted
    one; the files without a dot all stay, in their order; no file is
    new; and a directory with no more than [keep_last_n] dotted files
    is left as it is. *)
Theorem cleanup_keeps_newest (E : env) (k : snapshot_kind) (n : nat) (w : world) :
  PyStr.contains "logs" (UpdateData.dir_path E k) = false ->
  NoDup (names (get_dir k w)) ->
  UpdateData.glob_star_dot_star
    (get_dir k (UpdateData.cleanup_old_files E k n w).1)
    ≡ₚ take n (sort_desc newer_first
                 (UpdateData.glob_star_dot_star (get_dir k w)))
  /\ length (UpdateData.glob_star_dot_star
               (get_dir k (UpdateData.cleanup_old_files E k n w).1))
     = Nat.min n (length (UpdateData.glob_star_dot_star (get_dir k w)))
  /\ without_dot (get_dir k (UpdateData.cleanup_old_files E k n w).1)
     = without_dot (get_dir k w)
  /\ (forall f, f ∈ get_dir k (UpdateData.cleanup_old_files E k n w).1 ->
                f ∈ get_dir k w)
  /\ (forall f g,
         f ∈ UpdateData.glob_star_dot_star
               (get_dir k (UpdateData.cleanup_old_files E k n w).1) ->
         g ∈ UpdateData.glob_star_dot_star (get_dir k w) ->
         g ∉ get_dir k (UpdateData.cleanup_old_files E k n w).1 ->
         f_ctime g <= f_ctime f)
  /\ ((length (UpdateData.glob_star_dot_star (get_dir k w)) <= n)%nat ->
      get_dir k (UpdateData.cleanup_old_files E k n w).1 = get_dir k w).
Proof.
  intros Hlogs Hnd.
  destruct (cleanup_old_files_effect E k n w Hlogs Hnd)
    as (_ & Hd & Hkept & Hund & Hsub & Hnew & _).
  split; [exact Hkept|]. split; [|split; [exact Hund|split; [exact Hsub|split]]].
  - rewrite Hkept, length_take, (Permutation_length (sort_desc_perm _ _)).
    reflexivity.
  - exact Hnew.
  - intros Hle. rewrite Hd, drop_ge.
    + apply filter_all. intros f _. apply not_elem_of_nil.
    + rewrite (Permutation_length (sort_desc_perm _ _)). exact Hle.
Qed.

Lemma cleanup_keeps_newest_witness :
  PyStr.contains "logs" (UpdateData.dir_path env_empty_feed NewRecords) = false
  /\ NoDup (names (get_dir NewRecords world_seven_files))
  /\ length (UpdateData.glob_star_dot_star
               (get_dir NewRecords
                  (UpdateData.cleanup_old_files env_empty_feed NewRecords 5
                     world_seven_files).1))
     = Nat.min 5 (length (UpdateData.glob_star_dot_star
                            (get_dir NewRecords world_seven_files)))
  /\ without_dot (get_dir NewRecords
                    (UpdateData.cleanup_old_files env_empty_feed NewRecords 5
                       world_seven_files).1)
     = without_dot (get_dir NewRecords world_seven_files).
Proof.
  assert (PyStr.contains "logs" (UpdateData.dir_path env_empty_feed NewRecords)
          = false) as H1 by (vm_compute; reflexivity).
  assert (NoDup (names (get_dir NewRecords world_seven_files))) as H2
    by (apply (bool_decide_unpack _); vm_compute; exact I).
  split; [exact H1|]. split; [exact H2|].
  destruct (cleanup_keeps_newest env_empty_feed NewRecords 5
              world_seven_files H1 H2) as (_ & Hlen & Hund & _).
  split; [exact Hlen|exact Hund].
Defined.

(** The pruning at work: of six dotted files and one without a dot, the
    oldest dotted file goes and six files are left. *)
Example cleanup_seven_files :
  names (get_dir NewRecords
           (UpdateData.cleanup_old_files env_empty_feed NewRecords 5
              world_seven_files).1)
  = ["f2.csv"; "f3.csv"; "NODOT"; "f4.csv"; "f5.csv"; "f6.csv"].
Proof. vm_compute. reflexivity. Qed.

Section SaveToCsv.

Lemma write_file_effect (k : snapshot_kind) (name : string) (time : Z)
    (df : list row) (w : world) :
  NoDup (names (get_dir k w)) ->
  let w' := (UpdateData.write_file k name time df w).1 in
  NoDup (names (get_dir k w'))
  /\ mk_csv name time df ∈ get_dir k w'
  /\ (forall f, f ∈ get_dir k w' -> f = mk_csv name time df \/ (f ∈ get_dir k w /\ f_name f <> name))
  /\ (forall k', k' <> k -> get_dir k' w' = get_dir k' w)
  /\ tables w' = tables w
  /\ db_trace w' = db_trace w
  /\ (PyStr.contains "." name = true ->
      without_dot (get_dir k w') = without_dot (get_dir k w)).
Proof.
  intros Hnd. cbv zeta. unfold UpdateData.write_file. cbn [fst].
  rewrite get_set_dir. set (dir := get_dir k w) in *.
  set (file := mk_csv name time df).
  assert (forall k' d, k' <> k -> get_dir k' (set_dir k d w) = get_dir k' w) as Ho
    by (intros; apply get_set_dir_ne; assumption).
  assert (forall d, tables (set_dir k d w) = tables w) as Ht
    by (intros; destruct k; reflexivity).
  assert (forall d, db_trace (set_dir k d w) = db_trace w) as He
    by (intros; destruct k; reflexivity).
  destruct (existsb (fun f => String.eqb (f_name f) name) dir) eqn:Hex.
  - split; [|split; [|split; [|split; [|split; [|split]]]]]; auto.
    + assert (names ((fun f => if String.eqb (f_name f) name then file else f) <$> dir)
              = names dir) as ->; [|exact Hnd].
      unfold names. rewrite <- list_fmap_compose. apply list_fmap_ext.
      intros i f _. cbn. destruct (String.eqb (f_name f) name) eqn:Hf; [|reflexivity].
      apply String.eqb_eq in Hf. symmetry. exact Hf.
    + apply existsb_exists in Hex as (f & Hf & Hn).
      apply list_elem_of_fmap. exists f. rewrite Hn.
      split; [reflexivity|]. apply list_elem_of_In. exact Hf.
    + intros f Hf. apply list_elem_of_fmap in Hf as (g & -> & Hg).
      destruct (String.eqb (f_name g) name) eqn:Hn; [left; reflexivity|].
      right. split; [exact Hg|]. apply String.eqb_neq. exact Hn.
    + intros Hdot. clear Hex Hnd. unfold without_dot.
      induction dir as [|f dir IH]; [reflexivity|].
      rewrite fmap_cons, !filter_cons, IH.
      destruct (String.eqb (f_name f) name) eqn:Hn; [|reflexivity].
      apply String.eqb_eq in Hn.
      destruct (decide (PyStr.contains "." (f_name file) = false)) as [Hc|_];
        [cbn in Hc; congruence|].
      destruct (decide (PyStr.contains "." (f_name f) = false)) as [Hc|_];
        [congruence|reflexivity].
  - assert (forall f, f ∈ dir -> f_name f <> name) as Hfresh.
    { intros f Hf. apply String.eqb_neq.
      destruct (String.eqb (f_name f) name) eqn:Hn; [|reflexivity].
      assert (existsb (fun f => String.eqb (f_name f) name) dir = true) as Hc
        by (apply existsb_exists; exists f; split;
            [apply list_elem_of_In; exact Hf|exact Hn]).
      congruence. }
    split; [|split; [|split; [|split; [|split; [|split]]]]]; auto.
    + unfold names. rewrite fmap_app. apply NoDup_app. repeat split.
      * exact Hnd.
      * intros x Hx Hx'. apply list_elem_of_singleton in Hx'. subst x.
        apply list_elem_of_fmap in Hx as (f & Hn & Hf).
        apply (Hfresh f Hf). symmetry. exact Hn.
      * apply NoDup_singleton.
    + apply elem_of_app. right. left.
    + intros f Hf. apply elem_of_app in Hf as [Hf|Hf].
      * right. split; [exact Hf|apply Hfresh, Hf].
      * apply list_elem_of_singleton in Hf. left. exact Hf.
    + intros Hdot. unfold without_dot. rewrite filter_app.
      rewrite (filter_none _ [file]), app_nil_r; [reflexivity|].
      intros f Hf. apply list_elem_of_singleton in Hf as ->. cbn. congruence.
Qed.

Lemma kind_eq_dec (k k' : snapshot_kind) : {k' = k} + {k' <> k}.
Proof. destruct k, k'; (left; reflexivity) || (right; discriminate). Qed.

(** The world [save_to_csv] leaves: the write, the log line, then the
    pruning of the two directories. *)
Lemma save_to_csv_world (E : env) (df : list row) (k : snapshot_kind) (w : world) :
  (UpdateData.save_to_csv E df k w).1
  = (UpdateData.cleanup_old_files E CurrentState 5
       (UpdateData.cleanup_old_files E NewRecords 5
          (logger INFO (MsgCsvSaved k (snapshot_name E k))
             (UpdateData.write_file k (snapshot_name E k) (clock E k) df w).1).1).1).1.
Proof.
  unfold UpdateData.save_to_csv, snapshot_name, bind.
  cbn [UpdateData.write_file logger fst snd].
  match goal with
  | |- context [UpdateData.cleanup_old_files E NewRecords 5 ?w0] =>
      pose proof (cleanup_old_files_returns E NewRecords 5 w0) as H;
      destruct (UpdateData.cleanup_old_files E NewRecords 5 w0) as [w1 [[]|e]];
      [reflexivity|discriminate]
  end.
Qed.

(** What [save_to_csv] does to the two directories. *)
Lemma save_to_csv_effect (E : env) (df : list row) (k : snapshot_kind) (w : world) :
  (forall k', PyStr.contains "logs" (UpdateData.dir_path E k') = false) ->
  (forall k', NoDup (names (get_dir k' w))) ->
  let w' := (UpdateData.save_to_csv E df k w).1 in
  (forall k', NoDup (names (get_dir k' w')))
  /\ (forall k', (length (UpdateData.glob_star_dot_star (get_dir k' w')) <= 5)%nat)
  /\ (forall k' f, f ∈ get_dir k' w' ->
                   (k' = k /\ f = snapshot_file E k df) \/ f ∈ get_dir k' w)
  /\ ((forall f, f ∈ get_dir k w -> f_ctime f < clock E k) ->
      snapshot_file E k df ∈ get_dir k w')
  /\ (forall k', k' <> k ->
                 (length (UpdateData.glob_star_dot_star (get_dir k' w)) <= 5)%nat ->
                 get_dir k' w' = get_dir k' w)
  /\ (forall k', without_dot (get_dir k' w') = without_dot (get_dir k' w)).
Proof.
  intros Hlogs Hnd. cbv zeta. rewrite save_to_csv_world.
  destruct (write_file_effect k (snapshot_name E k) (clock E k) df w (Hnd k))
    as (Hnd1 & Hin1 & Hfrom1 & Ho1 & _ & _ & Hund1).
  specialize (Hund1 (snapshot_name_dotted E k)).
  set (w1 := (UpdateData.write_file k (snapshot_name E k) (clock E k) df w).1) in *.
  set (w2 := (logger INFO (MsgCsvSaved k (snapshot_name E k)) w1).1).
  assert (forall k', get_dir k' w2 = get_dir k' w1) as H21
    by (intros []; reflexivity).
  assert (forall k', NoDup (names (get_dir k' w2))) as Hnd2.
  { intros k'. rewrite H21. destruct (kind_eq_dec k k') as [->|Hne];
      [exact Hnd1|rewrite (Ho1 k' Hne); apply Hnd]. }
  destruct (cleanup_old_files_effect E NewRecords 5 w2 (Hlogs _) (Hnd2 _))
    as (_ & Hd3 & Hk3 & Hu3 & Hs3 & Hn3 & Hnd3 & Ho3 & _).
  set (w3 := (UpdateData.cleanup_old_files E NewRecords 5 w2).1) in *.
  assert (NoDup (names (get_dir CurrentState w3))) as Hnd3'
    by (rewrite Ho3 by discriminate; apply Hnd2).
  destruct (cleanup_old_files_effect E CurrentState 5 w3 (Hlogs _) Hnd3')
    as (_ & Hd4 & Hk4 & Hu4 & Hs4 & Hn4 & Hnd4 & Ho4 & _).
  set (w4 := (UpdateData.cleanup_old_files E CurrentState 5 w3).1) in *.
  assert (forall k', UpdateData.glob_star_dot_star (get_dir k' w4)
                     ≡ₚ take 5 (sort_desc newer_first
                                  (UpdateData.glob_star_dot_star (get_dir k' w2))))
    as Hkept.
  { intros []; [rewrite Ho4 by discriminate; exact Hk3|].
    rewrite Hk4, Ho3 by discriminate. reflexivity. }
  assert (forall k',
             get_dir k' w4
             = filter (fun f => f_name f
                         ∉ names (drop 5 (sort_desc newer_first
                                      (UpdateData.glob_star_dot_star (get_dir k' w2)))))
                 (get_dir k' w2)) as Hleft.
  { intros []; [rewrite Ho4 by discriminate; exact Hd3|].
    rewrite Hd4, Ho3 by discriminate. reflexivity. }
  assert (forall k' f, f ∈ get_dir k' w4 -> f ∈ get_dir k' w2) as Hsub.
  { intros [] f Hf.
    - rewrite Ho4 in Hf by discriminate. apply Hs3, Hf.
    - apply Hs4 in Hf. rewrite Ho3 in Hf by discriminate. exact Hf. }
  assert (forall k' f g,
             f ∈ UpdateData.glob_star_dot_star (get_dir k' w4) ->
             g ∈ UpdateData.glob_star_dot_star (get_dir k' w2) ->
             g ∉ get_dir k' w4 -> f_ctime g <= f_ctime f) as Hnewest.
  { intros [] f g Hf Hg Hng.
    - rewrite Ho4 in Hf, Hng by discriminate. eapply Hn3; eauto.
    - rewrite <- (Ho3 CurrentState) in Hg by discriminate. eapply Hn4; eauto. }
  assert (forall k', without_dot (get_dir k' w4) = without_dot (get_dir k' w2))
    as Hund.
  { intros []; [rewrite Ho4 by discriminate; exact Hu3|].
    rewrite Hu4, Ho3 by discriminate. reflexivity. }
  split; [|split; [|split; [|split; [|split]]]].
  - intros []; [rewrite Ho4 by discriminate; exact Hnd3|exact Hnd4].
  - intros k'. rewrite (Permutation_length (Hkept k')), length_take. lia.
  - intros k' f Hf. apply Hsub in Hf. rewrite H21 in Hf.
    destruct (kind_eq_dec k k') as [->|Hne].
    + destruct (Hfrom1 f Hf) as [->|[Hf' _]]; [left; split; reflexivity|right; exact Hf'].
    + right. rewrite <- (Ho1 k' Hne). exact Hf.
  - intros Hclock.
    assert (snapshot_file E k df ∈ UpdateData.glob_star_dot_star (get_dir k w2))
      as Hin2.
    { apply glob_elem. split; [apply snapshot_name_dotted|].
      rewrite H21. exact Hin1. }
    destruct (decide (snapshot_name E k ∈ names (get_dir k w4))) as [Hin|Hout'].
    { apply list_elem_of_fmap in Hin as (f & Hn & Hf).
      apply Hsub in Hf as Hf2. rewrite H21 in Hf2.
      destruct (Hfrom1 f Hf2) as [->|[_ Hne]]; [exact Hf|].
      destruct Hne. symmetry. exact Hn. }
    assert (snapshot_file E k df ∉ get_dir k w4) as Hout.
    { intros Hin. apply Hout'. apply list_elem_of_fmap.
      exists (snapshot_file E k df). split; [reflexivity|exact Hin]. }
    exfalso.
    assert (UpdateData.glob_star_dot_star (get_dir k w4) <> []) as Hne.
    { intros Hnil. pose proof (Permutation_length (Hkept k)) as Hlen.
      rewrite Hnil, length_take, (Permutation_length (sort_desc_perm _ _)) in Hlen.
      destruct (UpdateData.glob_star_dot_star (get_dir k w2));
        [inversion Hin2|cbn in Hlen; lia]. }
    destruct (UpdateData.glob_star_dot_star (get_dir k w4)) as [|f rest] eqn:Hdir;
      [congruence|].
    assert (f ∈ UpdateData.glob_star_dot_star (get_dir k w4)) as Hf
      by (rewrite Hdir; left).
    pose proof (Hnewest k f (snapshot_file E k df) Hf Hin2 Hout) as Hle.
    cbn in Hle.
    apply glob_elem in Hf as [_ Hf].
    apply Hsub in Hf as Hf2. rewrite H21 in Hf2.
    destruct (Hfrom1 f Hf2) as [->|[Hf' _]]; [contradiction|].
    specialize (Hclock f Hf'). lia.
  - intros k' Hne Hlen. rewrite (Hleft k'), H21, (Ho1 k' Hne), drop_ge.
    + apply filter_all. intros f _. apply not_elem_of_nil.
    + rewrite (Permutation_length (sort_desc_perm _ _)). exact Hlen.
  - intros k'. rewrite (Hund k'), H21.
    destruct (kind_eq_dec k k') as [->|Hne]; [exact Hund1|].
    rewrite (Ho1 k' Hne). reflexivity.
Qed.

End SaveToCsv.

(** X9. Where no directory path contains "logs" and file names are
    distinct, [save_to_csv] returns, touches no table, and leaves both
    snapshot directories with distinct names and with at most five
    files whose name has a dot; the files without a dot are those that
    were there, in their order; and every file is the snapshot just
    written or a file that was there. *)
Theorem save_to_csv_keeps_five (E : env) (df : list row) (k : snapshot_kind)
    (w : world) :
  (forall k', PyStr.contains "logs" (UpdateData.dir_path E k') = false) ->
  (forall k', NoDup (names (get_dir k' w))) ->
  (UpdateData.save_to_csv E df k w).2 = Ok tt
  /\ tables (UpdateData.save_to_csv E df k w).1 = tables w
  /\ (forall k', NoDup (names (get_dir k' (UpdateData.save_to_csv E df k w).1)))
  /\ (forall k',
         (length (UpdateData.glob_star_dot_star
                    (get_dir k' (UpdateData.save_to_csv E df k w).1)) <= 5)%nat)
  /\ (forall k',
         without_dot (get_dir k' (UpdateData.save_to_csv E df k w).1)
         = without_dot (get_dir k' w))
  /\ (forall k' f,
         f ∈ get_dir k' (UpdateData.save_to_csv E df k w).1 ->
         (k' = k /\ f = snapshot_file E k df) \/ f ∈ get_dir k' w).
Proof.
  intros Hlogs Hnd.
  destruct (save_to_csv_effect E df k w Hlogs Hnd) as (H1 & H2 & H3 & _ & _ & H6).
  split; [apply save_to_csv_returns|].
  split; [|auto].
  exact (proj1 (save_to_csv_quiet E df k w)).
Qed.

(** X10. If moreover the clock is later than the creation time of every
    file already in the target directory, the snapshot just written is
    in that directory when [save_to_csv] returns, with the frame it was
    given: the pruning never removes it. *)
Theorem save_to_csv_snapshot_survives (E : env) (df : list row) (k : snapshot_kind)
    (w : world) :
  (forall k', PyStr.contains "logs" (UpdateData.dir_path E k') = false) ->
  (forall k', NoDup (names (get_dir k' w))) ->
  (forall f, f ∈ get_dir k w -> f_ctime f < clock E k) ->
  exists f,
    f ∈ get_dir k (UpdateData.save_to_csv E df k w).1
    /\ f_name f = snapshot_name E k
    /\ f_rows f = df.
Proof.
  intros Hlogs Hnd Hclock.
  destruct (save_to_csv_effect E df k w Hlogs Hnd) as (_ & _ & _ & H & _).
  exists (snapshot_file E k df). split; [apply H, Hclock|]. split; reflexivity.
Qed.

Lemma save_to_csv_keeps_five_witness :
  (forall k', PyStr.contains "logs" (UpdateData.dir_path env_empty_feed k') = false)
  /\ (forall k', NoDup (names (get_dir k' world_seven_files)))
  /\ (length (UpdateData.glob_star_dot_star
                (get_dir NewRecords
                   (UpdateData.save_to_csv env_empty_feed [old_row] NewRecords
                      world_seven_files).1)) <= 5)%nat
  /\ without_dot (get_dir NewRecords
                    (UpdateData.save_to_csv env_empty_feed [old_row] NewRecords
                       world_seven_files).1)
     = without_dot (get_dir NewRecords world_seven_files).
Proof.
  assert (forall k', PyStr.contains "logs" (UpdateData.dir_path env_empty_feed k')
                     = false) as H1 by (intros []; vm_compute; reflexivity).
  assert (forall k', NoDup (names (get_dir k' world_seven_files))) as H2
    by (intros []; apply (bool_decide_unpack _); vm_compute; exact I).
  split; [exact H1|]. split; [exact H2|].
  destruct (save_to_csv_keeps_five env_empty_feed [old_row] NewRecords
              world_seven_files H1 H2) as (_ & _ & _ & Hlen & Hund & _).
  split; [exact (Hlen NewRecords)|exact (Hund NewRecords)].
Defined.

Lemma save_to_csv_snapshot_survives_witness :
  (forall k', PyStr.contains "logs" (UpdateData.dir_path env_empty_feed k') = false)
  /\ (forall k', NoDup (names (get_dir k' world_two_snapshots)))
  /\ (forall f, f ∈ get_dir NewRecords world_two_snapshots ->
                f_ctime f < clock env_empty_feed NewRecords)
  /\ exists f,
       f ∈ get_dir NewRecords
             (UpdateData.save_to_csv env_empty_feed [old_row] NewRecords
                world_two_snapshots).1
       /\ f_rows f = [old_row].
Proof.
  assert (forall k', PyStr.contains "logs" (UpdateData.dir_path env_empty_feed k')
                     = false) as H1 by (intros []; vm_compute; reflexivity).
  assert (forall k', NoDup (names (get_dir k' world_two_snapshots))) as H2.
  { intros []; [|apply NoDup_nil; exact I].
    apply NoDup_cons. split; [|apply NoDup_singleton].
    rewrite list_elem_of_singleton. discriminate. }
  assert (forall f, f ∈ get_dir NewRecords world_two_snapshots ->
                    f_ctime f < clock env_empty_feed NewRecords) as H3.
  { intros f Hf. cbn in Hf.
    apply elem_of_cons in Hf as [->|Hf]; [cbn; lia|].
    apply list_elem_of_singleton in Hf as ->. cbn. lia. }
  split; [exact H1|]. split; [exact H2|]. split; [exact H3|].
  destruct (save_to_csv_snapshot_survives env_empty_feed [old_row] NewRecords
              world_two_snapshots H1 H2 H3) as (f & Hf & _ & Hrows).
  exists f. split; assumption.
Defined.

(** ** A bulk write that fails *)

Section InsertFails.

Lemma bind_ok {A B} (m : M A) (k : A -> M B) (w w' : world) (a : A) :
  m w = (w', Ok a) -> bind m k w = k a w'.
Proof. intros H. unfold bind. rewrite H. reflexivity. Qed.

Lemma bind_raise {A B} (m : M A) (k : A -> M B) (w w' : world) (e : exn) :
  m w = (w', Raise e) -> bind m k w = (w', Raise e).
Proof. intros H. unfold bind. rewrite H. reflexivity. Qed.

Lemma try_except_raise {A} (m : M A) (h : exn -> M A) (w w' : world) (e : exn) :
  m w = (w', Raise e) -> try_except m h w = h e w'.
Proof. intros H. unfold try_except. rewrite H. reflexivity. Qed.

Lemma to_sql_fails (E : env) (t : string) (df : list row) (w : world) :
  db_fault E OpInsert t <> DbOk -> Db.to_sql E t df w = (w, Raise DatabaseError).
Proof. intros H. unfold Db.to_sql. destruct (db_fault E OpInsert t); congruence. Qed.

(** Only a non-empty answer yields items. *)
Lemma iterate_truthy (v : pyval) (items : list pyval) :
  iterate v = Ok items -> items <> [] -> truthy v = true.
Proof.
  destruct v as [| | |s|l|d]; cbn; try discriminate; intros [= <-] Hne.
  - destruct s; [destruct Hne|]; reflexivity.
  - destruct l; [destruct Hne|]; reflexivity.
  - destruct (size d) eqn:Hs; [|reflexivity].
    apply map_size_empty_iff in Hs. subst d. rewrite map_to_list_empty in Hne.
    destruct Hne. reflexivity.
Qed.

Lemma initial_process_loop_nil (year : Z) : InitialLoad.process_loop year [] [] = Ok [].
Proof. reflexivity. Qed.

End InsertFails.

(** X11. When the bulk insert of a backfill run fails, the run logs the
    error and re-raises it, and the table of the year stays empty: the
    rows it held before the run were truncated and the new ones were
    not written. *)
Theorem backfill_insert_failure_empties (E : env) (year : Z) (w : world)
    (items : list pyval) (processed : list row) :
  db_fault E OpTruncate (InitialLoad.get_table_name year) = DbOk ->
  is_Some (tables w !! InitialLoad.get_table_name year) ->
  feed_items E year = Ok items ->
  InitialLoad.process_loop year items [] = Ok processed ->
  processed <> [] ->
  db_fault E OpInsert (InitialLoad.get_table_name year) <> DbOk ->
  (InitialLoad.process_and_save_data_by_year E year w).2 = Raise DatabaseError
  /\ tables (InitialLoad.process_and_save_data_by_year E year w).1
     = <[InitialLoad.get_table_name year := []]> (tables w)
  /\ last (log (InitialLoad.process_and_save_data_by_year E year w).1)
     = Some (ERROR, MsgSaveError (InitialLoad.get_table_name year)).
Proof.
  intros Hf Hex Hitems Hloop Hne Hins.
  pose proof (clear_existing_data_effect E year w) as Heff. cbv zeta in Heff.
  destruct Heff as [(Hok & _ & _ & Ht & _)|[_ [Hbad|Hbad]]];
    [|contradiction|rewrite Hbad in Hex; destruct Hex; discriminate].
  destruct (InitialLoad.clear_existing_data E year w) as [w1 [[]|e]] eqn:Hclear;
    [|discriminate].
  cbn [fst] in Ht.
  assert (exists w2 body,
             InitialLoad.fetch_data E year w1 = (w2, Ok body)
             /\ tables w2 = tables w1 /\ iterate body = Ok items)
    as (w2 & body & Hfetch & Ht2 & Hiter).
  { unfold InitialLoad.fetch_data, feed_items in *.
    destruct (remote E year) as [body| |caught]; [| |discriminate].
    - exists w1, body. auto.
    - injection Hitems as <-. cbn in Hloop. injection Hloop as <-. congruence. }
  assert (items <> []) as Hitems'.
  { intros ->. cbn in Hloop. injection Hloop as <-. congruence. }
  destruct processed as [|r processed]; [congruence|].
  assert (InitialLoad.process_and_save_data_by_year E year w
          = ((logger ERROR (MsgSaveError (InitialLoad.get_table_name year)) w2).1,
             Raise DatabaseError)) as ->.
  { unfold InitialLoad.process_and_save_data_by_year.
    rewrite (bind_ok _ _ _ _ _ Hclear), (bind_ok _ _ _ _ _ Hfetch).
    rewrite (iterate_truthy body items Hiter Hitems'). cbn [negb].
    rewrite (bind_ok (lift (iterate body)) _ w2 w2 items)
      by (unfold lift; rewrite Hiter; reflexivity).
    rewrite (bind_ok (lift (InitialLoad.process_loop year items [])) _ w2 w2
               (r :: processed)) by (unfold lift; rewrite Hloop; reflexivity).
    rewrite (try_except_raise _ _ w2 w2 DatabaseError); [reflexivity|].
    apply bind_raise, to_sql_fails, Hins. }
  cbn. rewrite Ht2, Ht. split; [reflexivity|]. split; [reflexivity|].
  apply last_snoc.
Qed.

Lemma backfill_insert_failure_empties_witness :
  db_fault env_insert_down OpTruncate (InitialLoad.get_table_name 2025) = DbOk
  /\ is_Some (tables (world_with [old_row]) !! InitialLoad.get_table_name 2025)
  /\ db_fault env_insert_down OpInsert (InitialLoad.get_table_name 2025) <> DbOk
  /\ (InitialLoad.process_and_save_data_by_year env_insert_down 2025
        (world_with [old_row])).2 = Raise DatabaseError
  /\ tables (InitialLoad.process_and_save_data_by_year env_insert_down 2025
               (world_with [old_row])).1
     = <[InitialLoad.get_table_name 2025 := []]> (tables (world_with [old_row])).
Proof.
  assert (db_fault env_insert_down OpTruncate (InitialLoad.get_table_name 2025)
          = DbOk) as H1 by reflexivity.
  assert (is_Some (tables (world_with [old_row]) !! InitialLoad.get_table_name 2025))
    as H2 by (vm_compute; eauto).
  assert (feed_items env_insert_down 2025
          = Ok [raw1 "2025-03-01"; raw1 "2025-03-02"]) as H3 by reflexivity.
  assert (InitialLoad.process_loop 2025 [raw1 "2025-03-01"; raw1 "2025-03-02"] []
          = Ok [plain_row (midnight 2025 3 1) (MonthInt 3);
                plain_row (midnight 2025 3 2) (MonthInt 3)]) as H4
    by (vm_compute; reflexivity).
  assert ([plain_row (midnight 2025 3 1) (MonthInt 3);
           plain_row (midnight 2025 3 2) (MonthInt 3)] <> []) as H5 by discriminate.
  assert (db_fault env_insert_down OpInsert (InitialLoad.get_table_name 2025)
          <> DbOk) as H6 by (vm_compute; discriminate).
  destruct (backfill_insert_failure_empties env_insert_down 2025
              (world_with [old_row]) _ _ H1 H2 H3 H4 H5 H6) as (Hr & Ht & _).
  repeat split; assumption.
Defined.

(** X12. When the bulk insert of a delta run fails, the run logs the
    error and re-raises it with every table as it was; yet the
    new-records snapshot of the rows that were to be inserted has
    already been written and stays in its directory (the directories
    being prunable, their file names distinct and the clock ahead of
    the existing files). *)
Theorem delta_insert_failure_leaves_snapshot (E : env) (w : world)
    (latest : option datetime) (items : list pyval) (processed : list row) :
  (UpdateData.get_latest_record_date E w).2 = Ok latest ->
  feed_items E 2025 = Ok items ->
  UpdateData.process_loop latest items [] = Ok processed ->
  processed <> [] ->
  db_fault E OpInsert UpdateData.table_2025 <> DbOk ->
  (forall k', PyStr.contains "logs" (UpdateData.dir_path E k') = false) ->
  (forall k', NoDup (names (get_dir k' w))) ->
  (forall f, f ∈ new_records_dir w -> f_ctime f < clock E NewRecords) ->
  (UpdateData.process_and_save_delta E w).2 = Raise DatabaseError
  /\ tables (UpdateData.process_and_save_delta E w).1 = tables w
  /\ last (log (UpdateData.process_and_save_delta E w).1)
     = Some (ERROR, MsgSaveError UpdateData.table_2025)
  /\ snapshot_file E NewRecords (Frame.clean processed)
       ∈ new_records_dir (UpdateData.process_and_save_delta E w).1.
Proof.
  intros Hl Hitems Hloop Hne Hins Hlogs Hnd Hclock.
  destruct (get_latest_record_date_result E w) as (w0 & l & Hget & Ht0 & Hn0 & Hc0 & _).
  rewrite Hget in Hl. injection Hl as ->.
  assert (exists w2 body,
             UpdateData.fetch_delta_data E
               (logger INFO (MsgLatestDate latest) w0).1 = (w2, Ok body)
             /\ tables w2 = tables w
             /\ (forall k', get_dir k' w2 = get_dir k' w)
             /\ iterate body = Ok items)
    as (w2 & body & Hfetch & Ht2 & Hd2 & Hiter).
  { unfold UpdateData.fetch_delta_data, feed_items in *.
    destruct (remote E 2025) as [body| |caught]; [| |discriminate].
    - eexists _, body. split; [reflexivity|]. cbn. repeat split; auto.
      intros []; cbn; assumption.
    - injection Hitems as <-. cbn in Hloop. injection Hloop as <-. congruence. }
  destruct processed as [|r processed]; [congruence|].
  set (df := Frame.clean (r :: processed)).
  set (w3 := (UpdateData.save_to_csv E df NewRecords w2).1).
  assert (UpdateData.save_to_csv E df NewRecords w2 = (w3, Ok tt)) as Hsave.
  { subst w3. pose proof (save_to_csv_returns E df NewRecords w2) as Hr.
    destruct (UpdateData.save_to_csv E df NewRecords w2). cbn in Hr. subst.
    reflexivity. }
  assert (UpdateData.process_and_save_delta E w
          = ((logger ERROR (MsgSaveError UpdateData.table_2025) w3).1,
             Raise DatabaseError)) as ->.
  { unfold UpdateData.process_and_save_delta.
    rewrite (bind_ok _ _ _ _ _ Hget).
    rewrite (bind_ok (logger INFO (MsgLatestDate latest)) _ w0 _ tt) by reflexivity.
    rewrite (bind_ok _ _ _ _ _ Hfetch).
    rewrite (bind_ok (lift (iterate body)) _ w2 w2 items)
      by (unfold lift; rewrite Hiter; reflexivity).
    rewrite (bind_ok (lift (UpdateData.process_loop latest items [])) _ w2 w2
               (r :: processed)) by (unfold lift; rewrite Hloop; reflexivity).
    rewrite (try_except_raise _ _ w2 w3 DatabaseError); [reflexivity|].
    fold df. rewrite (bind_ok _ _ _ _ _ Hsave).
    apply bind_raise, to_sql_fails, Hins. }
  assert (forall k', NoDup (names (get_dir k' w2))) as Hnd2
    by (intros k'; rewrite Hd2; apply Hnd).
  destruct (save_to_csv_effect E df NewRecords w2 Hlogs Hnd2) as (_ & _ & _ & Hin & _).
  fold w3 in Hin.
  cbn [fst snd logger tables log new_records_dir].
  split; [reflexivity|]. split.
  - subst w3. rewrite (proj1 (save_to_csv_quiet E df NewRecords w2)). exact Ht2.
  - split; [apply last_snoc|]. apply Hin. intros f Hf.
    rewrite (Hd2 NewRecords) in Hf. apply Hclock, Hf.
Qed.

Lemma delta_insert_failure_leaves_snapshot_witness :
  db_fault env_insert_down OpInsert UpdateData.table_2025 <> DbOk
  /\ (UpdateData.process_and_save_delta env_insert_down (world_with [old_row])).2
     = Raise DatabaseError
  /\ tables (UpdateData.process_and_save_delta env_insert_down
               (world_with [old_row])).1
     = tables (world_with [old_row]).
Proof.
  assert ((UpdateData.get_latest_record_date env_insert_down
             (world_with [old_row])).2 = Ok (Some (midnight 2025 3 1))) as H1
    by (vm_compute; reflexivity).
  assert (feed_items env_insert_down 2025
          = Ok [raw1 "2025-03-01"; raw1 "2025-03-02"]) as H2 by reflexivity.
  assert (UpdateData.process_loop (Some (midnight 2025 3 1))
            [raw1 "2025-03-01"; raw1 "2025-03-02"] []
          = Ok [plain_row (midnight 2025 3 2) (MonthStr "03")]) as H3
    by (vm_compute; reflexivity).
  assert ([plain_row (midnight 2025 3 2) (MonthStr "03")] <> []) as H4
    by discriminate.
  assert (db_fault env_insert_down OpInsert UpdateData.table_2025 <> DbOk) as H5
    by (vm_compute; discriminate).
  assert (forall k', PyStr.contains "logs" (UpdateData.dir_path env_insert_down k')
                     = false) as H6 by (intros []; vm_compute; reflexivity).
  assert (forall k', NoDup (names (get_dir k' (world_with [old_row])))) as H7
    by (intros []; apply NoDup_nil; exact I).
  assert (forall f, f ∈ new_records_dir (world_with [old_row]) ->
                    f_ctime f < clock env_insert_down NewRecords) as H8
    by (intros f Hf; inversion Hf).
  destruct (delta_insert_failure_leaves_snapshot env_insert_down
              (world_with [old_row]) _ _ _ H1 H2 H3 H4 H5 H6 H7 H8)
    as (Hr & Ht & _).
  repeat split; assumption.
Defined.

(** ** Which datastore failures end a run *)

Section Fatal.

Lemma db_ok_dec (o : db_outcome) : {o = DbOk} + {o <> DbOk}.
Proof. destruct o; (left; reflexivity) || (right; discriminate). Qed.

Lemma execute_on_fails {A} (E : env) (op : db_op) (t : string)
    (run : list row -> world -> world * A) (w : world) :
  db_fault E op t <> DbOk \/ tables w !! t = None ->
  Db.execute_on E op t run w = (w, Raise DatabaseError).
Proof.
  unfold Db.execute_on. intros [Hf|Ht].
  - destruct (db_fault E op t); [congruence| |]; reflexivity.
  - rewrite Ht. destruct (db_fault E op t); reflexivity.
Qed.

(** The handler of the two [try] blocks around the writes: it logs and
    re-raises. *)
Lemma logged_and_raised {A} (m : M A) (msg : message) (w w' : world) (e : exn) :
  m w = (w', Raise e) ->
  (try_except m (fun e => logger ERROR msg;; raise e) w).2 = Raise e
  /\ last (log (try_except m (fun e => logger ERROR msg;; raise e) w).1)
     = Some (ERROR, msg).
Proof.
  intros Hm. rewrite (try_except_raise _ _ _ _ _ Hm). cbn.
  split; [reflexivity|apply last_snoc].
Qed.

(** The writes of a backfill run raise when the insert or the
    statistics (connection or query) fail. *)
Lemma backfill_write_raises (E : env) (year : Z) (df : list row) (w : world) :
  db_fault E OpInsert (InitialLoad.get_table_name year) <> DbOk
  \/ db_fault E OpSelectStats (InitialLoad.get_table_name year) <> DbOk ->
  exists w',
    (Db.to_sql E (InitialLoad.get_table_name year) df;;
     logger INFO (MsgSaved (length df) (InitialLoad.get_table_name year));;
     InitialLoad.get_db_connection E OpSelectStats (InitialLoad.get_table_name year);;
     stats <- Db.select_stats E (InitialLoad.get_table_name year);;
     InitialLoad.log_stats year stats) w
    = (w', Raise DatabaseError).
Proof.
  set (t := InitialLoad.get_table_name year). intros Hf.
  destruct (db_ok_dec (db_fault E OpInsert t)) as [Hi|Hi].
  2:{ eexists. apply bind_raise, to_sql_fails, Hi. }
  destruct Hf as [Hf|Hs]; [contradiction|].
  assert (exists w1, Db.to_sql E t df w = (w1, Ok tt)) as [w1 H1].
  { unfold Db.to_sql. rewrite Hi. eauto. }
  rewrite (bind_ok _ _ _ _ _ H1).
  rewrite (bind_ok (logger INFO (MsgSaved (length df) t)) _ w1 _ tt) by reflexivity.
  set (w2 := (logger INFO (MsgSaved (length df) t) w1).1).
  unfold InitialLoad.get_db_connection, Db.connect.
  destruct (db_fault E OpSelectStats t) eqn:Hc; [congruence|eauto|].
  rewrite (bind_ok (ret tt) _ w2 w2 tt) by reflexivity.
  eexists. apply bind_raise. unfold Db.select_stats.
  apply execute_on_fails. left. congruence.
Qed.

(** A backfill run whose truncate went through and whose loop kept
    records comes to its [try] block with the table emptied. *)
Lemma backfill_reaches_write (E : env) (year : Z) (w : world)
    (items : list pyval) (processed : list row) :
  db_fault E OpTruncate (InitialLoad.get_table_name year) = DbOk ->
  is_Some (tables w !! InitialLoad.get_table_name year) ->
  feed_items E year = Ok items ->
  InitialLoad.process_loop year items [] = Ok processed ->
  processed <> [] ->
  exists w2,
    InitialLoad.process_and_save_data_by_year E year w
    = try_except
        (Db.to_sql E (InitialLoad.get_table_name year) (Frame.clean processed);;
         logger INFO (MsgSaved (length (Frame.clean processed))
                        (InitialLoad.get_table_name year));;
         InitialLoad.get_db_connection E OpSelectStats
           (InitialLoad.get_table_name year);;
         stats <- Db.select_stats E (InitialLoad.get_table_name year);;
         InitialLoad.log_stats year stats)
        (fun e => logger ERROR (MsgSaveError (InitialLoad.get_table_name year));;
                  raise e) w2.
Proof.
  intros Hf Hex Hitems Hloop Hne.
  pose proof (clear_existing_data_effect E year w) as Heff. cbv zeta in Heff.
  destruct Heff as [(Hok & _)|[_ [Hbad|Hbad]]];
    [|contradiction|rewrite Hbad in Hex; destruct Hex; discriminate].
  destruct (InitialLoad.clear_existing_data E year w) as [w1 [[]|e]] eqn:Hclear;
    [|discriminate].
  assert (items <> []) as Hitems'.
  { intros ->. cbn in Hloop. injection Hloop as <-. congruence. }
  assert (exists w2 body,
             InitialLoad.fetch_data E year w1 = (w2, Ok body)
             /\ iterate body = Ok items)
    as (w2 & body & Hfetch & Hiter).
  { unfold InitialLoad.fetch_data, feed_items in *.
    destruct (remote E year) as [body| |caught]; [| |discriminate].
    - exists w1, body. auto.
    - injection Hitems as <-. congruence. }
  destruct processed as [|r processed]; [congruence|].
  exists w2. unfold InitialLoad.process_and_save_data_by_year.
  rewrite (bind_ok _ _ _ _ _ Hclear), (bind_ok _ _ _ _ _ Hfetch).
  rewrite (iterate_truthy body items Hiter Hitems'). cbn [negb].
  rewrite (bind_ok (lift (iterate body)) _ w2 w2 items)
    by (unfold lift; rewrite Hiter; reflexivity).
  rewrite (bind_ok (lift (InitialLoad.process_loop year items [])) _ w2 w2
             (r :: processed)) by (unfold lift; rewrite Hloop; reflexivity).
  reflexivity.
Qed.

(** The writes of a delta run raise when the insert, the statistics
    (connection or query) or the export query fail. *)
Lemma delta_write_raises (E : env) (df : list row) (w : world) :
  db_fault E OpInsert UpdateData.table_2025 <> DbOk
  \/ db_fault E OpSelectStats UpdateData.table_2025 <> DbOk
  \/ db_fault E OpSelectAll UpdateData.table_2025 <> DbOk ->
  exists w',
    (UpdateData.save_to_csv E df NewRecords;;
     Db.to_sql E UpdateData.table_2025 df;;
     logger INFO (MsgSaved (length df) UpdateData.table_2025);;
     UpdateData.get_db_connection E OpSelectStats UpdateData.table_2025;;
     stats <- Db.select_stats E UpdateData.table_2025;;
     UpdateData.log_stats stats;;
     current_state_df <- Db.select_all_desc E UpdateData.table_2025;;
     UpdateData.save_to_csv E current_state_df CurrentState) w
    = (w', Raise DatabaseError).
Proof.
  set (t := UpdateData.table_2025). intros Hf.
  assert (exists w0, UpdateData.save_to_csv E df NewRecords w = (w0, Ok tt))
    as [w0 H0].
  { pose proof (save_to_csv_returns E df NewRecords w) as Hr.
    destruct (UpdateData.save_to_csv E df NewRecords w) as [w0 r].
    cbn in Hr. subst r. eauto. }
  rewrite (bind_ok _ _ _ _ _ H0).
  destruct (db_ok_dec (db_fault E OpInsert t)) as [Hi|Hi].
  2:{ eexists. apply bind_raise, to_sql_fails, Hi. }
  assert (exists w1, Db.to_sql E t df w0 = (w1, Ok tt)
                     /\ is_Some (tables w1 !! t)) as (w1 & H1 & T1).
  { unfold Db.to_sql. rewrite Hi. eexists. split; [reflexivity|].
    cbn. rewrite lookup_insert_eq. eauto. }
  rewrite (bind_ok _ _ _ _ _ H1).
  rewrite (bind_ok (logger INFO (MsgSaved (length df) t)) _ w1 _ tt) by reflexivity.
  set (w2 := (logger INFO (MsgSaved (length df) t) w1).1).
  assert (is_Some (tables w2 !! t)) as T2 by exact T1.
  destruct (db_ok_dec (db_fault E OpSelectStats t)) as [Hs|Hs].
  2:{ unfold UpdateData.get_db_connection, Db.connect.
      destruct (db_fault E OpSelectStats t) eqn:Hc; [congruence| |].
      - eexists. apply bind_raise. unfold try_except, raise, bind. cbn.
        reflexivity.
      - rewrite (bind_ok (try_except (ret tt) _) _ w2 w2 tt) by reflexivity.
        eexists. apply bind_raise. unfold Db.select_stats.
        apply execute_on_fails. left. congruence. }
  destruct Hf as [Hf|[Hf|Ha]]; try contradiction.
  assert (UpdateData.get_db_connection E OpSelectStats t w2 = (w2, Ok tt)) as H3.
  { unfold UpdateData.get_db_connection, Db.connect, try_except. rewrite Hs.
    reflexivity. }
  rewrite (bind_ok _ _ _ _ _ H3).
  destruct T2 as [rows T2].
  assert (exists w4 stats, Db.select_stats E t w2 = (w4, Ok stats))
    as (w4 & stats & H4).
  { unfold Db.select_stats, Db.execute_on. rewrite Hs, T2. eauto. }
  rewrite (bind_ok _ _ _ _ _ H4).
  assert (exists w5, UpdateData.log_stats stats w4 = (w5, Ok tt)) as [w5 H5]
    by (eexists; reflexivity).
  rewrite (bind_ok _ _ _ _ _ H5).
  eexists. apply bind_raise. unfold Db.select_all_desc.
  apply execute_on_fails. left. exact Ha.
Qed.

(** A delta run whose loop kept records comes to its [try] block. *)
Lemma delta_reaches_write (E : env) (w : world) (latest : option datetime)
    (items : list pyval) (processed : list row) :
  (UpdateData.get_latest_record_date E w).2 = Ok latest ->
  feed_items E 2025 = Ok items ->
  UpdateData.process_loop latest items [] = Ok processed ->
  processed <> [] ->
  exists w2,
    UpdateData.process_and_save_delta E w
    = try_except
        (UpdateData.save_to_csv E (Frame.clean processed) NewRecords;;
         Db.to_sql E UpdateData.table_2025 (Frame.clean processed);;
         logger INFO (MsgSaved (length (Frame.clean processed))
                        UpdateData.table_2025);;
         UpdateData.get_db_connection E OpSelectStats UpdateData.table_2025;;
         stats <- Db.select_stats E UpdateData.table_2025;;
         UpdateData.log_stats stats;;
         current_state_df <- Db.select_all_desc E UpdateData.table_2025;;
         UpdateData.save_to_csv E current_state_df CurrentState)
        (fun e => logger ERROR (MsgSaveError UpdateData.table_2025);; raise e) w2.
Proof.
  intros Hl Hitems Hloop Hne.
  destruct (get_latest_record_date_result E w) as (w0 & l & Hget & _).
  rewrite Hget in Hl. injection Hl as ->.
  assert (exists w2 body,
             UpdateData.fetch_delta_data E
               (logger INFO (MsgLatestDate latest) w0).1 = (w2, Ok body)
             /\ iterate body = Ok items)
    as (w2 & body & Hfetch & Hiter).
  { unfold UpdateData.fetch_delta_data, feed_items in *.
    destruct (remote E 2025) as [body| |caught]; [| |discriminate].
    - eexists _, body. split; [reflexivity|exact Hitems].
    - injection Hitems as <-. cbn in Hloop. injection Hloop as <-. congruence. }
  destruct processed as [|r processed]; [congruence|].
  exists w2. unfold UpdateData.process_and_save_delta.
  rewrite (bind_ok _ _ _ _ _ Hget).
  rewrite (bind_ok (logger INFO (MsgLatestDate latest)) _ w0 _ tt) by reflexivity.
  rewrite (bind_ok _ _ _ _ _ Hfetch).
  rewrite (bind_ok (lift (iterate body)) _ w2 w2 items)
    by (unfold lift; rewrite Hiter; reflexivity).
  rewrite (bind_ok (lift (UpdateData.process_loop latest items [])) _ w2 w2
             (r :: processed)) by (unfold lift; rewrite Hloop; reflexivity).
  reflexivity.
Qed.

(** The watermark read that fails, at the connection, at the query or
    for want of the table: logged, and answered with no value. *)
Lemma get_latest_record_date_recovers (E : env) (w : world) :
  db_fault E OpSelectMax UpdateData.table_2025 <> DbOk
  \/ tables w !! UpdateData.table_2025 = None ->
  UpdateData.get_latest_record_date E w
  = ((logger ERROR MsgLatestDateError
        match db_fault E OpSelectMax UpdateData.table_2025 with
        | DbConnectFails => (logger ERROR MsgConnectError w).1
        | _ => w
        end).1, Ok None).
Proof.
  intros Hf.
  unfold UpdateData.get_latest_record_date, UpdateData.get_db_connection,
    Db.connect, Db.select_max.
  pose proof (execute_on_fails E OpSelectMax UpdateData.table_2025
                (fun rows w => (add_event (EvSelectMax UpdateData.table_2025) w,
                                foldl Db.max_date None (discovered_date <$> rows)))
                w Hf) as Hex.
  unfold try_except, bind, raise, ret.
  destruct (db_fault E OpSelectMax UpdateData.table_2025);
    cbn [logger fst snd]; rewrite ?Hex; reflexivity.
Qed.

End Fatal.

(** C3 (as the code has it). A datastore failure ends the run, logged
    and re-raised, wherever it occurs but in the Delta Processor's
    watermark read:
    - a truncate of the Backfill Processor that fails (at the
      connection, at the statement, or for want of the table) ends the
      run for that year with the datastore untouched;
    - so does, in either script, a failure of the bulk insert or of the
      statistics connection or query, and in the Delta Processor of the
      export query, once the run has records to write;
    - the watermark read never raises: when it fails it is logged and
      answered with no value, nothing is changed, and a run that then
      returns has treated every record of 2025 in the feed as new. *)
Theorem datastore_failure_handling (E : env) (year : Z) (w : world) :
  (db_fault E OpTruncate (InitialLoad.get_table_name year) <> DbOk
   \/ tables w !! InitialLoad.get_table_name year = None ->
   InitialLoad.process_and_save_data_by_year E year w
   = ((logger ERROR (MsgTruncateError (InitialLoad.get_table_name year)) w).1,
      Raise DatabaseError))
  /\ (forall items processed,
         db_fault E OpTruncate (InitialLoad.get_table_name year) = DbOk ->
         is_Some (tables w !! InitialLoad.get_table_name year) ->
         feed_items E year = Ok items ->
         InitialLoad.process_loop year items [] = Ok processed ->
         processed <> [] ->
         db_fault E OpInsert (InitialLoad.get_table_name year) <> DbOk
         \/ db_fault E OpSelectStats (InitialLoad.get_table_name year) <> DbOk ->
         (InitialLoad.process_and_save_data_by_year E year w).2
         = Raise DatabaseError
         /\ last (log (InitialLoad.process_and_save_data_by_year E year w).1)
            = Some (ERROR, MsgSaveError (InitialLoad.get_table_name year)))
  /\ raises (UpdateData.get_latest_record_date E w).2 = false
  /\ (db_fault E OpSelectMax UpdateData.table_2025 <> DbOk
      \/ tables w !! UpdateData.table_2025 = None ->
      (UpdateData.get_latest_record_date E w).2 = Ok None
      /\ tables (UpdateData.get_latest_record_date E w).1 = tables w
      /\ db_trace (UpdateData.get_latest_record_date E w).1 = db_trace w
      /\ last (log (UpdateData.get_latest_record_date E w).1)
         = Some (ERROR, MsgLatestDateError)
      /\ ((UpdateData.process_and_save_delta E w).2 = Ok tt ->
          exists items processed,
            feed_items E 2025 = Ok items
            /\ UpdateData.process_loop None items [] = Ok processed
            /\ tables (UpdateData.process_and_save_delta E w).1
               = match processed with
                 | [] => tables w
                 | _ =>
                     <[UpdateData.table_2025 :=
                         (default [] (tables w !! UpdateData.table_2025)
                          ++ Frame.clean processed)%list]> (tables w)
                 end))
  /\ (forall latest items processed,
         (UpdateData.get_latest_record_date E w).2 = Ok latest ->
         feed_items E 2025 = Ok items ->
         UpdateData.process_loop latest items [] = Ok processed ->
         processed <> [] ->
         db_fault E OpInsert UpdateData.table_2025 <> DbOk
         \/ db_fault E OpSelectStats UpdateData.table_2025 <> DbOk
         \/ db_fault E OpSelectAll UpdateData.table_2025 <> DbOk ->
         (UpdateData.process_and_save_delta E w).2 = Raise DatabaseError
         /\ last (log (UpdateData.process_and_save_delta E w).1)
            = Some (ERROR, MsgSaveError UpdateData.table_2025)).
Proof.
  split; [|split; [|split; [|split]]].
  - intros Hf.
    destruct (clear_existing_data_effect E year w)
      as [(_ & Hok & Hex & _)|[Hfail _]].
    + destruct Hf as [Hf|Hf]; [contradiction|].
      rewrite Hf in Hex. destruct Hex. discriminate.
    + unfold InitialLoad.process_and_save_data_by_year, bind.
      rewrite Hfail. reflexivity.
  - intros items processed Hf Hex Hitems Hloop Hne Hbad.
    destruct (backfill_reaches_write E year w items processed Hf Hex Hitems
                Hloop Hne) as [w2 ->].
    destruct (backfill_write_raises E year (Frame.clean processed) w2 Hbad)
      as [w' Hraise].
    exact (logged_and_raised _ _ _ _ _ Hraise).
  - apply get_latest_record_date_effect.
  - intros Hf. rewrite (get_latest_record_date_recovers E w Hf).
    cbn [fst snd].
    split; [reflexivity|].
    split; [destruct (db_fault E OpSelectMax _); reflexivity|].
    split; [destruct (db_fault E OpSelectMax _); reflexivity|].
    split; [apply last_snoc|].
    intros Hok.
    destruct (delta_appends_the_kept_rows_aux E w None) as
      (items & processed & H1 & H2 & _ & H3); [|exact Hok|eauto].
    rewrite (get_latest_record_date_recovers E w Hf). reflexivity.
  - intros latest items processed Hl Hitems Hloop Hne Hbad.
    destruct (delta_reaches_write E w latest items processed Hl Hitems Hloop Hne)
      as [w2 ->].
    destruct (delta_write_raises E (Frame.clean processed) w2 Hbad)
      as [w' Hraise].
    exact (logged_and_raised _ _ _ _ _ Hraise).
Qed.

Lemma datastore_failure_handling_witness :
  (db_fault env_truncate_down OpTruncate (InitialLoad.get_table_name 2024) <> DbOk
   /\ (InitialLoad.process_and_save_data_by_year env_truncate_down 2024
         (world_with [old_row])).2 = Raise DatabaseError)
  /\ (db_fault env_stats_down OpSelectStats (InitialLoad.get_table_name 2025)
      <> DbOk
      /\ (InitialLoad.process_and_save_data_by_year env_stats_down 2025
            (world_with [old_row])).2 = Raise DatabaseError)
  /\ (db_fault env_watermark_down OpSelectMax UpdateData.table_2025 <> DbOk
      /\ (UpdateData.get_latest_record_date env_watermark_down
            (world_with [old_row])).2 = Ok None)
  /\ (db_fault env_stats_down OpSelectStats UpdateData.table_2025 <> DbOk
      /\ (UpdateData.process_and_save_delta env_stats_down
            (world_with [old_row])).2 = Raise DatabaseError).
Proof.
  assert (db_fault env_truncate_down OpTruncate (InitialLoad.get_table_name 2024)
          <> DbOk) as H1 by (vm_compute; discriminate).
  assert (db_fault env_stats_down OpSelectStats (InitialLoad.get_table_name 2025)
          <> DbOk) as H2 by (vm_compute; discriminate).
  assert (db_fault env_watermark_down OpSelectMax UpdateData.table_2025 <> DbOk)
    as H3 by (vm_compute; discriminate).
  assert (db_fault env_stats_down OpSelectStats UpdateData.table_2025 <> DbOk)
    as H4 by (vm_compute; discriminate).
  assert (db_fault env_stats_down OpTruncate (InitialLoad.get_table_name 2025)
          = DbOk) as H5 by reflexivity.
  assert (is_Some (tables (world_with [old_row]) !! InitialLoad.get_table_name 2025))
    as H6 by (vm_compute; eauto).
  assert (feed_items env_stats_down 2025
          = Ok [raw1 "2025-03-01"; raw1 "2025-03-02"]) as H7 by reflexivity.
  assert (InitialLoad.process_loop 2025 [raw1 "2025-03-01"; raw1 "2025-03-02"] []
          = Ok [plain_row (midnight 2025 3 1) (MonthInt 3);
                plain_row (midnight 2025 3 2) (MonthInt 3)]) as H8
    by (vm_compute; reflexivity).
  assert ([plain_row (midnight 2025 3 1) (MonthInt 3);
           plain_row (midnight 2025 3 2) (MonthInt 3)] <> []) as H9
    by discriminate.
  assert ((UpdateData.get_latest_record_date env_stats_down
             (world_with [old_row])).2 = Ok (Some (midnight 2025 3 1))) as H10
    by (vm_compute; reflexivity).
  assert (UpdateData.process_loop (Some (midnight 2025 3 1))
            [raw1 "2025-03-01"; raw1 "2025-03-02"] []
          = Ok [plain_row (midnight 2025 3 2) (MonthStr "03")]) as H11
    by (vm_compute; reflexivity).
  assert ([plain_row (midnight 2025 3 2) (MonthStr "03")] <> []) as H12
    by discriminate.
  split; [split; [exact H1|]|split; [split; [exact H2|]|split; split]].
  - rewrite (proj1 (datastore_failure_handling env_truncate_down 2024
                      (world_with [old_row])) (or_introl H1)).
    reflexivity.
  - exact (proj1 (proj1 (proj2 (datastore_failure_handling env_stats_down 2025
                                  (world_with [old_row])))
                    _ _ H5 H6 H7 H8 H9 (or_intror H2))).
  - exact H3.
  - exact (proj1 (proj1 (proj2 (proj2 (proj2
             (datastore_failure_handling env_watermark_down 2025
                (world_with [old_row]))))) (or_introl H3))).
  - exact H4.
  - exact (proj1 (proj2 (proj2 (proj2 (proj2
             (datastore_failure_handling env_stats_down 2025
                (world_with [old_row])))))
             _ _ _ H10 H7 H11 H12 (or_intror (or_introl H4)))).
Defined.

(** C3 as stated fails: with the watermark read failing, the run does
    not raise; it treats the watermark as empty, returns normally and
    inserts the record dated 2025-03-01 next to the stored row of the
    same date. *)
Lemma watermark_failure_is_recovered :
  db_fault env_watermark_down OpSelectMax UpdateData.table_2025 = DbExecuteFails
  /\ raises (UpdateData.get_latest_record_date env_watermark_down
               (world_with [old_row])).2 = false
  /\ (UpdateData.process_and_save_delta env_watermark_down (world_with [old_row])).2
     = Ok tt
  /\ table_after
       (UpdateData.process_and_save_delta env_watermark_down (world_with [old_row]))
       "ransomware_data_2025"
     = Some [old_row; plain_row (midnight 2025 3 1) (MonthStr "03")].
Proof. repeat split; vm_compute; reflexivity. Qed.

(** ** More on the parser and on the two normalisers *)

Section Valid.

Lemma new_ok_valid y m d hh mi ss us dt :
  Datetime.new y m d hh mi ss us = Ok dt -> valid_datetime dt.
Proof.
  unfold Datetime.new, Datetime.between, valid_datetime.
  match goal with |- context [if ?c then _ else _] => destruct c eqn:Hc end;
    [|discriminate].
  intros [= <-]. cbn.
  repeat (apply andb_prop in Hc as [Hc ?]). lia.
Qed.

Lemma strptime_valid (v : pyval) (format : string) (d : datetime) :
  Strptime.strptime v format = Ok d -> valid_datetime d.
Proof.
  unfold Strptime.strptime, Strptime.build.
  destruct v; try discriminate.
  destruct (Strptime.tokenize format) as [ts|]; [|discriminate].
  destruct (Strptime.regex_match ts Strptime.found0 s) as [|[g rest] ?];
    [discriminate|].
  destruct (String.eqb rest ""); [|discriminate].
  apply new_ok_valid.
Qed.

Lemma try_formats_valid (v : pyval) (formats : list string) (d : datetime) :
  InitialLoad.try_formats v formats = Ok (Some d) -> valid_datetime d.
Proof.
  induction formats as [|f fs IH]; cbn [InitialLoad.try_formats]; [discriminate|].
  destruct (Strptime.strptime v f) as [d'|e] eqn:H.
  - intros [= <-]. eauto using strptime_valid.
  - destruct e; try discriminate. exact IH.
Qed.

End Valid.

(** X13. Whatever value it is given, the Date Parser of either script
    never returns an impossible timestamp: a returned value has a year
    in 1..9999, a month in 1..12, a day that exists in that month (leap
    years included) and a time of day in range. *)
Theorem parse_date_returns_valid (v : pyval) (d : datetime) :
  InitialLoad.parse_date v = Ok (Some d) \/ UpdateData.parse_date v = Ok (Some d) ->
  valid_datetime d.
Proof.
  assert (InitialLoad.parse_date v = Ok (Some d) -> valid_datetime d) as H.
  { unfold InitialLoad.parse_date. destruct (negb (truthy v)); [discriminate|].
    apply try_formats_valid. }
  intros [Hp|Hp]; apply H; exact Hp.
Qed.

Lemma parse_date_returns_valid_witness :
  InitialLoad.parse_date (PStr "2024-02-29 23:59:59") 
  = Ok (Some (mk_datetime 2024 2 29 23 59 59 0))
  /\ valid_datetime (mk_datetime 2024 2 29 23 59 59 0)
  /\ InitialLoad.parse_date (PStr "2023-02-29") = Ok None.
Proof.
  assert (InitialLoad.parse_date (PStr "2024-02-29 23:59:59")
          = Ok (Some (mk_datetime 2024 2 29 23 59 59 0))) as H
    by (vm_compute; reflexivity).
  split; [exact H|]. split; [|vm_compute; reflexivity].
  exact (parse_date_returns_valid _ _ (or_introl H)).
Defined.

(** X14. The backfill keeps a raw record for at most one year: if two
    runs for two years both keep the same record, the years are the
    same and so are the rows. *)
Theorem record_lands_in_one_partition (y1 y2 : Z) (item : pyval) (r1 r2 : row) :
  InitialLoad.process_item y1 item = Ok (Some r1) ->
  InitialLoad.process_item y2 item = Ok (Some r2) ->
  y1 = y2 /\ r1 = r2.
Proof.
  intros H1 H2.
  assert (y1 = y2) as ->.
  { apply initial_process_item_some in H1 as (d & dd & -> & Hp & Hy & _).
    apply initial_process_item_some in H2 as (d' & dd' & [= <-] & Hp' & Hy' & _).
    congruence. }
  split; [reflexivity|congruence].
Qed.

Lemma record_lands_in_one_partition_witness :
  InitialLoad.process_item 2024 (raw1 "2024-06-15")
  = Ok (Some (plain_row (midnight 2024 6 15) (MonthInt 6)))
  /\ 2024 = 2024.
Proof.
  assert (InitialLoad.process_item 2024 (raw1 "2024-06-15")
          = Ok (Some (plain_row (midnight 2024 6 15) (MonthInt 6)))) as H
    by (vm_compute; reflexivity).
  split; [exact H|].
  exact (proj1 (record_lands_in_one_partition 2024 2024 _ _ _ H H)).
Defined.

(** X15. For a record that both the backfill of 2025 and the delta
    loop keep, the two rows agree on country, title, group name,
    discovered date and attack date; the scripts can differ on the
    sector and on the month cell only. *)
Theorem scripts_agree_outside_sector_and_month (latest : option datetime)
    (item : pyval) (rb rd : row) :
  InitialLoad.process_item 2025 item = Ok (Some rb) ->
  UpdateData.process_item latest item = Ok (Some rd) ->
  country rb = country rd
  /\ post_title rb = post_title rd
  /\ group_name rb = group_name rd
  /\ discovered_date rb = discovered_date rd
  /\ attack_date rb = attack_date rd.
Proof.
  intros Hb Hd.
  pose proof (initial_process_item_some _ _ _ Hb)
    as (d0 & dd & -> & Hp & _ & _ & _ & _ & _ & Hdb & _).
  pose proof (delta_process_item_some _ _ _ Hd)
    as (d1 & dd' & [= <-] & Hp' & _ & _ & _ & _ & _ & Hdd & _).
  apply initial_process_item_fields in Hb
    as (d2 & g & [= <-] & _ & Hc & Ht & Hg & Hgr & Ha).
  apply delta_process_item_fields in Hd
    as (d3 & g' & [= <-] & _ & Hc' & Ht' & Hg' & Hgr' & Ha').
  change (UpdateData.parse_date) with (InitialLoad.parse_date) in *.
  assert (g = g') as <- by congruence.
  repeat split; congruence.
Qed.

Lemma scripts_agree_outside_sector_and_month_witness :
  InitialLoad.process_item 2025 (raw2 "2025-06-15" "activity" (PStr "unknown"))
  = Ok (Some (plain_row (midnight 2025 6 15) (MonthInt 6)))
  /\ UpdateData.process_item None (raw2 "2025-06-15" "activity" (PStr "unknown"))
     = Ok (Some (mk_row "unknown" "" "" "Other" (Some (midnight 2025 6 15)) None
                   (Some (MonthStr "06"))))
  /\ group_name (plain_row (midnight 2025 6 15) (MonthInt 6))
     = group_name (mk_row "unknown" "" "" "Other" (Some (midnight 2025 6 15)) None
                     (Some (MonthStr "06"))).
Proof.
  assert (InitialLoad.process_item 2025
            (raw2 "2025-06-15" "activity" (PStr "unknown"))
          = Ok (Some (plain_row (midnight 2025 6 15) (MonthInt 6)))) as H1
    by (vm_compute; reflexivity).
  assert (UpdateData.process_item None
            (raw2 "2025-06-15" "activity" (PStr "unknown"))
          = Ok (Some (mk_row "unknown" "" "" "Other" (Some (midnight 2025 6 15))
                        None (Some (MonthStr "06"))))) as H2
    by (vm_compute; reflexivity).
  split; [exact H1|]. split; [exact H2|].
  destruct (scripts_agree_outside_sector_and_month None _ _ _ H1 H2)
    as (_ & _ & Hg & _).
  exact Hg.
Defined.

(** ** The snapshots of a delta run *)

Section Snapshots.

Lemma same_dirs_refl (w : world) : same_dirs w w.
Proof. intros k. reflexivity. Qed.

Lemma same_dirs_trans (a b c : world) :
  same_dirs a b -> same_dirs b c -> same_dirs a c.
Proof. intros H1 H2 k. rewrite (H2 k). apply H1. Qed.

Local Abbreviation still m := (post same_dirs m (fun _ => True)).

Local Ltac seq :=
  eapply (post_bind same_dirs same_dirs_trans); [|intros ? _].

Lemma logger_still (l : level) (msg : message) : still (logger l msg).
Proof. apply post_step. intros w []; reflexivity. Qed.

Lemma connect_still (E : env) (op : db_op) (t : string) : still (Db.connect E op t).
Proof.
  unfold Db.connect. destruct (db_fault E op t);
    (apply post_ret; [apply same_dirs_refl|exact I])
    || (apply post_raise; apply same_dirs_refl).
Qed.

Lemma select_still {A} (E : env) (op : db_op) (t : string) (ev : db_event)
    (f : list row -> A) :
  still (Db.execute_on E op t (fun rows w => (add_event ev w, f rows))).
Proof.
  apply post_step. intros w. unfold Db.execute_on.
  destruct (db_fault E op t); try apply same_dirs_refl.
  destruct (tables w !! t); [intros []; reflexivity|apply same_dirs_refl].
Qed.

Lemma to_sql_still (E : env) (t : string) (df : list row) : still (Db.to_sql E t df).
Proof.
  apply post_step. intros w. unfold Db.to_sql.
  destruct (db_fault E OpInsert t); try apply same_dirs_refl.
  intros []; reflexivity.
Qed.

Lemma delta_get_db_connection_still (E : env) (op : db_op) (t : string) :
  still (UpdateData.get_db_connection E op t).
Proof.
  unfold UpdateData.get_db_connection.
  apply (post_try_except same_dirs same_dirs_trans); [apply connect_still|].
  intros e. seq; [apply logger_still|]. apply post_raise, same_dirs_refl.
Qed.

Lemma delta_log_stats_still (stats : nat * nat * nat) :
  still (UpdateData.log_stats stats).
Proof.
  unfold UpdateData.log_stats. repeat (seq; [apply logger_still|]).
  apply logger_still.
Qed.

Lemma still_eq {A} (m : M A) (Q : A -> Prop) (w w' : world) (r : res A) :
  post same_dirs m Q -> m w = (w', r) -> same_dirs w w'.
Proof. intros Hm Hr. destruct (Hm w) as [Hq _]. rewrite Hr in Hq. exact Hq. Qed.

Lemma date_geb_total (a b : option datetime) :
  Db.date_geb a b = false -> Db.date_geb b a = true.
Proof.
  destruct a as [x|], b as [y|]; cbn; try discriminate; try reflexivity.
  intros H. apply negb_false_iff in H. rewrite (gtb_asym y x H). reflexivity.
Qed.

Lemma date_geb_trans (a b c : option datetime) :
  Db.date_geb a b = true -> Db.date_geb b c = true -> Db.date_geb a c = true.
Proof.
  destruct a as [x|], b as [y|], c as [z|]; cbn; try discriminate; try reflexivity.
  intros Hxy Hyz. apply negb_true_iff in Hxy, Hyz. apply negb_true_iff.
  destruct (Datetime.gtb z x) eqn:Hzx; [|reflexivity].
  rewrite (gtb_ge_trans z x y Hzx Hxy) in Hyz. discriminate.
Qed.

(** [ORDER BY discovered_date DESC] rearranges the rows, latest first. *)
Lemma order_desc_sorted (rows : list row) :
  Db.order_desc rows ≡ₚ rows
  /\ StronglySorted (fun a b => latest_first a b = true) (Db.order_desc rows).
Proof.
  unfold Db.order_desc. split; [apply sort_desc_perm|].
  apply (sort_desc_sorted latest_first).
  - intros a b. apply date_geb_total.
  - intros a b c. apply date_geb_trans.
Qed.

Lemma select_all_desc_result (E : env) (t : string) (w w' : world)
    (current : list row) :
  Db.select_all_desc E t w = (w', Ok current) ->
  exists rows, tables w !! t = Some rows /\ current = Db.order_desc rows.
Proof.
  unfold Db.select_all_desc, Db.execute_on.
  destruct (db_fault E OpSelectAll t); try discriminate.
  destruct (tables w !! t) as [rows|]; [|discriminate].
  intros [= _ <-]. eauto.
Qed.

(** The run of a delta that found new records, step by step. *)
Lemma delta_snapshots_aux (E : env) (w : world) (latest : option datetime) :
  (UpdateData.get_latest_record_date E w).2 = Ok latest ->
  (UpdateData.process_and_save_delta E w).2 = Ok tt ->
  (forall k', PyStr.contains "logs" (UpdateData.dir_path E k') = false) ->
  (forall k', NoDup (names (get_dir k' w))) ->
  (forall k' f, f ∈ get_dir k' w -> f_ctime f < clock E k') ->
  exists items processed,
    feed_items E 2025 = Ok items
    /\ UpdateData.process_loop latest items [] = Ok processed
    /\ (processed = []
        \/ exists rows,
             tables (UpdateData.process_and_save_delta E w).1 !! UpdateData.table_2025
             = Some rows
             /\ snapshot_file E NewRecords (Frame.clean processed)
                  ∈ new_records_dir (UpdateData.process_and_save_delta E w).1
             /\ snapshot_file E CurrentState (Db.order_desc rows)
                  ∈ current_state_dir (UpdateData.process_and_save_delta E w).1).
Proof.
  intros Hl Hok Hlogs Hnd Hclock.
  destruct (UpdateData.process_and_save_delta E w) as [wf rf] eqn:Hrun.
  cbn [fst snd] in *. subst rf.
  unfold UpdateData.process_and_save_delta in Hrun.
  apply bind_ok_inv in Hrun as (w0 & l & H0 & Hrun).
  rewrite H0 in Hl. injection Hl as ->.
  assert (same_dirs w w0) as D0.
  { destruct (get_latest_record_date_result E w) as (w0' & l & Hget & _ & Hn & Hc & _).
    rewrite Hget in H0. injection H0 as <- _. intros []; assumption. }
  apply bind_ok_inv in Hrun as (w1 & [] & H1 & Hrun).
  pose proof (still_eq _ _ _ _ _ (logger_still _ _) H1) as D1.
  apply bind_ok_inv in Hrun as (w2 & body & H2 & Hrun).
  assert (same_dirs w1 w2) as D2.
  { revert H2. unfold UpdateData.fetch_delta_data.
    destruct (remote E 2025); cbn; try discriminate;
      intros [= <- _]; intros []; reflexivity. }
  apply fetch_delta_data_result in H2 as [_ Hfeed].
  apply bind_ok_inv in Hrun as (w3 & items & H3 & Hrun).
  injection H3 as <- H3.
  apply bind_ok_inv in Hrun as (w4 & processed & H4 & Hrun).
  injection H4 as <- H4.
  exists items, processed. split; [congruence|]. split; [exact H4|].
  destruct processed as [|r processed]; [left; reflexivity|right].
  assert (same_dirs w w2) as D by eauto using same_dirs_trans.
  apply try_except_ok_inv in Hrun as [Hrun|(w' & e & _ & Hh)].
  2:{ apply bind_ok_inv in Hh as (? & ? & _ & Hh). discriminate. }
  set (df := Frame.clean (r :: processed)) in *.
  apply bind_ok_inv in Hrun as (w5 & [] & H5 & Hrun).
  assert (forall k', NoDup (names (get_dir k' w2))) as Hnd2
    by (intros k'; rewrite (D k'); apply Hnd).
  destruct (save_to_csv_effect E df NewRecords w2 Hlogs Hnd2)
    as (Hnd5 & Hlen5 & Hfrom5 & Hin5 & _).
  rewrite H5 in Hnd5, Hlen5, Hfrom5, Hin5. cbn [fst] in Hnd5, Hlen5, Hfrom5, Hin5.
  assert (snapshot_file E NewRecords df ∈ get_dir NewRecords w5) as Hnew.
  { apply Hin5. intros f Hf. rewrite (D NewRecords) in Hf. eauto. }
  apply bind_ok_inv in Hrun as (w6 & [] & H6 & Hrun).
  pose proof (still_eq _ _ _ _ _ (to_sql_still _ _ _) H6) as D6.
  apply bind_ok_inv in Hrun as (w7 & [] & H7 & Hrun).
  pose proof (still_eq _ _ _ _ _ (logger_still _ _) H7) as D7.
  pose proof (quiet_eq _ _ _ _ _ (logger_quiet _ _) H7) as T7.
  apply bind_ok_inv in Hrun as (w8 & [] & H8 & Hrun).
  pose proof (still_eq _ _ _ _ _ (delta_get_db_connection_still _ _ _) H8) as D8.
  pose proof (quiet_eq _ _ _ _ _ (delta_get_db_connection_quiet _ _ _) H8) as T8.
  apply bind_ok_inv in Hrun as (w9 & stats & H9 & Hrun).
  pose proof (still_eq _ _ _ _ _ (select_still _ _ _ _ _) H9) as D9.
  pose proof (quiet_eq _ _ _ _ _ (select_quiet _ _ _ _ _) H9) as T9.
  apply bind_ok_inv in Hrun as (w10 & [] & H10 & Hrun).
  pose proof (still_eq _ _ _ _ _ (delta_log_stats_still _) H10) as D10.
  pose proof (quiet_eq _ _ _ _ _ (delta_log_stats_quiet _) H10) as T10.
  apply bind_ok_inv in Hrun as (w11 & current & H11 & Hrun).
  pose proof (still_eq _ _ _ _ _ (select_still _ _ _ _ _) H11) as D11.
  pose proof (quiet_eq _ _ _ _ _ (select_quiet _ _ _ _ _) H11) as T11.
  apply select_all_desc_result in H11 as (rows & Hrows & ->).
  pose proof (quiet_eq _ _ _ _ _ (save_to_csv_quiet _ _ _) Hrun) as T12.
  assert (same_dirs w5 w11) as D511 by eauto 10 using same_dirs_trans.
  assert (forall k', NoDup (names (get_dir k' w11))) as Hnd11
    by (intros k'; rewrite (D511 k'); apply Hnd5).
  destruct (save_to_csv_effect E (Db.order_desc rows) CurrentState w11 Hlogs Hnd11)
    as (_ & _ & _ & Hin12 & Hother12 & _).
  rewrite Hrun in Hin12, Hother12. cbn [fst] in Hin12, Hother12.
  exists rows. split; [|split].
  - rewrite T12, T11. exact Hrows.
  - change (new_records_dir wf) with (get_dir NewRecords wf).
    rewrite (Hother12 NewRecords), (D511 NewRecords); [exact Hnew|discriminate|].
    rewrite (D511 NewRecords). apply Hlen5.
  - apply Hin12. intros f Hf. rewrite (D511 CurrentState) in Hf.
    destruct (Hfrom5 _ _ Hf) as [[Hk _]|Hf']; [discriminate|].
    rewrite (D CurrentState) in Hf'. eauto.
Qed.

End Snapshots.

(** X16. A delta run that returns after finding new records leaves two
    snapshots behind (directories prunable, file names distinct, clock
    ahead of the existing files): in the new-records directory the
    cleaned rows it appended, and in the current-state directory all
    rows of the 2025 table as it is after the insert, rearranged so
    that the latest [discovered_date] comes first. *)
Theorem delta_writes_both_snapshots (E : env) (w : world) (latest : option datetime) :
  (UpdateData.get_latest_record_date E w).2 = Ok latest ->
  (UpdateData.process_and_save_delta E w).2 = Ok tt ->
  (forall k', PyStr.contains "logs" (UpdateData.dir_path E k') = false) ->
  (forall k', NoDup (names (get_dir k' w))) ->
  (forall k' f, f ∈ get_dir k' w -> f_ctime f < clock E k') ->
  exists items processed,
    feed_items E 2025 = Ok items
    /\ UpdateData.process_loop latest items [] = Ok processed
    /\ (processed = []
        \/ exists rows,
             tables (UpdateData.process_and_save_delta E w).1 !! UpdateData.table_2025
             = Some rows
             /\ snapshot_file E NewRecords (Frame.clean processed)
                  ∈ new_records_dir (UpdateData.process_and_save_delta E w).1
             /\ snapshot_file E CurrentState (Db.order_desc rows)
                  ∈ current_state_dir (UpdateData.process_and_save_delta E w).1
             /\ Db.order_desc rows ≡ₚ rows
             /\ StronglySorted (fun a b => latest_first a b = true)
                  (Db.order_desc rows)).
Proof.
  intros Hl Hok Hlogs Hnd Hclock.
  destruct (delta_snapshots_aux E w latest Hl Hok Hlogs Hnd Hclock)
    as (items & processed & Hi & Hp & [->|(rows & Ht & Hn & Hc)]).
  - exists items, []. auto.
  - exists items, processed. repeat split; try assumption. right.
    exists rows. repeat split; try assumption; apply order_desc_sorted.
Qed.

Lemma delta_writes_both_snapshots_witness :
  (UpdateData.get_latest_record_date env_two_records (world_with [old_row])).2
  = Ok (Some (midnight 2025 3 1))
  /\ (UpdateData.process_and_save_delta env_two_records (world_with [old_row])).2
     = Ok tt
  /\ (forall k', PyStr.contains "logs" (UpdateData.dir_path env_two_records k')
                 = false)
  /\ (forall k', NoDup (names (get_dir k' (world_with [old_row]))))
  /\ (forall k' f, f ∈ get_dir k' (world_with [old_row]) ->
                   f_ctime f < clock env_two_records k')
  /\ exists items processed,
       feed_items env_two_records 2025 = Ok items
       /\ UpdateData.process_loop (Some (midnight 2025 3 1)) items [] = Ok processed.
Proof.
  assert ((UpdateData.get_latest_record_date env_two_records
             (world_with [old_row])).2 = Ok (Some (midnight 2025 3 1))) as H1
    by (vm_compute; reflexivity).
  assert ((UpdateData.process_and_save_delta env_two_records
             (world_with [old_row])).2 = Ok tt) as H2 by (vm_compute; reflexivity).
  assert (forall k', PyStr.contains "logs" (UpdateData.dir_path env_two_records k')
                     = false) as H3 by (intros []; vm_compute; reflexivity).
  assert (forall k', NoDup (names (get_dir k' (world_with [old_row])))) as H4
    by (intros []; apply NoDup_nil; exact I).
  assert (forall k' f, f ∈ get_dir k' (world_with [old_row]) ->
                       f_ctime f < clock env_two_records k') as H5
    by (intros [] f Hf; inversion Hf).
  repeat (split; [assumption|]).
  destruct (delta_writes_both_snapshots env_two_records (world_with [old_row])
              _ H1 H2 H3 H4 H5) as (items & processed & Hi & Hp & _).
  exists items, processed. split; assumption.
Defined.

(** ** The statistics a backfill run reports *)

Section Stats.

Lemma length_remove_dups (l : list string) :
  (length (remove_dups l) <= length l)%nat.
Proof.
  induction l as [|x l IH]; cbn; [lia|].
  destruct (decide_rel elem_of x l); cbn; lia.
Qed.

Lemma remove_dups_nonempty (l : list string) : l <> [] -> remove_dups l <> [].
Proof.
  destruct l as [|x l]; [congruence|]. intros _ Hnil.
  assert (x ∈ remove_dups (x :: l)) as Hx by (apply elem_of_remove_dups; left).
  rewrite Hnil in Hx. inversion Hx.
Qed.

(** The three counts of the statistics query. *)
Lemma stats_of_bounds (rows : list row) :
  (Db.stats_of rows).1.1 = length rows
  /\ ((Db.stats_of rows).1.2 <= length rows)%nat
  /\ ((Db.stats_of rows).2 <= length rows)%nat
  /\ (rows <> [] -> 1 <= (Db.stats_of rows).1.2)%nat.
Proof.
  unfold Db.stats_of. cbn [fst snd]. repeat split.
  - etransitivity; [apply length_remove_dups|]. rewrite length_fmap. lia.
  - etransitivity; [apply length_remove_dups|].
    etransitivity; [apply length_filter|]. rewrite length_fmap. lia.
  - intros Hne.
    assert (remove_dups (group_name <$> rows) <> []) as H.
    { apply remove_dups_nonempty. destruct rows; [congruence|discriminate]. }
    destruct (remove_dups (group_name <$> rows)); [congruence|cbn; lia].
Qed.

Lemma fetch_data_result (E : env) (year : Z) (w w' : world) (body : pyval)
    (items : list pyval) :
  feed_items E year = Ok items ->
  InitialLoad.fetch_data E year w = (w', Ok body) ->
  tables w' = tables w /\ iterate body = Ok items.
Proof.
  unfold InitialLoad.fetch_data, feed_items.
  destruct (remote E year) as [b| |[]]; cbn; try discriminate;
    intros Hitems [= <- <-]; split; auto.
Qed.

Lemma select_stats_result (E : env) (t : string) (w w' : world)
    (stats : nat * nat * nat) :
  Db.select_stats E t w = (w', Ok stats) ->
  exists rows, tables w !! t = Some rows /\ stats = Db.stats_of rows
               /\ log w' = log w.
Proof.
  unfold Db.select_stats, Db.execute_on.
  destruct (db_fault E OpSelectStats t); try discriminate.
  destruct (tables w !! t) as [rows|]; [|discriminate].
  intros [= <- <-]. eauto.
Qed.

Lemma initial_log_stats_log (year : Z) (stats : nat * nat * nat) (w : world) :
  log (InitialLoad.log_stats year stats w).1
  = (log w ++ [(INFO, MsgStatsHeader year); (INFO, MsgIncidents stats.1.1);
               (INFO, MsgGroups stats.1.2); (INFO, MsgCountries stats.2)])%list.
Proof. cbn. rewrite <- !app_assoc. reflexivity. Qed.

(** A backfill run that returns after keeping records, step by step. *)
Lemma backfill_stats_aux (E : env) (year : Z) (w : world) (items : list pyval)
    (processed : list row) :
  feed_items E year = Ok items ->
  InitialLoad.process_loop year items [] = Ok processed ->
  processed <> [] ->
  (InitialLoad.process_and_save_data_by_year E year w).2 = Ok tt ->
  exists before,
    tables (InitialLoad.process_and_save_data_by_year E year w).1
      !! InitialLoad.get_table_name year = Some (Frame.clean processed)
    /\ log (InitialLoad.process_and_save_data_by_year E year w).1
       = (before
          ++ [(INFO, MsgStatsHeader year);
              (INFO, MsgIncidents (Db.stats_of (Frame.clean processed)).1.1);
              (INFO, MsgGroups (Db.stats_of (Frame.clean processed)).1.2);
              (INFO, MsgCountries (Db.stats_of (Frame.clean processed)).2)])%list
    /\ length (Frame.clean processed) = length processed.
Proof.
  intros Hitems Hloop Hne Hok.
  set (t := InitialLoad.get_table_name year).
  destruct (InitialLoad.process_and_save_data_by_year E year w) as [wf rf] eqn:Hrun.
  cbn [fst snd] in *. subst rf.
  unfold InitialLoad.process_and_save_data_by_year in Hrun. fold t in Hrun.
  apply bind_ok_inv in Hrun as (w1 & [] & H1 & Hrun).
  assert (tables w1 = <[t := []]> (tables w)) as T1.
  { pose proof (clear_existing_data_effect E year w) as Heff. cbv zeta in Heff.
    rewrite H1 in Heff. cbn [fst snd] in Heff.
    destruct Heff as [(_ & _ & _ & Ht & _)|[Hbad _]]; [exact Ht|congruence]. }
  apply bind_ok_inv in Hrun as (w2 & body & H2 & Hrun).
  apply (fetch_data_result E year w1 w2 body items Hitems) in H2 as [T2 Hiter].
  assert (items <> []) as Hitems'.
  { intros ->. cbn in Hloop. congruence. }
  rewrite (iterate_truthy body items Hiter Hitems') in Hrun. cbn [negb] in Hrun.
  apply bind_ok_inv in Hrun as (w3 & items' & H3 & Hrun).
  injection H3 as <- H3.
  assert (items' = items) as -> by congruence.
  apply bind_ok_inv in Hrun as (w4 & processed' & H4 & Hrun).
  injection H4 as <- H4.
  assert (processed' = processed) as -> by congruence.
  destruct processed as [|r processed]; [congruence|].
  set (df := Frame.clean (r :: processed)) in *.
  apply try_except_ok_inv in Hrun as [Hrun|(w' & e & _ & Hh)].
  2:{ apply bind_ok_inv in Hh as (? & ? & _ & Hh). discriminate. }
  apply bind_ok_inv in Hrun as (w5 & [] & H5 & Hrun).
  assert (tables w5 !! t = Some df) as T5.
  { revert H5. unfold Db.to_sql.
    destruct (db_fault E OpInsert t); try discriminate.
    intros [= <-]. cbn. rewrite lookup_insert_eq, T2, T1, lookup_insert_eq.
    reflexivity. }
  apply bind_ok_inv in Hrun as (w6 & [] & H6 & Hrun).
  pose proof (quiet_eq _ _ _ _ _ (logger_quiet _ _) H6) as T6.
  apply bind_ok_inv in Hrun as (w7 & [] & H7 & Hrun).
  pose proof (quiet_eq _ _ _ _ _ (connect_quiet _ _ _) H7) as T7.
  apply bind_ok_inv in Hrun as (w8 & stats & H8 & Hrun).
  pose proof (quiet_eq _ _ _ _ _ (select_quiet _ _ _ _ _) H8) as T8.
  apply select_stats_result in H8 as (rows & Hrows & -> & _).
  assert (rows = df) as -> by congruence.
  exists (log w8). split; [|split].
  - rewrite (quiet_eq _ _ _ _ _ (post_step same_tables _
              (fun w => eq_refl : same_tables w (InitialLoad.log_stats year _ w).1))
              Hrun).
    congruence.
  - pose proof (initial_log_stats_log year (Db.stats_of df) w8) as Hlog.
    rewrite Hrun in Hlog. exact Hlog.
  - subst df. unfold Frame.clean. rewrite length_fmap. f_equal.
    apply (dropna_years year). eapply initial_process_loop_years; eauto.
Qed.

End Stats.

(** X17. A backfill run that returns after keeping records ends its log
    with the statistics of the table it has just filled: the number of
    incidents is the number of kept records, the number of groups is
    between one and that number, and the number of countries (empty
    ones not counted) is at most that number. *)
Theorem backfill_reports_table_statistics (E : env) (year : Z) (w : world)
    (items : list pyval) (processed : list row) :
  feed_items E year = Ok items ->
  InitialLoad.process_loop year items [] = Ok processed ->
  processed <> [] ->
  (InitialLoad.process_and_save_data_by_year E year w).2 = Ok tt ->
  exists before groups countries,
    log (InitialLoad.process_and_save_data_by_year E year w).1
    = (before
       ++ [(INFO, MsgStatsHeader year); (INFO, MsgIncidents (length processed));
           (INFO, MsgGroups groups); (INFO, MsgCountries countries)])%list
    /\ (1 <= groups <= length processed)%nat
    /\ (countries <= length processed)%nat
    /\ groups = length (remove_dups (group_name <$> Frame.clean processed))
    /\ countries
       = length (remove_dups
                   (filter (fun c => c ≠ "") (country <$> Frame.clean processed))).
Proof.
  intros Hitems Hloop Hne Hok.
  destruct (backfill_stats_aux E year w items processed Hitems Hloop Hne Hok)
    as (before & _ & Hlog & Hlen).
  destruct (stats_of_bounds (Frame.clean processed)) as (Hn & Hg & Hc & Hg1).
  exists before, (Db.stats_of (Frame.clean processed)).1.2,
    (Db.stats_of (Frame.clean processed)).2.
  rewrite Hlog, Hn, Hlen. split; [reflexivity|].
  rewrite Hlen in Hg, Hc.
  assert (Frame.clean processed <> []) as Hne'.
  { intros Hnil. rewrite Hnil in Hlen. destruct processed; [congruence|discriminate]. }
  specialize (Hg1 Hne'). repeat split; try assumption; reflexivity.
Qed.

Lemma backfill_reports_table_statistics_witness :
  feed_items env_two_records 2025 = Ok [raw1 "2025-03-01"; raw1 "2025-03-02"]
  /\ (InitialLoad.process_and_save_data_by_year env_two_records 2025
        (world_with [old_row])).2 = Ok tt
  /\ exists before groups countries,
       log (InitialLoad.process_and_save_data_by_year env_two_records 2025
              (world_with [old_row])).1
       = (before
          ++ [(INFO, MsgStatsHeader 2025); (INFO, MsgIncidents 2);
              (INFO, MsgGroups groups); (INFO, MsgCountries countries)])%list.
Proof.
  assert (feed_items env_two_records 2025
          = Ok [raw1 "2025-03-01"; raw1 "2025-03-02"]) as H1 by reflexivity.
  assert (InitialLoad.process_loop 2025 [raw1 "2025-03-01"; raw1 "2025-03-02"] []
          = Ok [plain_row (midnight 2025 3 1) (MonthInt 3);
                plain_row (midnight 2025 3 2) (MonthInt 3)]) as H2
    by (vm_compute; reflexivity).
  assert ([plain_row (midnight 2025 3 1) (MonthInt 3);
           plain_row (midnight 2025 3 2) (MonthInt 3)] <> []) as H3 by discriminate.
  assert ((InitialLoad.process_and_save_data_by_year env_two_records 2025
             (world_with [old_row])).2 = Ok tt) as H4 by (vm_compute; reflexivity).
  split; [exact H1|]. split; [exact H4|].
  destruct (backfill_reports_table_statistics env_two_records 2025
              (world_with [old_row]) _ _ H1 H2 H3 H4)
    as (before & groups & countries & Hlog & _).
  exists before, groups, countries. exact Hlog.
Defined.
